(** * Server-side component rendering: runtime/server/render/component.ts

    A shallow embedding of the renderer resolution engine, the component
    dispatcher, the hydration island builder and the top-level string
    renderer, followed by the properties established about them.

    Conventions of the embedding.
    - A JavaScript string is a [string]: a sequence of code units, each
      below 256.
    - An [await] is a sequencing point: the code is single threaded and the
      order of its effects is the order of the statements.
    - A function that may throw returns an [outcome]; every invocation of a
      renderer hook is recorded in a log threaded through the computation. *)

From Stdlib Require Import String Ascii List Bool Arith Lia ZArith DecimalString.
Import ListNotations.
Open Scope list_scope.
Open Scope string_scope.
Open Scope nat_scope.

(** ** String primitives of the host language *)

Module Str.

(** [s.includes(needle)] *)
Fixpoint includes (needle s : string) : bool :=
  if prefix needle s then true
  else match s with
       | EmptyString => false
       | String _ rest => includes needle rest
       end.

Fixpoint existsb (p : ascii -> bool) (s : string) : bool :=
  match s with
  | EmptyString => false
  | String c rest => p c || existsb p rest
  end.

Fixpoint take_while (p : ascii -> bool) (s : string) : string :=
  match s with
  | EmptyString => EmptyString
  | String c rest => if p c then String c (take_while p rest) else EmptyString
  end.

Fixpoint drop_while (p : ascii -> bool) (s : string) : string :=
  match s with
  | EmptyString => EmptyString
  | String c rest => if p c then drop_while p rest else s
  end.

(** White space as [\s] and [trim] understand it: TAB, LF, VT, FF, CR,
    SPACE and NBSP (the remaining white space is above 255). *)
Definition is_space (c : ascii) : bool :=
  let n := nat_of_ascii c in
  ((9 <=? n) && (n <=? 13)) || (n =? 32) || (n =? 160).

Definition trim_start (s : string) : string := drop_while is_space s.

Fixpoint trim_end (s : string) : string :=
  match s with
  | EmptyString => EmptyString
  | String c rest =>
      match trim_end rest with
      | EmptyString => if is_space c then EmptyString else String c EmptyString
      | rest' => String c rest'
      end
  end.

(** [s.trim()] *)
Definition trim (s : string) : string := trim_end (trim_start s).

(** [s.split(re)] for a regular expression [re] of the shape [[...]+]:
    every maximal run of characters of the class [sep] is one separator.
    [cur] is the token being read, [in_sep] tells that the previous
    character belonged to a separator. *)
Fixpoint split_runs_from (sep : ascii -> bool) (cur : string) (in_sep : bool)
         (s : string) : list string :=
  match s with
  | EmptyString => [cur]
  | String c rest =>
      if sep c then
        if in_sep then split_runs_from sep EmptyString true rest
        else cur :: split_runs_from sep EmptyString true rest
      else split_runs_from sep (cur ++ String c EmptyString) false rest
  end.

Definition split_runs (sep : ascii -> bool) (s : string) : list string :=
  split_runs_from sep EmptyString false s.

(** [s.split(c).pop()]: the text after the last occurrence of [c], the
    whole of [s] when [c] does not occur. *)
Fixpoint last_segment_from (c : ascii) (cur s : string) : string :=
  match s with
  | EmptyString => cur
  | String d rest =>
      if Ascii.eqb d c then last_segment_from c EmptyString rest
      else last_segment_from c (cur ++ String d EmptyString) rest
  end.

Definition split_pop (c : ascii) (s : string) : string :=
  last_segment_from c EmptyString s.

(** [array.join('')] *)
Definition join (l : list string) : string := String.concat EmptyString l.

(** Canonicalisation of a code unit under the [i] flag (no [u] flag):
    the ASCII letters are folded, nothing else below 256 reaches them. *)
Definition fold_case (c : ascii) : ascii :=
  let n := nat_of_ascii c in
  if (65 <=? n) && (n <=? 90) then ascii_of_nat (n + 32) else c.

Fixpoint map_chars (f : ascii -> ascii) (s : string) : string :=
  match s with
  | EmptyString => EmptyString
  | String c rest => String (f c) (map_chars f rest)
  end.

(** [[A-Za-z0-9_]], the word characters that [\b] looks at. *)
Definition is_word (c : ascii) : bool :=
  let n := nat_of_ascii c in
  ((48 <=? n) && (n <=? 57)) || ((65 <=? n) && (n <=? 90))
  || ((97 <=? n) && (n <=? 122)) || (n =? 95).

(** Number of characters up to and including the first [c], if any. *)
Fixpoint through_first (c : ascii) (s : string) : option nat :=
  match s with
  | EmptyString => None
  | String d rest =>
      if Ascii.eqb d c then Some 1
      else option_map S (through_first c rest)
  end.

Fixpoint drop (n : nat) (s : string) : string :=
  match n, s with
  | S m, String _ rest => drop m rest
  | _, _ => s
  end.

End Str.

(** ** Values, exceptions and the effect monad *)

Module Js.

(** Primitive values, as far as the code tells them apart. *)
Inductive primitive :=
| PUndefined
| PNull
| PBool (b : bool)
| PNumber (n : Z)
| PString (s : string).

Record location := { file : option string }.

(** The structured errors of core/errors that this file raises, each with
    the arguments given to its message and hint builders, and any other
    structured error a collaborator may raise. *)
Inductive AstroErrorData :=
| NoClientOnlyHint (componentName probableRenderers : string)
| NoMatchingRenderer (componentName : string) (componentExtension : option string)
                     (plural : bool) (validRenderersCount : nat)
                     (probableRenderers : string)
| NoClientEntrypoint (componentName clientDirective rendererName : string)
| OtherAstroError (name : string).

Inductive error_object :=
| Error (message : string)
| AstroError (data : AstroErrorData) (loc : option location).

(** Whatever a [throw] can carry. *)
Inductive value :=
| Prim (p : primitive)
| ErrorObject (e : error_object)
| Object (id : nat).

Definition prim_truthy (p : primitive) : bool :=
  match p with
  | PUndefined | PNull => false
  | PBool b => b
  | PNumber n => negb (Z.eqb n 0)
  | PString s => negb (String.eqb s "")
  end.

Definition truthy (v : value) : bool :=
  match v with
  | Prim p => prim_truthy p
  | ErrorObject _ | Object _ => true
  end.

(** The test of [??] and [??=]. *)
Definition nullish (v : value) : bool :=
  match v with
  | Prim PUndefined | Prim PNull => true
  | _ => false
  end.

(** String conversion of a primitive inside a template literal. *)
Definition prim_to_string (p : primitive) : string :=
  match p with
  | PUndefined => "undefined"
  | PNull => "null"
  | PBool true => "true"
  | PBool false => "false"
  | PNumber n => NilZero.string_of_int (Z.to_int n)
  | PString s => s
  end.

(** [`${x}`] for an optional string: [undefined] is spelled out. *)
Definition template_opt (o : option string) : string :=
  match o with
  | Some s => s
  | None => "undefined"
  end.

Inductive outcome (A : Type) :=
| Returns (a : A)
| Throws (e : value).
Arguments Returns {A} a.
Arguments Throws {A} e.

(** Renderer hooks whose invocations are observed. *)
Inductive hook := Check | RenderToStaticMarkup.

Record call := { call_hook : hook; call_renderer : string }.

(** A computation that may throw and that appends to the log of hook
    invocations. *)
Definition M (A : Type) : Type := list call -> outcome A * list call.

Definition ret {A} (a : A) : M A := fun log => (Returns a, log).

Definition throw {A} (e : value) : M A := fun log => (Throws e, log).

Definition bind {A B} (m : M A) (k : A -> M B) : M B :=
  fun log =>
    match m log with
    | (Returns a, log') => k a log'
    | (Throws e, log') => (Throws e, log')
    end.

Definition lift {A} (o : outcome A) : M A := fun log => (o, log).

(** Invoking the hook [h] of the renderer called [r]: the invocation is
    logged, then the hook's outcome is the outcome of the call. *)
Definition invoke {A} (h : hook) (r : string) (o : outcome A) : M A :=
  fun log => (o, (log ++ [{| call_hook := h; call_renderer := r |}])%list).

(** [try { m } catch (e) { handler e }] *)
Definition try_catch {A} (m : M A) (handler : value -> M A) : M A :=
  fun log =>
    match m log with
    | (Returns a, log') => (Returns a, log')
    | (Throws e, log') => handler e log'
    end.

End Js.

Import Js.

Notation "x <- m ;; k" := (bind m (fun x => k))
  (at level 61, m at next level, right associativity).
Notation "' pat <- m ;; k" := (bind m (fun x => match x with pat => k end))
  (at level 61, pat pattern, m at next level, right associativity).

(** ** Data model *)

(** Objects used as records of properties, in [Object.keys] order. *)
Definition get {A : Type} (key : string) (o : list (string * A)) : option A :=
  option_map snd (find (fun kv => String.eqb (fst kv) key) o).

Fixpoint set {A : Type} (key : string) (a : A) (o : list (string * A)) : list (string * A) :=
  match o with
  | [] => [(key, a)]
  | (k, b) :: rest => if String.eqb k key then (k, a) :: rest else (k, b) :: set key a rest
  end.

Definition keys {A : Type} (o : list (string * A)) : list string := map fst o.

Definition values {A : Type} (o : list (string * A)) : list A := map snd o.

Definition Props := list (string * value).

Definition Attrs := list (string * string).

(** The rendered child slots: slot name to rendered content. *)
Definition Children := list (string * string).

(** A slot of the caller: a function, opaque here, that the slot renderer
    knows how to run. *)
Inductive Slot := SlotFunction (id : nat).

Definition ComponentSlots := list (string * Slot).

(** The hydration descriptor that the directive extractor returns. The
    value of the directive is a string, as the data model has it
    (hydrateArgs is an optional string). *)
Record Hydration := {
  hydration_directive : string;
  hydration_value : string;
  hydration_componentExport : string;
  hydration_componentUrl : string
}.

Record ExtractedProps := {
  hydration : option Hydration;
  isPage : bool;
  props : Props
}.

(** AstroComponentMetadata; [astroStaticSlot] is the constant [true]. *)
Record Metadata := {
  displayName : string;
  hydrate : option string;
  hydrateArgs : option string;
  componentExport : option string;
  componentUrl : option string
}.

(** What reading [Component[Renderer]] does: a proxy may throw. *)
Inductive marker_read :=
| ReadThrows (e : value)
| ReadIs (v : value).

Record component_object := {
  renderer_marker : marker_read;
  astro_html : bool;
  isAstroComponentFactory : bool;
  needsHeadRendering : bool
}.

(** A component value once settled, classified by what the code probes. *)
Inductive component :=
| Primitive (p : primitive)
| FragmentSymbol
| Obj (o : component_object).

(** A component value as [renderComponent] receives it. *)
Inductive component_input :=
| Settled (c : component)
| Promise (settles : outcome component).

Record SSR := {
  check : component -> Props -> Children -> outcome bool;
  renderToStaticMarkup :
    component -> Props -> Children -> Metadata -> outcome (string * option Attrs);
  supportsAstroStaticSlot : option bool
}.

Record SSRLoadedRenderer := {
  name : string;
  clientEntrypoint : option string;
  ssr : SSR
}.

Record SSRResult := {
  renderers : list SSRLoadedRenderer;
  clientDirectives : list string;
  compressHTML : bool
}.

Inductive RenderInstruction :=
| DirectiveInstruction (h : Hydration)
| SlotInstruction (id : nat).

Inductive RenderDestinationChunk :=
| ChunkString (s : string)
| ChunkHTMLString (s : string)
| ChunkBytes (bytes : list ascii)
| ChunkInstruction (i : RenderInstruction)
| ChunkResponse.

(** A render instance is denoted by what [render(destination)] does: the
    chunks it writes, in order, and the value it rejects with, if any. *)
Record RenderInstance := {
  writes : list RenderDestinationChunk;
  rejects : option value
}.

Definition writing (chunks : list RenderDestinationChunk) : RenderInstance :=
  {| writes := chunks; rejects := None |}.

(** SSRElement, as far as this file touches it. *)
Record Island := {
  island_children : string;
  island_props : Props
}.

Record HydrateScriptOptions := {
  opt_renderer : option SSRLoadedRenderer;
  opt_result : SSRResult;
  opt_astroId : string;
  opt_props : Props;
  opt_attrs : option Attrs
}.

(** The collaborators imported by component.ts whose code lies in other
    modules: the directive extractor, the slot renderer, the DOM fallback,
    the attribute and element serialisers, the props serialiser and hash,
    the hydration script generator, the chunk stringifier, the head renderer
    and the template component instances. *)
Record Collaborators := {
  extractDirectives : Props -> list string -> outcome ExtractedProps;
  renderSlots : SSRResult -> ComponentSlots ->
                outcome (Children * option (list RenderInstruction));
  renderSlotToString : SSRResult -> option Slot -> outcome string;
  HTMLElement_is_function : bool;
  componentIsHTMLElement : component -> bool;
  renderHTMLElement : SSRResult -> component -> Props -> ComponentSlots -> outcome string;
  internalSpreadAttributes : Props -> string;
  voidElementNames_test : string -> bool;
  formatList : list string -> string;
  serializeProps : Props -> Metadata -> outcome string;
  shorthash : string -> string;
  generateHydrateScript : HydrateScriptOptions -> Metadata -> outcome Island;
  renderElement : string -> Island -> bool -> string;
  stringifyChunk : SSRResult -> RenderDestinationChunk -> string;
  maybeRenderHead : list RenderDestinationChunk;
  callHTMLComponent : component -> Children -> outcome string;
  createAstroComponentInstance :
    SSRResult -> string -> component -> Props -> ComponentSlots -> outcome RenderInstance
}.

(** Characters built from their codes. *)
Definition LF : string := String (ascii_of_nat 10) EmptyString.
Definition DQUOTE : string := String (ascii_of_nat 34) EmptyString.
Definition BACKTICK : string := String (ascii_of_nat 96) EmptyString.

(** ** The helpers of component.ts *)

Definition rendererAliases : list (string * string) := [("solid", "solid-js")].

Definition extname (componentUrl : option string) : option string :=
  option_map (Str.split_pop ".") componentUrl.

Definition guessRenderers (componentUrl : option string) : list string :=
  match extname componentUrl with
  | Some "svelte" => ["@astrojs/svelte"]
  | Some "vue" => ["@astrojs/vue"]
  | Some "jsx" | Some "tsx" =>
      ["@astrojs/react"; "@astrojs/preact"; "@astrojs/solid-js"; "@astrojs/vue (jsx)"]
  | _ =>
      ["@astrojs/react"; "@astrojs/preact"; "@astrojs/solid-js"; "@astrojs/vue";
       "@astrojs/svelte"; "@astrojs/lit"]
  end.

Definition isFragmentComponent (Component : component) : bool :=
  match Component with
  | FragmentSymbol => true
  | _ => false
  end.

Definition component_truthy (Component : component) : bool :=
  match Component with
  | Primitive p => prim_truthy p
  | FragmentSymbol | Obj _ => true
  end.

Definition isHTMLComponent (Component : component) : bool :=
  match Component with
  | Obj o => astro_html o
  | _ => false
  end.

Definition is_AstroComponentFactory (Component : component) : bool :=
  match Component with
  | Obj o => isAstroComponentFactory o
  | _ => false
  end.

Definition is_string_component (Component : component) : option string :=
  match Component with
  | Primitive (PString s) => Some s
  | _ => None
  end.

(** One attempt of [/\<\/?TAG\b[^>]*>/] at the start of [s]: the length
    of the match. *)
Definition match_slot_tag (tag s : string) : option nat :=
  match s with
  | String c r1 =>
      if Ascii.eqb c "<" then
        let '(slash, r2) :=
          match r1 with
          | String d r => if Ascii.eqb d "/" then (1, r) else (0, r1)
          | EmptyString => (0, r1)
          end in
        if prefix tag r2 then
          let r3 := Str.drop (String.length tag) r2 in
          let boundary :=
            match r3 with
            | String e _ => negb (Str.is_word e)
            | EmptyString => true
            end in
          if boundary then
            option_map (fun k => 1 + slash + String.length tag + k)
                       (Str.through_first ">" r3)
          else None
        else None
      else None
  | EmptyString => None
  end.

(** [s.replace(re, '')] for a global [re] whose matches are not empty:
    [skip] characters of the current match remain to be dropped. *)
Fixpoint remove_matches (m : string -> option nat) (skip : nat) (s : string) : string :=
  match s with
  | EmptyString => EmptyString
  | String c rest =>
      match skip with
      | S k => remove_matches m k rest
      | O =>
          match m s with
          | Some (S k) => remove_matches m k rest
          | _ => String c (remove_matches m 0 rest)
          end
      end
  end.

Definition ASTRO_SLOT_EXP : string -> option nat := match_slot_tag "astro-slot".
Definition ASTRO_STATIC_SLOT_EXP : string -> option nat := match_slot_tag "astro-static-slot".

Definition removeStaticAstroSlot (html : string) (supportsAstroStaticSlot : bool) : string :=
  let exp := if supportsAstroStaticSlot then ASTRO_STATIC_SLOT_EXP else ASTRO_SLOT_EXP in
  remove_matches exp 0 html.

(** The character class of [unsafe] in [sanitizeElementName]: ampersand,
    angle brackets, single and double quote, white space. *)
Definition is_unsafe (c : ascii) : bool :=
  let n := nat_of_ascii c in
  (n =? 38) || (n =? 60) || (n =? 62) || (n =? 39) || (n =? 34) || Str.is_space c.

Definition sanitizeElementName (tag : string) : string :=
  if negb (Str.existsb is_unsafe tag) then tag
  else Str.trim (hd EmptyString (Str.split_runs is_unsafe (Str.trim tag))).

(** Modelled from the spec: the low-level string-escaping utilities are an
    external collaborator (../escape.js); the spec only tells which
    characters a tag name must not carry: ampersand, angle brackets, single
    and double quote. The escaping applied to an interpolated plain string
    replaces exactly those five characters by their entities. *)
Definition escape_char (c : ascii) : string :=
  let n := nat_of_ascii c in
  if n =? 38 then "&amp;"
  else if n =? 60 then "&lt;"
  else if n =? 62 then "&gt;"
  else if n =? 39 then "&#39;"
  else if n =? 34 then "&quot;"
  else String c EmptyString.

Fixpoint escapeHTML (s : string) : string :=
  match s with
  | EmptyString => EmptyString
  | String c rest => escape_char c ++ escapeHTML rest
  end.

(** [s.replace(pattern, replacement)] for a string pattern: the first
    occurrence only. *)
Fixpoint replace_first (pattern replacement s : string) : string :=
  if prefix pattern s then replacement ++ Str.drop (String.length pattern) s
  else match s with
       | EmptyString => EmptyString
       | String c rest => String c (replace_first pattern replacement rest)
       end.

(** Modelled from the spec: chunkToString (./common.js) is not among the
    sources; the spec describes a chunk as a string, a binary-safe string
    or a structured instruction. A text chunk stringifies to its text; what
    the other chunks stringify to is left to the collaborator. *)
Definition chunkToString (env : Collaborators) (result : SSRResult)
           (chunk : RenderDestinationChunk) : string :=
  match chunk with
  | ChunkString s | ChunkHTMLString s => s
  | _ => stringifyChunk env result chunk
  end.

(** Modelled from the spec: renderTemplate (./astro/index.js) is not among
    the sources; the spec leaves the template machinery to an external
    collaborator. It is the tagged template of the framework: the literal
    parts are written as they are, an interpolated plain string is escaped
    and an interpolated marked string is written as it is; an expression
    that is falsy (and not the number zero) is skipped. *)
Inductive template_expression :=
| PlainString (s : string)
| MarkedString (s : string).

Definition expression_chunks (e : template_expression) : list RenderDestinationChunk :=
  match e with
  | PlainString s => if String.eqb s "" then [] else [ChunkHTMLString (escapeHTML s)]
  | MarkedString s => [ChunkHTMLString s]
  end.

Fixpoint renderTemplate (htmlParts : list string) (expressions : list template_expression)
  : list RenderDestinationChunk :=
  match htmlParts with
  | [] => []
  | part :: parts =>
      ChunkHTMLString part ::
      match expressions with
      | [] => renderTemplate parts []
      | e :: es => (expression_chunks e ++ renderTemplate parts es)%list
      end
  end.

(** ** Truthiness of the optional strings the code tests *)

Definition string_truthy (s : string) : bool := negb (String.eqb s "").

Definition opt_truthy (o : option string) : bool :=
  match o with
  | Some s => string_truthy s
  | None => false
  end.

Definition opt_is (o : option string) (s : string) : bool :=
  match o with
  | Some t => String.eqb t s
  | None => false
  end.

Definition name_is_value (v : value) (r : SSRLoadedRenderer) : bool :=
  match v with
  | Prim (PString s) => String.eqb (name r) s
  | _ => false
  end.

(** [name === `@astrojs/${n}` || name === n] *)
Definition name_matches (n : option string) (r : SSRLoadedRenderer) : bool :=
  String.eqb (name r) ("@astrojs/" ++ template_opt n) || opt_is n (name r).

(** ** renderFrameworkComponent *)

Section Rendering.

Variable env : Collaborators.

(** Metadata as built from the extracted hydration descriptor. *)
Definition build_metadata (displayName : string) (hydration : option Hydration) : Metadata :=
  match hydration with
  | Some h =>
      {| displayName := displayName;
         hydrate := Some (hydration_directive h);
         hydrateArgs := Some (hydration_value h);
         componentExport := Some (hydration_componentExport h);
         componentUrl := Some (hydration_componentUrl h) |}
  | None =>
      {| displayName := displayName;
         hydrate := None;
         hydrateArgs := None;
         componentExport := None;
         componentUrl := None |}
  end.

Definition hydrate_is_only (metadata : Metadata) : bool := opt_is (hydrate metadata) "only".

(** Reading [Component[Renderer]] (lines 118 and 124). *)
Definition read_marker (Component : component) : outcome value :=
  match Component with
  | Obj o =>
      match renderer_marker o with
      | ReadThrows e => Throws e
      | ReadIs v => Returns v
      end
  | _ => Returns (Prim PUndefined)
  end.

(** [isTagged] after the guarded read of lines 116-122:
    [Component && Component[Renderer]], left at [false] when the read
    throws. *)
Definition isTagged (Component : component) : value :=
  match Component with
  | Primitive p =>
      if prim_truthy p then Prim PUndefined else Prim p
  | _ =>
      match read_marker Component with
      | Returns v => v
      | Throws _ => Prim (PBool false)
      end
  end.

(** The lookup by the pre-tagged renderer name (lines 123-126). *)
Definition tagged_renderer (renderers : list SSRLoadedRenderer) (Component : component)
  : M (option SSRLoadedRenderer) :=
  if truthy (isTagged Component) then
    rendererName <- lift (read_marker Component) ;;
    ret (find (name_is_value rendererName) renderers)
  else ret None.

(** The loop over the renderers (lines 130-139): [error] is the variable
    of that name, [undefined] at first. The result is the renderer that claimed the
    component, if any, and the final value of [error]. *)
Fixpoint check_renderers (Component : component) (props : Props) (children : Children)
         (rs : list SSRLoadedRenderer) (error : value)
  : M (option SSRLoadedRenderer * value) :=
  match rs with
  | [] => ret (None, error)
  | r :: rest =>
      step <- try_catch
                (claimed <- invoke Check (name r) (check (ssr r) Component props children) ;;
                 ret (inl claimed))
                (fun e => ret (inr e)) ;;
      match step with
      | inl true => ret (Some r, error)
      | inl false => check_renderers Component props children rest error
      | inr e =>
          check_renderers Component props children rest
                          (if nullish error then e else error)
      end
  end.

(** The block run when no renderer was found by its tag (lines 128-146). *)
Definition claim_by_check (renderers : list SSRLoadedRenderer) (Component : component)
           (props : Props) (children : Children) : M (option SSRLoadedRenderer) :=
  ' (renderer, error) <- check_renderers Component props children renderers (Prim PUndefined) ;;
  match renderer with
  | Some r => ret (Some r)
  | None => if truthy error then throw error else ret None
  end.

(** The branch of [metadata.hydrate !== 'only'] (lines 112-146), up to its
    early return. *)
Definition resolve_normal (renderers : list SSRLoadedRenderer) (Component : component)
           (props : Props) (children : Children) : M (option SSRLoadedRenderer) :=
  renderer <- tagged_renderer renderers Component ;;
  match renderer with
  | Some r => ret (Some r)
  | None => claim_by_check renderers Component props children
  end.

(** The branch of [metadata.hydrate === 'only'] (lines 161-183). *)
Definition resolve_only (renderers validRenderers : list SSRLoadedRenderer)
           (metadata : Metadata) : option SSRLoadedRenderer :=
  let renderer :=
    if opt_truthy (hydrateArgs metadata) then
      let passedName := hydrateArgs metadata in
      let rendererName :=
        match passedName with
        | Some n =>
            match get n rendererAliases with
            | Some alias => Some alias
            | None => passedName
            end
        | None => passedName
        end in
      find (name_matches rendererName) renderers
    else None in
  let renderer :=
    match renderer, validRenderers with
    | None, [only] => Some only
    | _, _ => renderer
    end in
  match renderer with
  | Some r => Some r
  | None =>
      let extname := extname (componentUrl metadata) in
      hd_error (filter (name_matches extname) renderers)
  end.

(** Where the resolution (lines 110-183) leaves the function: with the
    variable [renderer] set or not, or with the element-serialisation
    instance returned (lines 148-160). *)
Inductive resolution :=
| Resolved (renderer : option SSRLoadedRenderer)
| Finished (instance : RenderInstance).

Definition resolve_renderer (result : SSRResult) (Component : component)
           (_props props : Props) (children : Children) (slots : ComponentSlots)
           (metadata : Metadata) (validRenderers : list SSRLoadedRenderer) : M resolution :=
  if negb (hydrate_is_only metadata) then
    renderer <- resolve_normal (renderers result) Component props children ;;
    match renderer with
    | Some r => ret (Resolved (Some r))
    | None =>
        if HTMLElement_is_function env && componentIsHTMLElement env Component then
          output <- lift (renderHTMLElement env result Component _props slots) ;;
          ret (Finished (writing [ChunkString output]))
        else ret (Resolved None)
    end
  else ret (Resolved (resolve_only (renderers result) validRenderers metadata)).

Definition unable_to_render_message (displayName probable : string) : string :=
  "Unable to render " ++ displayName ++ "!" ++ LF ++ LF
  ++ "This component likely uses " ++ probable ++ "," ++ LF
  ++ "but Astro encountered an error during server-side rendering." ++ LF ++ LF
  ++ "Please ensure that " ++ displayName ++ ":" ++ LF
  ++ "1. Does not unconditionally access browser-specific globals like "
  ++ BACKTICK ++ "window" ++ BACKTICK ++ " or " ++ BACKTICK ++ "document" ++ BACKTICK ++ "." ++ LF
  ++ "   If this is unavoidable, use the " ++ BACKTICK ++ "client:only" ++ BACKTICK
  ++ " hydration directive." ++ LF
  ++ "2. Does not conditionally return " ++ BACKTICK ++ "null" ++ BACKTICK ++ " or "
  ++ BACKTICK ++ "undefined" ++ BACKTICK ++ " when rendered on the server." ++ LF ++ LF
  ++ "If you're still stuck, please open an issue on GitHub or join us at https://astro.build/chat.".

Definition call_renderToStaticMarkup (r : SSRLoadedRenderer) (Component : component)
           (props : Props) (children : Children) (metadata : Metadata)
  : M (string * option Attrs) :=
  invoke RenderToStaticMarkup (name r)
         (renderToStaticMarkup (ssr r) Component props children metadata).

(** The statement [if (!renderer) ... else ...] of lines 185-250 that
    produces [html] and [attrs]; the result carries the variable [renderer] as well, which the
    single probable renderer may set. *)
Definition render_markup (result : SSRResult) (Component : component) (props : Props)
           (children : Children) (slots : ComponentSlots) (metadata : Metadata)
           (validRenderers : list SSRLoadedRenderer) (probableRendererNames : list string)
           (renderer : option SSRLoadedRenderer)
  : M (option SSRLoadedRenderer * string * option Attrs) :=
  match renderer with
  | None =>
      if hydrate_is_only metadata then
        throw (ErrorObject (AstroError
          (NoClientOnlyHint (displayName metadata)
             (String.concat "|" (map (replace_first "@astrojs/" "") probableRendererNames)))
          None))
      else
        match is_string_component Component with
        | Some _ => ret (None, "", None)
        | None =>
            let matchingRenderers :=
              filter (fun r => existsb (String.eqb (name r)) probableRendererNames)
                     validRenderers in
            let plural := 1 <? length validRenderers in
            match matchingRenderers with
            | [] =>
                throw (ErrorObject (AstroError
                  (NoMatchingRenderer (displayName metadata)
                     (extname (componentUrl metadata)) plural (length validRenderers)
                     (formatList env
                        (map (fun r => BACKTICK ++ r ++ BACKTICK) probableRendererNames)))
                  None))
            | [r] =>
                ' (html, attrs) <- call_renderToStaticMarkup r Component props children metadata ;;
                ret (Some r, html, attrs)
            | _ =>
                throw (ErrorObject (Error
                  (unable_to_render_message (displayName metadata)
                     (formatList env probableRendererNames))))
            end
        end
  | Some r =>
      if hydrate_is_only metadata then
        html <- lift (renderSlotToString env result (get "fallback" slots)) ;;
        ret (Some r, html, None)
      else
        ' (html, attrs) <- call_renderToStaticMarkup r Component props children metadata ;;
        ret (Some r, html, attrs)
  end.

(** The check on the client entrypoint that follows (lines 252-268). *)
Definition validate_clientEntrypoint (displayName : string) (metadata : Metadata)
           (renderer : option SSRLoadedRenderer) : outcome unit :=
  match renderer with
  | Some r =>
      if negb (opt_truthy (clientEntrypoint r))
         && negb (String.eqb (name r) "@astrojs/lit")
         && opt_truthy (hydrate metadata)
      then Throws (ErrorObject (AstroError
             (NoClientEntrypoint displayName (template_opt (hydrate metadata)) (name r))
             None))
      else Returns tt
  | None => Returns tt
  end.

(** The markup of a custom element without a renderer (lines 272-291): the
    template is rendered into a destination that concatenates its chunks. *)
Definition custom_element_template (Tag : string) (props : Props) (childSlots : string)
  : list RenderDestinationChunk :=
  renderTemplate
    ["<"; ""; ""; ""]
    [PlainString Tag;
     MarkedString (internalSpreadAttributes env props);
     MarkedString
       (if String.eqb childSlots "" && voidElementNames_test env Tag
        then "/>"
        else ">" ++ childSlots ++ "</" ++ Tag ++ ">")].

Definition collect_html (result : SSRResult) (chunks : list RenderDestinationChunk) : string :=
  fold_left
    (fun html chunk =>
       match chunk with
       | ChunkResponse => html
       | _ => html ++ chunkToString env result chunk
       end)
    chunks "".

Definition render_custom_element (result : SSRResult) (Component : string) (props : Props)
           (children : Children) : string :=
  let Tag := sanitizeElementName Component in
  let childSlots := Str.join (values children) in
  collect_html result (custom_element_template Tag props childSlots).

(** The statement [if (!html && typeof Component === 'string') ...] for
    an [html] that is a string: the initial empty string or the markup of a
    static render. *)
Definition custom_element_fallback (result : SSRResult) (Component : component)
           (props : Props) (children : Children) (html : string) : string :=
  match is_string_component Component with
  | Some tag => if string_truthy html then html else render_custom_element result tag props children
  | None => html
  end.

(** Modelled from the spec: the slot renderer (./slot.js) is not among the
    sources; it resolves child content into a rendered string plus any
    buffered streaming instructions, and the value it returns carries both:
    it is a string object around the rendered text, truthy whatever the
    text. Under the only directive [html] holds that object when line 272
    is reached (line 240 has run, or the function has thrown), so the test
    [!html] fails and the markup is kept, for a string component as well;
    under any other directive [html] is a string and the statement is the
    one above. *)
Definition custom_element_statement (result : SSRResult) (Component : component)
           (metadata : Metadata) (props : Props) (children : Children) (html : string)
  : string :=
  if hydrate_is_only metadata then html
  else custom_element_fallback result Component props children html.

Definition instruction_chunks (slotInstructions : option (list RenderInstruction))
  : list RenderDestinationChunk :=
  match slotInstructions with
  | Some instructions => map ChunkInstruction instructions
  | None => []
  end.

Definition renderer_supportsAstroStaticSlot (renderer : option SSRLoadedRenderer) : option bool :=
  match renderer with
  | Some r => supportsAstroStaticSlot (ssr r)
  | None => None
  end.

Definition renderer_name_is (renderer : option SSRLoadedRenderer) (n : string) : bool :=
  match renderer with
  | Some r => String.eqb (name r) n
  | None => false
  end.

(** The instance returned when there is no hydration (lines 293-313). *)
Definition static_instance (renderer : option SSRLoadedRenderer) (isPage : bool)
           (slotInstructions : option (list RenderInstruction)) (html : string)
  : RenderInstance :=
  writing
    (instruction_chunks slotInstructions ++
     (if isPage || renderer_name_is renderer "astro:jsx" then [ChunkString html]
      else if string_truthy html then
        [ChunkHTMLString
           (removeStaticAstroSlot html
              (match renderer_supportsAstroStaticSlot renderer with
               | Some b => b
               | None => false
               end))]
      else []))%list.

(** The text that is hashed into the island identity (lines 315-321). *)
Definition astroId_text (componentExport_value : string) (componentUrl : option string)
           (html serializedProps : string) : string :=
  "<!--" ++ componentExport_value ++ ":" ++ template_opt componentUrl ++ "-->" ++ LF
  ++ html ++ LF ++ serializedProps.

Definition compute_astroId (metadata : Metadata) (props : Props) (html : string)
  : outcome string :=
  match componentExport metadata with
  | None =>
      Throws (ErrorObject (Error "Cannot read properties of undefined (reading 'value')"))
  | Some exported =>
      match serializeProps env props metadata with
      | Throws e => Throws e
      | Returns serialized =>
          Returns (shorthash env
                     (astroId_text exported (componentUrl metadata) html serialized))
      end
  end.

(** The marker tag looked for in the markup (lines 333-338). *)
Definition slot_tagName (renderer : option SSRLoadedRenderer) (metadata : Metadata) : string :=
  match renderer_supportsAstroStaticSlot renderer with
  | Some true => if opt_truthy (hydrate metadata) then "astro-slot" else "astro-static-slot"
  | _ => "astro-slot"
  end.

Definition expectedHTML (tagName key : string) : string :=
  if String.eqb key "default" then "<" ++ tagName ++ ">"
  else "<" ++ tagName ++ " name=" ++ DQUOTE ++ key ++ DQUOTE ++ ">".

Definition unrenderedSlots (renderer : option SSRLoadedRenderer) (metadata : Metadata)
           (html : string) (children : Children) : list string :=
  if string_truthy html then
    if 0 <? length (keys children) then
      filter (fun key =>
                negb (Str.includes (expectedHTML (slot_tagName renderer metadata) key) html))
             (keys children)
    else []
  else keys children.

Definition slot_template (children : Children) (key : string) : string :=
  "<template data-astro-template"
  ++ (if negb (String.eqb key "default") then "=" ++ DQUOTE ++ key ++ DQUOTE else "")
  ++ ">" ++ template_opt (get key children) ++ "</template>".

Definition templates (children : Children) (unrendered : list string) : string :=
  if 0 <? length unrendered then Str.join (map (slot_template children) unrendered)
  else "".

Definition island_content (renderer : option SSRLoadedRenderer) (metadata : Metadata)
           (html : string) (children : Children) : string :=
  html ++ templates children (unrenderedSlots renderer metadata html children).

(** The island (lines 315-363): its identity, its bootstrap element, its
    hosted content. *)
Definition build_island (result : SSRResult) (renderer : option SSRLoadedRenderer)
           (metadata : Metadata) (props : Props) (attrs : option Attrs)
           (children : Children) (html : string) : outcome Island :=
  match compute_astroId metadata props html with
  | Throws e => Throws e
  | Returns astroId =>
      match generateHydrateScript env
              {| opt_renderer := renderer; opt_result := result; opt_astroId := astroId;
                 opt_props := props; opt_attrs := attrs |} metadata with
      | Throws e => Throws e
      | Returns island =>
          let content := island_content renderer metadata html children in
          Returns
            {| island_children := content;
               island_props :=
                 if string_truthy content
                 then set "await-children" (Prim (PString "")) (island_props island)
                 else island_props island |}
      end
  end.

Definition island_instance (slotInstructions : option (list RenderInstruction))
           (h : Hydration) (island : Island) : RenderInstance :=
  writing
    (instruction_chunks slotInstructions ++
     [ChunkInstruction (DirectiveInstruction h);
      ChunkHTMLString (renderElement env "astro-island" island false)])%list.

Definition client_only (_props : Props) : bool :=
  match get "client:only" _props with
  | Some v => truthy v
  | None => false
  end.

Definition component_to_string (Component : component) : string :=
  match Component with
  | Primitive p => prim_to_string p
  | FragmentSymbol => "Symbol(astro:fragment)"
  | Obj _ => "[object Object]"
  end.

Definition renderFrameworkComponent (result : SSRResult) (displayName : string)
           (Component : component) (_props : Props) (slots : ComponentSlots)
  : M RenderInstance :=
  if negb (component_truthy Component) && negb (client_only _props) then
    throw (ErrorObject (Error
      ("Unable to render " ++ displayName ++ " because it is "
       ++ component_to_string Component ++ "!" ++ LF
       ++ "Did you forget to import the component or is it possible there is a typo?")))
  else
    extracted <- lift (extractDirectives env _props (clientDirectives result)) ;;
    let props := props extracted in
    let metadata := build_metadata displayName (hydration extracted) in
    let probableRendererNames := guessRenderers (componentUrl metadata) in
    let validRenderers :=
      filter (fun r => negb (String.eqb (name r) "astro:jsx")) (renderers result) in
    ' (children, slotInstructions) <- lift (renderSlots env result slots) ;;
    found <- resolve_renderer result Component _props props children slots metadata
                              validRenderers ;;
    match found with
    | Finished instance => ret instance
    | Resolved renderer =>
        ' (renderer, html, attrs) <-
          render_markup result Component props children slots metadata validRenderers
                        probableRendererNames renderer ;;
        _ <- lift (validate_clientEntrypoint displayName metadata renderer) ;;
        let html := custom_element_statement result Component metadata props children html in
        match hydration extracted with
        | None => ret (static_instance renderer (isPage extracted) slotInstructions html)
        | Some h =>
            island <- lift (build_island result renderer metadata props attrs children html) ;;
            ret (island_instance slotInstructions h island)
        end
    end.

(** ** The other render strategies and the dispatcher *)

(** The rendered slot is a string, so the guard [children == null] of the
    source never holds and the instance writes that one chunk. *)
Definition renderFragmentComponent (result : SSRResult) (slots : ComponentSlots)
  : M RenderInstance :=
  children <- lift (renderSlotToString env result (get "default" slots)) ;;
  ret (writing [ChunkHTMLString children]).

Definition renderHTMLComponent (result : SSRResult) (Component : component)
           (_props : Props) (slots : ComponentSlots) : M RenderInstance :=
  ' (children, slotInstructions) <- lift (renderSlots env result slots) ;;
  html <- lift (callHTMLComponent env Component children) ;;
  let hydrationHtml :=
    match slotInstructions with
    | Some instructions =>
        Str.join (map (fun instr => chunkToString env result (ChunkInstruction instr))
                      instructions)
    | None => ""
    end in
  ret (writing [ChunkHTMLString (hydrationHtml ++ html)]).

(** The instance of a template component renders into a buffer from the
    start; the returned instance first flushes the buffer, then lets the
    rest go to the destination directly. Either way the destination
    receives the chunks of the instance in the order they were produced,
    which is all that the denotation of an instance records. *)
Definition renderAstroComponent (result : SSRResult) (displayName : string)
           (Component : component) (props : Props) (slots : ComponentSlots)
  : M RenderInstance :=
  lift (createAstroComponentInstance env result displayName Component props slots).

(** [if (isPromise(Component)) Component = await Component] *)
Definition await_component (Component : component_input) : outcome component :=
  match Component with
  | Settled c => Returns c
  | Promise settles => settles
  end.

Definition renderComponent (result : SSRResult) (displayName : string)
           (Component : component_input) (props : Props) (slots : ComponentSlots)
  : M RenderInstance :=
  Component <- lift (await_component Component) ;;
  if isFragmentComponent Component then renderFragmentComponent result slots
  else if isHTMLComponent Component then renderHTMLComponent result Component props slots
  else if is_AstroComponentFactory Component then
    renderAstroComponent result displayName Component props slots
  else renderFrameworkComponent result displayName Component props slots.

(** ** renderComponentToString *)

Definition decimal (n : nat) : string := NilZero.string_of_uint (Nat.to_uint n).

(** [String(chunk)] *)
Definition String_of_chunk (chunk : RenderDestinationChunk) : string :=
  match chunk with
  | ChunkString s | ChunkHTMLString s => s
  | ChunkBytes bytes => String.concat "," (map (fun b => decimal (nat_of_ascii b)) bytes)
  | ChunkInstruction _ => "[object Object]"
  | ChunkResponse => "[object Response]"
  end.

(** [/<!doctype html/i.test(s)] *)
Definition doctype_test (s : string) : bool :=
  Str.includes "<!doctype html" (Str.map_chars Str.fold_case s).

(** The state that the destination of [renderComponentToString] closes over. *)
Record string_destination := {
  str : string;
  renderedFirstPageChunk : bool
}.

Definition doctype_for (result : SSRResult) : string :=
  if compressHTML result then "<!DOCTYPE html>" else "<!DOCTYPE html>" ++ LF.

(** [destination.write(chunk)] *)
Definition write_chunk (result : SSRResult) (isPage : bool) (head : string)
           (d : string_destination) (chunk : RenderDestinationChunk) : string_destination :=
  let d :=
    if isPage && negb (renderedFirstPageChunk d) then
      {| str := if negb (doctype_test (String_of_chunk chunk))
                then str d ++ (doctype_for result ++ head)
                else str d;
         renderedFirstPageChunk := true |}
    else d in
  match chunk with
  | ChunkResponse => d
  | _ => {| str := str d ++ chunkToString env result chunk;
            renderedFirstPageChunk := renderedFirstPageChunk d |}
  end.

Definition write_all (result : SSRResult) (isPage : bool) (head : string)
           (d : string_destination) (chunks : list RenderDestinationChunk)
  : string_destination :=
  fold_left (write_chunk result isPage head) chunks d.

Definition nonAstroPageNeedsHeadInjection (pageComponent : component_input) : bool :=
  match pageComponent with
  | Settled (Obj o) => needsHeadRendering o
  | _ => false
  end.

Record RouteData := { route_component : string }.

(** The handler of the [catch], as the value it throws. The test
    [AstroError.is(e)] reads the property [type] of the caught value: on
    [null] and [undefined] the read itself throws a type error, which
    takes the place of the caught value. Otherwise a structured error
    without a location gets the file of the route, and the caught value is
    thrown again. *)
Definition with_location (route : option RouteData) (e : value) : value :=
  match e with
  | Prim PUndefined =>
      ErrorObject (Error "Cannot read properties of undefined (reading 'type')")
  | Prim PNull =>
      ErrorObject (Error "Cannot read properties of null (reading 'type')")
  | ErrorObject (AstroError data None) =>
      ErrorObject (AstroError data (Some {| file := option_map route_component route |}))
  | _ => e
  end.

Definition initial_destination : string_destination :=
  {| str := ""; renderedFirstPageChunk := false |}.

Definition head_content (result : SSRResult) (Component : component_input) : string :=
  if nonAstroPageNeedsHeadInjection Component then
    fold_left (fun head headChunk => head ++ chunkToString env result headChunk)
              (maybeRenderHead env) ""
  else "".

Definition renderComponentToString (result : SSRResult) (displayName : string)
           (Component : component_input) (props : Props) (slots : ComponentSlots)
           (isPage : bool) (route : option RouteData) : M string :=
  let head := head_content result Component in
  try_catch
    (renderInstance <- renderComponent result displayName Component props slots ;;
     let d := write_all result isPage head initial_destination (writes renderInstance) in
     match rejects renderInstance with
     | Some e => throw e
     | None => ret (str d)
     end)
    (fun e => throw (with_location route e)).

End Rendering.

(** ** The normal resolution path, told declaratively

    The same resolution as [resolve_normal] for a component without a tag,
    from the outcomes of the capability checks taken as data: who claims
    the component, who is consulted, which thrown value is kept. *)

Section NormalPath.

Variables (Component : component) (props : Props) (children : Children).

Definition claims (r : SSRLoadedRenderer) : bool :=
  match check (ssr r) Component props children with
  | Returns true => true
  | _ => false
  end.

Definition thrown_by (r : SSRLoadedRenderer) : option value :=
  match check (ssr r) Component props children with
  | Throws e => Some e
  | Returns _ => None
  end.

(** The renderers whose check is invoked: all of them up to and including
    the first that claims the component. *)
Fixpoint consulted (rs : list SSRLoadedRenderer) : list SSRLoadedRenderer :=
  match rs with
  | [] => []
  | r :: rest => if claims r then [r] else r :: consulted rest
  end.

(** The values thrown by the checks, in registry order. *)
Fixpoint thrown_values (rs : list SSRLoadedRenderer) : list value :=
  match rs with
  | [] => []
  | r :: rest =>
      match thrown_by r with
      | Some e => e :: thrown_values rest
      | None => thrown_values rest
      end
  end.

(** The thrown value that is kept: the first that is neither [null] nor
    [undefined]. *)
Definition recorded_error (rs : list SSRLoadedRenderer) : option value :=
  find (fun e => negb (nullish e)) (thrown_values rs).

Definition normal_path_outcome (rs : list SSRLoadedRenderer)
  : outcome (option SSRLoadedRenderer) :=
  match find claims rs with
  | Some r => Returns (Some r)
  | None =>
      match recorded_error rs with
      | Some e => if truthy e then Throws e else Returns None
      | None => Returns None
      end
  end.

End NormalPath.

Definition check_call (r : SSRLoadedRenderer) : call :=
  {| call_hook := Check; call_renderer := name r |}.

Definition renderToStaticMarkup_call (r : SSRLoadedRenderer) : call :=
  {| call_hook := RenderToStaticMarkup; call_renderer := name r |}.

(** ** The resolution under the only directive, told declaratively *)

(** The alias table in words: solid stands for solid-js. *)
Definition alias_of (n : string) : string :=
  if String.eqb n "solid" then "solid-js" else n.

(** The renderer is called [n], with or without the scope. *)
Definition named (n : string) (r : SSRLoadedRenderer) : bool :=
  String.eqb (name r) ("@astrojs/" ++ n) || String.eqb (name r) n.

(** The renderer named by the argument of the directive, if a name was
    passed and a renderer answers to it. *)
Definition explicit_renderer (renderers : list SSRLoadedRenderer) (metadata : Metadata)
  : option SSRLoadedRenderer :=
  match hydrateArgs metadata with
  | Some n => if String.eqb n "" then None else find (named (alias_of n)) renderers
  | None => None
  end.

Definition non_pass_through (renderers : list SSRLoadedRenderer) : list SSRLoadedRenderer :=
  filter (fun r => negb (String.eqb (name r) "astro:jsx")) renderers.

(** ** The sanitised tag name, told declaratively *)

Definition is_safe (c : ascii) : bool := negb (is_unsafe c).

(** Everything from the first unsafe character on is stripped. *)
Definition strip_from_first_unsafe (tag : string) : string := Str.take_while is_safe tag.

(** The same after the leading white space has been dropped. *)
Definition first_token (tag : string) : string :=
  strip_from_first_unsafe (Str.trim_start tag).

(** ** The statements that follow the markup, as one step

    What [renderFrameworkComponent] does once [renderer], [html] and
    [attrs] are set: no renderer hook is invoked any more, so the step is
    an outcome. *)

Definition after_markup (env : Collaborators) (result : SSRResult) (displayName : string)
           (Component : component) (extracted : ExtractedProps) (children : Children)
           (slotInstructions : option (list RenderInstruction))
           (renderer : option SSRLoadedRenderer) (html : string) (attrs : option Attrs)
  : outcome RenderInstance :=
  let metadata := build_metadata displayName (hydration extracted) in
  match validate_clientEntrypoint displayName metadata renderer with
  | Throws e => Throws e
  | Returns _ =>
      let html :=
        custom_element_statement env result Component metadata (props extracted)
                                 children html in
      match hydration extracted with
      | None => Returns (static_instance renderer (isPage extracted) slotInstructions html)
      | Some h =>
          match build_island env result renderer metadata (props extracted) attrs
                             children html with
          | Throws e => Throws e
          | Returns island => Returns (island_instance env slotInstructions h island)
          end
      end
  end.

(** ** What a chunk adds to the string

    The text that [renderComponentToString] appends for a chunk: nothing
    for a response object, the stringified chunk otherwise. *)

Definition chunk_text (env : Collaborators) (result : SSRResult)
           (chunk : RenderDestinationChunk) : string :=
  match chunk with
  | ChunkResponse => ""
  | _ => chunkToString env result chunk
  end.

(** ** Auxiliary notions of the statements *)

(** The assignment [error ??= e]. *)
Definition keep_first (error e : value) : value := if nullish error then e else error.

(** The four conditions of the missing client entrypoint, for the
    renderer [r]. *)
Definition missing_client_entrypoint (metadata : Metadata)
           (renderer : option SSRLoadedRenderer) (r : SSRLoadedRenderer) : Prop :=
  renderer = Some r
  /\ opt_truthy (hydrate metadata) = true
  /\ opt_truthy (clientEntrypoint r) = false
  /\ name r <> "@astrojs/lit".

Definition NoClientEntrypoint_error (displayName : string) (metadata : Metadata)
           (r : SSRLoadedRenderer) : value :=
  ErrorObject (AstroError
    (NoClientEntrypoint displayName (template_opt (hydrate metadata)) (name r)) None).

(** ** renderAstroComponent, with its buffer (lines 427-446)

    The state shared by the buffer destination and the returned
    [render]: the buffered chunks, whether [bufferDestination.write] has
    been re-assigned to the real destination, and what the real
    destination has received. *)

Record buffered_render := {
  bufferChunks : list RenderDestinationChunk;
  rebound : bool;
  received : list RenderDestinationChunk
}.

(** [bufferDestination.write(chunk)], before and after the re-assignment. *)
Definition bufferDestination_write (st : buffered_render) (chunk : RenderDestinationChunk)
  : buffered_render :=
  if rebound st then
    {| bufferChunks := bufferChunks st; rebound := true;
       received := (received st ++ [chunk])%list |}
  else
    {| bufferChunks := (bufferChunks st ++ [chunk])%list; rebound := false;
       received := received st |}.

(** The part of the returned [render(destination)] that runs before it
    awaits: the buffered chunks are written, the buffer is emptied, the
    write of the buffer destination is re-assigned. *)
Definition flush_buffer (st : buffered_render) : buffered_render :=
  {| bufferChunks := [];
     rebound := true;
     received := fold_left (fun dest chunk => (dest ++ [chunk])%list)
                           (bufferChunks st) (received st) |}.

(** The instance writes [early] before the returned [render] is invoked and
    [late] after it; [dest] is what the destination holds beforehand. *)
Definition render_buffered (dest early late : list RenderDestinationChunk) : buffered_render :=
  fold_left bufferDestination_write late
            (flush_buffer
               (fold_left bufferDestination_write early
                          {| bufferChunks := []; rebound := false; received := dest |})).

(** ** Slot markers *)

(** A slot marker as the regular expressions see it: the opening bracket,
    a slash for a closing tag, the tag name, attributes that do not begin
    with a word character and hold no closing bracket, the closing
    bracket. *)
Definition slot_marker (closing : bool) (static : bool) (attributes : string) : string :=
  "<" ++ (if closing then "/" else "")
  ++ (if static then "astro-static-slot" else "astro-slot")
  ++ attributes ++ ">".

Definition attributes_ok (attributes : string) : bool :=
  negb (Str.existsb (Ascii.eqb ">") attributes)
  && match attributes with
     | EmptyString => true
     | String c _ => negb (Str.is_word c)
     end.

(** ** The lists of probable renderers *)

Definition jsx_renderer_names : list string :=
  ["@astrojs/react"; "@astrojs/preact"; "@astrojs/solid-js"; "@astrojs/vue (jsx)"].

Definition all_renderer_names : list string :=
  ["@astrojs/react"; "@astrojs/preact"; "@astrojs/solid-js"; "@astrojs/vue";
   "@astrojs/svelte"; "@astrojs/lit"].

(** ** Sample inputs

    Concrete renderers, components and collaborators on which the
    definitions above are evaluated. *)

Definition sample_renderer (n : string) (claim : outcome bool) (html : string)
           (entrypoint : option string) : SSRLoadedRenderer :=
  {| name := n;
     clientEntrypoint := entrypoint;
     ssr := {| check := fun _ _ _ => claim;
               renderToStaticMarkup := fun _ _ _ _ => Returns (html, None);
               supportsAstroStaticSlot := None |} |}.

Definition sample_object (marker : marker_read) : component :=
  Obj {| renderer_marker := marker;
         astro_html := false;
         isAstroComponentFactory := false;
         needsHeadRendering := false |}.

(** A framework component without a tag, one tagged for a renderer, and a
    proxy whose properties cannot be read. *)
Definition untagged_component : component := sample_object (ReadIs (Prim PUndefined)).

Definition tagged_component (rendererName : string) : component :=
  sample_object (ReadIs (Prim (PString rendererName))).

Definition proxy_component : component :=
  sample_object (ReadThrows (ErrorObject (Error "'get' on proxy: property is read-only"))).

Definition react_renderer : SSRLoadedRenderer :=
  sample_renderer "@astrojs/react" (Returns true) "<div>react</div>" (Some "@astrojs/react/client.js").

Definition vue_renderer : SSRLoadedRenderer :=
  sample_renderer "@astrojs/vue" (Returns false) "<div>vue</div>" (Some "@astrojs/vue/client.js").

Definition failing_renderer : SSRLoadedRenderer :=
  sample_renderer "@astrojs/svelte" (Throws (ErrorObject (Error "window is not defined")))
                  "" (Some "@astrojs/svelte/client.js").

(** A renderer whose check throws [null]. *)
Definition null_throwing_renderer : SSRLoadedRenderer :=
  sample_renderer "@astrojs/preact" (Throws (Prim PNull)) "" (Some "@astrojs/preact/client.js").

Definition jsx_renderer : SSRLoadedRenderer :=
  sample_renderer "astro:jsx" (Returns false) "" None.

Definition only_hydration (rendererName componentUrl : string) : Hydration :=
  {| hydration_directive := "only";
     hydration_value := rendererName;
     hydration_componentExport := "default";
     hydration_componentUrl := componentUrl |}.

Definition load_hydration (componentUrl : string) : Hydration :=
  {| hydration_directive := "load";
     hydration_value := "true";
     hydration_componentExport := "default";
     hydration_componentUrl := componentUrl |}.

Definition idle_hydration (componentUrl : string) : Hydration :=
  {| hydration_directive := "idle";
     hydration_value := "true";
     hydration_componentExport := "default";
     hydration_componentUrl := componentUrl |}.

(** A renderer that declares no client entrypoint. *)
Definition server_only_renderer : SSRLoadedRenderer :=
  sample_renderer "@astrojs/mdx" (Returns true) "<article></article>" None.

Definition lit_renderer : SSRLoadedRenderer :=
  sample_renderer "@astrojs/lit" (Returns true) "<my-element></my-element>" None.

(** A first chunk in which a comment comes before the doctype. *)
Definition commented_page_chunk : RenderDestinationChunk :=
  ChunkString "<!-- generated --><!DOCTYPE html><html></html>".

(** A directive extractor for the samples: the [client:] properties make
    the hydration descriptor, the other properties are kept. *)
Definition sample_value_text (v : value) : string :=
  match v with
  | Prim p => prim_to_string p
  | _ => ""
  end.

Definition empty_hydration : Hydration :=
  {| hydration_directive := ""; hydration_value := "";
     hydration_componentExport := ""; hydration_componentUrl := "" |}.

Definition sample_extract_step (extracted : ExtractedProps) (kv : string * value)
  : ExtractedProps :=
  let '(key, v) := kv in
  if prefix "client:" key then
    let h := match hydration extracted with Some h => h | None => empty_hydration end in
    let h' :=
      if String.eqb key "client:component-path" then
        {| hydration_directive := hydration_directive h;
           hydration_value := hydration_value h;
           hydration_componentExport := hydration_componentExport h;
           hydration_componentUrl := sample_value_text v |}
      else if String.eqb key "client:component-export" then
        {| hydration_directive := hydration_directive h;
           hydration_value := hydration_value h;
           hydration_componentExport := sample_value_text v;
           hydration_componentUrl := hydration_componentUrl h |}
      else if String.eqb key "client:component-hydration"
              || String.eqb key "client:display-name" then h
      else
        {| hydration_directive := Str.drop 7 key;
           hydration_value := sample_value_text v;
           hydration_componentExport := hydration_componentExport h;
           hydration_componentUrl := hydration_componentUrl h |} in
    {| hydration := Some h'; isPage := isPage extracted; props := props extracted |}
  else
    {| hydration := hydration extracted; isPage := isPage extracted;
       props := (props extracted ++ [(key, v)])%list |}.

Definition sample_extractDirectives (inputProps : Props) (clientDirectives : list string)
  : outcome ExtractedProps :=
  Returns (fold_left sample_extract_step inputProps
                     {| hydration := None; isPage := false; props := [] |}).

Definition sample_slot_content (slot : Slot) : string :=
  match slot with
  | SlotFunction 0 => "<p>hi</p>"
  | SlotFunction 1 => "<em>loading</em>"
  | SlotFunction _ => "<span>slot</span>"
  end.

Definition sample_spread (p : Props) : string :=
  Str.join (map (fun kv => " " ++ fst kv ++ "=" ++ DQUOTE ++ sample_value_text (snd kv) ++ DQUOTE) p).

Definition sample_void_elements : list string :=
  ["area"; "base"; "br"; "col"; "command"; "embed"; "hr"; "img"; "input"; "keygen";
   "link"; "meta"; "param"; "source"; "track"; "wbr"].

Definition sample_env : Collaborators :=
  {| extractDirectives := sample_extractDirectives;
     renderSlots := fun _ slots =>
       Returns (map (fun kv => (fst kv, sample_slot_content (snd kv))) slots, None);
     renderSlotToString := fun _ slot =>
       Returns match slot with Some f => sample_slot_content f | None => "" end;
     HTMLElement_is_function := false;
     componentIsHTMLElement := fun _ => false;
     renderHTMLElement := fun _ _ _ _ => Returns "";
     internalSpreadAttributes := sample_spread;
     voidElementNames_test := fun tag =>
       existsb (String.eqb (Str.map_chars Str.fold_case tag)) sample_void_elements;
     formatList := String.concat ", ";
     serializeProps := fun p _ => Returns (sample_spread p);
     shorthash := fun text => "h" ++ decimal (String.length text);
     generateHydrateScript := fun options _ =>
       Returns {| island_children := "";
                  island_props := [("uid", Prim (PString (opt_astroId options)))] |};
     renderElement := fun tag island _ =>
       "<" ++ tag ++ sample_spread (island_props island) ++ ">"
       ++ island_children island ++ "</" ++ tag ++ ">";
     stringifyChunk := fun _ _ => "";
     maybeRenderHead := [ChunkHTMLString "<link rel=stylesheet href=/page.css>"];
     callHTMLComponent := fun _ _ => Returns "";
     createAstroComponentInstance := fun _ _ _ _ _ => Returns (writing []) |}.

Definition sample_result (rs : list SSRLoadedRenderer) : SSRResult :=
  {| renderers := rs;
     clientDirectives := ["idle"; "load"; "media"; "only"; "visible"];
     compressHTML := false |}.

(** A renderer that leaves the marker of the default slot in its markup. *)
Definition slot_marking_renderer : SSRLoadedRenderer :=
  sample_renderer "@astrojs/preact" (Returns true) "<div><astro-slot>x</astro-slot></div>"
                  (Some "@astrojs/preact/client.js").

(** The props of a component hydrated on load, as the compiler passes
    them. *)
Definition load_props (componentUrl : string) : Props :=
  [("client:load", Prim (PString "true"));
   ("client:component-path", Prim (PString componentUrl));
   ("client:component-export", Prim (PString "default"))].

(** Collaborators of a host in which the platform elements exist: every
    object is an element constructor, serialised to a fixed markup. *)
Definition dom_env : Collaborators :=
  {| extractDirectives := extractDirectives sample_env;
     renderSlots := renderSlots sample_env;
     renderSlotToString := renderSlotToString sample_env;
     HTMLElement_is_function := true;
     componentIsHTMLElement := fun Component =>
       match Component with Obj _ => true | _ => false end;
     renderHTMLElement := fun _ _ _ _ => Returns "<my-element></my-element>";
     internalSpreadAttributes := internalSpreadAttributes sample_env;
     voidElementNames_test := voidElementNames_test sample_env;
     formatList := formatList sample_env;
     serializeProps := serializeProps sample_env;
     shorthash := shorthash sample_env;
     generateHydrateScript := generateHydrateScript sample_env;
     renderElement := renderElement sample_env;
     stringifyChunk := stringifyChunk sample_env;
     maybeRenderHead := maybeRenderHead sample_env;
     callHTMLComponent := callHTMLComponent sample_env;
     createAstroComponentInstance := createAstroComponentInstance sample_env |}.

(** An HTML component. *)
Definition html_component : component :=
  Obj {| renderer_marker := ReadIs (Prim PUndefined);
         astro_html := true;
         isAstroComponentFactory := false;
         needsHeadRendering := false |}.

(** Collaborators for which an HTML component returns a fixed markup and
    the slot renderer returns one instruction. *)
Definition html_env : Collaborators :=
  {| extractDirectives := extractDirectives sample_env;
     renderSlots := fun _ slots =>
       Returns (map (fun kv => (fst kv, sample_slot_content (snd kv))) slots,
                Some [SlotInstruction 7]);
     renderSlotToString := renderSlotToString sample_env;
     HTMLElement_is_function := false;
     componentIsHTMLElement := componentIsHTMLElement sample_env;
     renderHTMLElement := renderHTMLElement sample_env;
     internalSpreadAttributes := internalSpreadAttributes sample_env;
     voidElementNames_test := voidElementNames_test sample_env;
     formatList := formatList sample_env;
     serializeProps := serializeProps sample_env;
     shorthash := shorthash sample_env;
     generateHydrateScript := generateHydrateScript sample_env;
     renderElement := renderElement sample_env;
     stringifyChunk := fun _ _ => "<script>/* slot */</script>";
     maybeRenderHead := maybeRenderHead sample_env;
     callHTMLComponent := fun _ _ => Returns "<h1>About</h1>";
     createAstroComponentInstance := createAstroComponentInstance sample_env |}.

(** A renderer whose check would not claim anything and whose static
    render fails for the component. *)
Definition crashing_renderer : SSRLoadedRenderer :=
  {| name := "@astrojs/solid-js";
     clientEntrypoint := Some "@astrojs/solid-js/client.js";
     ssr := {| check := fun _ _ _ => Returns false;
               renderToStaticMarkup := fun _ _ _ _ =>
                 Throws (ErrorObject (Error "document is not defined"));
               supportsAstroStaticSlot := Some true |} |}.

(** A renderer without a client entrypoint that claims the component and
    whose static render fails. *)
Definition entryless_crashing_renderer : SSRLoadedRenderer :=
  {| name := "@astrojs/markdoc";
     clientEntrypoint := None;
     ssr := {| check := fun _ _ _ => Returns true;
               renderToStaticMarkup := fun _ _ _ _ =>
                 Throws (ErrorObject (Error "document is not defined"));
               supportsAstroStaticSlot := None |} |}.

(** The props of a component under the only directive, as the compiler
    passes them. *)
Definition only_props (rendererName componentUrl : string) : Props :=
  [("client:only", Prim (PString rendererName));
   ("client:component-path", Prim (PString componentUrl));
   ("client:component-export", Prim (PString "default"))].

(** The island that the sample collaborators make of a markup and a
    content that is not empty. *)
Definition sample_island (componentUrl html content : string) : Island :=
  {| island_children := content;
     island_props :=
       [("uid", Prim (PString (shorthash sample_env
                                 (astroId_text "default" (Some componentUrl) html ""))));
        ("await-children", Prim (PString ""))] |}.

(** * Properties *)

(** ** Evaluation on concrete inputs *)

Example includes_inner : Str.includes "b" "abc" = true.
Proof. reflexivity. Qed.

Example split_runs_leading : Str.split_runs Str.is_space " a  b " = [""; "a"; "b"; ""].
Proof. reflexivity. Qed.

Example split_pop_ext : Str.split_pop "." "/src/Counter.test.jsx" = "jsx".
Proof. reflexivity. Qed.

Example split_pop_none : Str.split_pop "." "Counter" = "Counter".
Proof. reflexivity. Qed.

Example removeStaticAstroSlot_plain :
  removeStaticAstroSlot "<div><astro-slot name=x>hi</astro-slot></div>" false = "<div>hi</div>".
Proof. reflexivity. Qed.

Example removeStaticAstroSlot_static :
  removeStaticAstroSlot "<astro-slot>a</astro-slot><astro-static-slot>b</astro-static-slot>" true
  = "<astro-slot>a</astro-slot>b".
Proof. reflexivity. Qed.

Example removeStaticAstroSlot_boundary :
  removeStaticAstroSlot "<astro-slots>a" false = "<astro-slots>a".
Proof. reflexivity. Qed.

Example sanitize_plain : sanitizeElementName "my-tag" = "my-tag".
Proof. reflexivity. Qed.

Example sanitize_injection : sanitizeElementName "div onclick=alert(1)" = "div".
Proof. reflexivity. Qed.

Example sanitize_leading : sanitizeElementName " div onclick" = "div".
Proof. reflexivity. Qed.

Example sanitize_bracket : sanitizeElementName "<script" = "".
Proof. reflexivity. Qed.

(** ** The effect monad *)

Lemma bind_ret {A B} (a : A) (k : A -> M B) (log : list call) :
  bind (ret a) k log = k a log.
Proof. reflexivity. Qed.

Lemma bind_lift_returns {A B} (a : A) (k : A -> M B) (log : list call) :
  bind (lift (Returns a)) k log = k a log.
Proof. reflexivity. Qed.

Lemma bind_lift_throws {A B} (e : value) (k : A -> M B) (log : list call) :
  bind (lift (Throws e)) k log = (Throws e, log).
Proof. reflexivity. Qed.

Lemma bind_eq {A B} (m : M A) (k : A -> M B) (log log' : list call) (a : A) :
  m log = (Returns a, log') -> bind m k log = k a log'.
Proof. unfold bind. intros ->. reflexivity. Qed.

Lemma bind_throws {A B} (m : M A) (k : A -> M B) (log log' : list call) (e : value) :
  m log = (Throws e, log') -> bind m k log = (Throws e, log').
Proof. unfold bind. intros ->. reflexivity. Qed.

(** ** The loop over the capability checks *)

Lemma check_renderers_cons Component props children r rest error log :
  check_renderers Component props children (r :: rest) error log =
  match check (ssr r) Component props children with
  | Returns true => (Returns (Some r, error), (log ++ [check_call r])%list)
  | Returns false =>
      check_renderers Component props children rest error (log ++ [check_call r])%list
  | Throws e =>
      check_renderers Component props children rest (keep_first error e)
                      (log ++ [check_call r])%list
  end.
Proof.
  cbn [check_renderers]. unfold bind, try_catch, invoke, ret, check_call.
  destruct (check (ssr r) Component props children) as [[|]|e]; reflexivity.
Qed.

Lemma check_renderers_run Component props children rs : forall error log,
  check_renderers Component props children rs error log =
  (Returns (find (claims Component props children) rs,
            fold_left keep_first
                      (thrown_values Component props children
                                     (consulted Component props children rs))
                      error),
   (log ++ map check_call (consulted Component props children rs))%list).
Proof.
  induction rs as [|r rest IH]; intros error log.
  - cbn. rewrite app_nil_r. reflexivity.
  - rewrite check_renderers_cons. cbn [find consulted thrown_values].
    destruct (check (ssr r) Component props children) as [[|]|e] eqn:Hc.
    + assert (Hcl : claims Component props children r = true)
        by (unfold claims; rewrite Hc; reflexivity).
      rewrite Hcl. cbn. unfold thrown_by. rewrite Hc. reflexivity.
    + assert (Hcl : claims Component props children r = false)
        by (unfold claims; rewrite Hc; reflexivity).
      rewrite Hcl, IH. cbn [thrown_values map]. unfold thrown_by. rewrite Hc.
      rewrite <- app_assoc. reflexivity.
    + assert (Hcl : claims Component props children r = false)
        by (unfold claims; rewrite Hc; reflexivity).
      rewrite Hcl, IH. cbn [thrown_values map]. unfold thrown_by. rewrite Hc.
      cbn [fold_left]. rewrite <- app_assoc. reflexivity.
Qed.

Lemma consulted_all Component props children rs :
  find (claims Component props children) rs = None ->
  consulted Component props children rs = rs.
Proof.
  induction rs as [|r rest IH]; cbn; [reflexivity|].
  destruct (claims Component props children r); [discriminate|].
  intros H. rewrite IH by exact H. reflexivity.
Qed.

Lemma nullish_not_truthy v : nullish v = true -> truthy v = false.
Proof. destruct v as [[| | | |]| |]; cbn; congruence. Qed.

Lemma keep_first_kept vs : forall error,
  nullish error = false -> fold_left keep_first vs error = error.
Proof.
  induction vs as [|v vs IH]; intros error H; cbn; [reflexivity|].
  unfold keep_first at 2. rewrite H. apply IH, H.
Qed.

Lemma keep_first_recorded vs : forall error,
  nullish error = true ->
  match find (fun e => negb (nullish e)) vs with
  | Some e => fold_left keep_first vs error = e
  | None => nullish (fold_left keep_first vs error) = true
  end.
Proof.
  induction vs as [|v vs IH]; intros error H; cbn; [exact H|].
  unfold keep_first at 2 4. rewrite H.
  destruct (nullish v) eqn:Hv; cbn.
  - apply IH, Hv.
  - apply keep_first_kept, Hv.
Qed.

Lemma claim_by_check_run renderers Component props children log :
  claim_by_check renderers Component props children log =
  (normal_path_outcome Component props children renderers,
   (log ++ map check_call (consulted Component props children renderers))%list).
Proof.
  unfold claim_by_check.
  erewrite bind_eq by apply check_renderers_run.
  unfold normal_path_outcome, recorded_error.
  destruct (find (claims Component props children) renderers) as [r|] eqn:Hfind;
    [reflexivity|].
  rewrite (consulted_all _ _ _ _ Hfind).
  pose proof (keep_first_recorded (thrown_values Component props children renderers)
                                  (Prim PUndefined) eq_refl) as Hrec.
  destruct (find (fun e => negb (nullish e))
                 (thrown_values Component props children renderers)) as [e|].
  - rewrite Hrec. destruct (truthy e); reflexivity.
  - rewrite (nullish_not_truthy _ Hrec). reflexivity.
Qed.

(** C1, as amended. In the normal resolution path (component without a
    tag, directive other than only) the checks are invoked in registry
    order up to and including the first that returns true, and that
    renderer is selected. A value thrown by a check is not raised again at
    once; the first thrown value that is neither null nor undefined is
    kept. When the whole iteration selects no renderer and the kept value
    is truthy, it is raised again; otherwise the resolution goes on with no
    renderer. *)
Theorem C1_normal_path renderers Component props children log :
  truthy (isTagged Component) = false ->
  resolve_normal renderers Component props children log =
  (normal_path_outcome Component props children renderers,
   (log ++ map check_call (consulted Component props children renderers))%list).
Proof.
  intros Htag. unfold resolve_normal, tagged_renderer. rewrite Htag.
  rewrite bind_ret. apply claim_by_check_run.
Qed.

(** The first check throws, the second claims the component, the third is
    never asked. *)
Lemma C1_normal_path_witness :
  resolve_normal [failing_renderer; react_renderer; vue_renderer]
                 untagged_component [] [] [] =
  (Returns (Some react_renderer), [check_call failing_renderer; check_call react_renderer]).
Proof.
  exact (C1_normal_path [failing_renderer; react_renderer; vue_renderer]
                        untagged_component [] [] [] eq_refl).
Defined.

(** When the checks throw truthy values only, error objects for one, the
    value raised again is the first one thrown. *)
Lemma normal_path_first_thrown Component props children renderers :
  find (claims Component props children) renderers = None ->
  (forall e, In e (thrown_values Component props children renderers) -> truthy e = true) ->
  normal_path_outcome Component props children renderers =
  match thrown_values Component props children renderers with
  | e :: _ => Throws e
  | [] => Returns None
  end.
Proof.
  intros Hnone Htruthy. unfold normal_path_outcome, recorded_error. rewrite Hnone.
  destruct (thrown_values Component props children renderers) as [|e rest];
    [reflexivity|].
  pose proof (Htruthy e (or_introl eq_refl)) as He. cbn [find].
  destruct (nullish e) eqn:Hn; [rewrite (nullish_not_truthy _ Hn) in He; discriminate|].
  cbn [negb]. rewrite He. reflexivity.
Qed.

(** C1 as stated fails: a check throws, no renderer claims the component,
    and the thrown value, being [null], is not raised again. *)
Lemma C1_counterexample :
  check (ssr null_throwing_renderer) untagged_component [] [] = Throws (Prim PNull)
  /\ find (claims untagged_component [] []) [null_throwing_renderer; vue_renderer] = None
  /\ resolve_normal [null_throwing_renderer; vue_renderer] untagged_component [] [] [] =
     (Returns None, [check_call null_throwing_renderer; check_call vue_renderer]).
Proof. repeat split. Qed.

(** ** The pre-tagged renderer *)

Lemma find_name_is_value v renderers r :
  find (name_is_value v) renderers = Some r ->
  v = Prim (PString (name r)).
Proof.
  intros H. apply find_some in H as [_ H].
  destruct v as [[| | | |s]| |]; cbn in H; try discriminate.
  apply String.eqb_eq in H. rewrite H. reflexivity.
Qed.

(** C2, as amended. In the branch of a directive other than only: when the
    component carries the marker and the marker is the name of a registered
    renderer, the first renderer of that name is selected and no renderer
    hook is invoked for it; when the marker names no registered renderer,
    the resolution is the one by the capability checks, as for a component
    without a marker; an exception thrown while the marker is read is not
    propagated: the component counts as not tagged and the resolution is
    the one by the capability checks. *)
Theorem C2_pre_tagged renderers o props children log :
  (forall v r,
      renderer_marker o = ReadIs v -> truthy v = true ->
      find (name_is_value v) renderers = Some r ->
      v = Prim (PString (name r))
      /\ resolve_normal renderers (Obj o) props children log = (Returns (Some r), log))
  /\ (forall v,
      renderer_marker o = ReadIs v -> truthy v = true ->
      find (name_is_value v) renderers = None ->
      resolve_normal renderers (Obj o) props children log =
      claim_by_check renderers (Obj o) props children log
      /\ resolve_normal renderers (Obj o) props children log =
         (normal_path_outcome (Obj o) props children renderers,
          (log ++ map check_call (consulted (Obj o) props children renderers))%list))
  /\ (forall e,
      renderer_marker o = ReadThrows e ->
      isTagged (Obj o) = Prim (PBool false)
      /\ resolve_normal renderers (Obj o) props children log =
         claim_by_check renderers (Obj o) props children log).
Proof.
  refine (conj _ (conj _ _)).
  - intros v r Hread Htruthy Hfind. split; [eapply find_name_is_value, Hfind|].
    unfold resolve_normal, tagged_renderer, isTagged, read_marker.
    rewrite Hread, Htruthy. cbn. unfold bind, lift, ret. rewrite Hfind. reflexivity.
  - intros v Hread Htruthy Hfind.
    assert (Hrun : resolve_normal renderers (Obj o) props children log =
                   claim_by_check renderers (Obj o) props children log).
    { unfold resolve_normal, tagged_renderer, isTagged, read_marker.
      rewrite Hread, Htruthy. unfold bind at 1. unfold bind at 1. unfold lift, ret.
      rewrite Hfind. reflexivity. }
    split; [exact Hrun|]. rewrite Hrun. apply claim_by_check_run.
  - intros e Hread.
    unfold resolve_normal, tagged_renderer, isTagged, read_marker.
    rewrite Hread. split; reflexivity.
Qed.

(** A component tagged for the second renderer of the registry: it is
    selected although the first one would claim it, and no check runs. *)
Lemma C2_pre_tagged_witness :
  resolve_normal [react_renderer; vue_renderer] (tagged_component "@astrojs/vue") [] [] [] =
  (Returns (Some vue_renderer), []).
Proof.
  exact (proj2 (proj1 (C2_pre_tagged [react_renderer; vue_renderer]
                         {| renderer_marker := ReadIs (Prim (PString "@astrojs/vue"));
                            astro_html := false;
                            isAstroComponentFactory := false;
                            needsHeadRendering := false |} [] [] [])
                      (Prim (PString "@astrojs/vue")) vue_renderer
                      eq_refl eq_refl eq_refl)).
Defined.

(** The marker of a proxy cannot be read: the checks decide. *)
Example proxy_is_checked :
  resolve_normal [vue_renderer; react_renderer] proxy_component [] [] [] =
  (Returns (Some react_renderer), [check_call vue_renderer; check_call react_renderer]).
Proof. reflexivity. Qed.

(** C2 as stated fails: the component carries the marker of a renderer
    that is not registered; a capability check is invoked and the renderer
    selected is not the one of the marker. *)
Lemma C2_counterexample :
  truthy (isTagged (tagged_component "@astrojs/vue")) = true
  /\ resolve_normal [react_renderer] (tagged_component "@astrojs/vue") [] [] [] =
     (Returns (Some react_renderer), [check_call react_renderer]).
Proof. split; reflexivity. Qed.

(** ** The only directive *)

Lemma hd_error_filter {A} (p : A -> bool) (l : list A) :
  hd_error (filter p l) = find p l.
Proof.
  induction l as [|a l IH]; cbn; [reflexivity|].
  destruct (p a); [reflexivity|exact IH].
Qed.

Lemma find_ext {A} (p q : A -> bool) (l : list A) :
  (forall a, p a = q a) -> find p l = find q l.
Proof.
  intros H. induction l as [|a l IH]; cbn; [reflexivity|].
  rewrite H, IH. reflexivity.
Qed.

Lemma name_matches_some n r : name_matches (Some n) r = named n r.
Proof. unfold name_matches, named, opt_is. cbn. rewrite (String.eqb_sym n). reflexivity. Qed.

Lemma aliased n :
  match get n rendererAliases with
  | Some alias => Some alias
  | None => Some n
  end = Some (alias_of n).
Proof.
  unfold get, rendererAliases, alias_of. cbn [find fst].
  rewrite (String.eqb_sym "solid" n).
  destruct (String.eqb n "solid"); reflexivity.
Qed.

Lemma resolve_only_explicit renderers valid metadata :
  resolve_only renderers valid metadata =
  match explicit_renderer renderers metadata with
  | Some r => Some r
  | None =>
      match valid with
      | [r] => Some r
      | _ => find (name_matches (extname (componentUrl metadata))) renderers
      end
  end.
Proof.
  unfold resolve_only, explicit_renderer, opt_truthy, string_truthy.
  rewrite hd_error_filter.
  destruct (hydrateArgs metadata) as [n|].
  - destruct (String.eqb n "") eqn:Hn; cbn [negb].
    + destruct valid as [|r [|r' valid]]; reflexivity.
    + rewrite aliased. rewrite (find_ext _ _ _ (name_matches_some (alias_of n))).
      destruct (find (named (alias_of n)) renderers) as [r|]; [reflexivity|].
      destruct valid as [|r [|r' valid]]; reflexivity.
  - destruct valid as [|r [|r' valid]]; reflexivity.
Qed.

(** C3. Under the only directive the renderer is settled without any hook
    being invoked, in this order: the renderer named by the argument of the
    directive, the alias table applied, scoped or bare; failing that, the
    one renderer other than the pass-through one, whatever its check would
    say; failing that, the first registered renderer named, scoped or bare,
    after the extension of the component URL. *)
Theorem C3_only_resolution env result displayName Component _props props children slots h log :
  hydration_directive h = "only" ->
  let metadata := build_metadata displayName (Some h) in
  let registry := renderers result in
  let valid := non_pass_through registry in
  exists chosen,
    resolve_renderer env result Component _props props children slots metadata valid log =
    (Returns (Resolved chosen), log)
    /\ (forall r, explicit_renderer registry metadata = Some r -> chosen = Some r)
    /\ (explicit_renderer registry metadata = None ->
        forall r, valid = [r] -> chosen = Some r)
    /\ (explicit_renderer registry metadata = None ->
        length valid <> 1 ->
        chosen = find (named (Str.split_pop "." (hydration_componentUrl h))) registry).
Proof.
  intros Honly metadata registry valid.
  exists (resolve_only registry valid metadata). split.
  - unfold resolve_renderer, hydrate_is_only. cbn. rewrite Honly. reflexivity.
  - rewrite resolve_only_explicit. repeat split.
    + intros r ->. reflexivity.
    + intros -> r ->. reflexivity.
    + intros -> Hlen. cbn [metadata build_metadata componentUrl extname option_map].
      rewrite (find_ext _ _ _ (name_matches_some _)).
      destruct valid as [|r [|r' rest]]; cbn in Hlen; try reflexivity. congruence.
Qed.

(** Only the pass-through renderer and one other are registered, no name
    is passed: the other one is selected although its check says no. *)
Lemma C3_only_resolution_witness :
  exists chosen,
    resolve_renderer sample_env (sample_result [jsx_renderer; vue_renderer])
                     untagged_component [] [] [] []
                     (build_metadata "Counter" (Some (only_hydration "" "/src/Counter.jsx")))
                     (non_pass_through [jsx_renderer; vue_renderer]) [] =
    (Returns (Resolved chosen), [])
    /\ chosen = Some vue_renderer
    /\ check (ssr vue_renderer) untagged_component [] [] = Returns false.
Proof.
  destruct (C3_only_resolution sample_env (sample_result [jsx_renderer; vue_renderer])
              "Counter" untagged_component [] [] [] []
              (only_hydration "" "/src/Counter.jsx") [] eq_refl)
    as (chosen & Hrun & _ & Hone & _).
  exists chosen. split; [exact Hrun|]. split; [|reflexivity].
  apply Hone; reflexivity.
Defined.

Example only_alias :
  resolve_only [react_renderer; sample_renderer "@astrojs/solid-js" (Returns false) "" None]
               [react_renderer; sample_renderer "@astrojs/solid-js" (Returns false) "" None]
               (build_metadata "Counter" (Some (only_hydration "solid" "/src/Counter.jsx")))
  = Some (sample_renderer "@astrojs/solid-js" (Returns false) "" None).
Proof. reflexivity. Qed.

Example only_extension :
  resolve_only [react_renderer; vue_renderer] [react_renderer; vue_renderer]
               (build_metadata "Counter" (Some (only_hydration "" "/src/Counter.vue")))
  = Some vue_renderer.
Proof. reflexivity. Qed.

(** ** Substrings *)

Lemma prefix_iff p : forall s, prefix p s = true <-> exists rest, s = p ++ rest.
Proof.
  induction p as [|c p IH]; intros s.
  - split; [intros _; exists s; reflexivity|]. intros _. destruct s; reflexivity.
  - destruct s as [|d s]; cbn.
    + split; [discriminate|intros [rest H]; discriminate].
    + destruct (ascii_dec c d) as [->|Hne].
      * rewrite IH. split; intros [rest H]; exists rest; [rewrite H; reflexivity|].
        inversion H. reflexivity.
      * split; [discriminate|]. intros [rest H]. inversion H. congruence.
Qed.

Lemma includes_unfold needle s :
  Str.includes needle s =
  prefix needle s || match s with
                     | EmptyString => false
                     | String _ rest => Str.includes needle rest
                     end.
Proof.
  destruct s as [|c s]; cbn [Str.includes];
    [destruct (prefix needle "")|destruct (prefix needle (String c s))]; reflexivity.
Qed.

Lemma append_assoc (a b c : string) : (a ++ b) ++ c = a ++ (b ++ c).
Proof. induction a as [|x a IH]; cbn; [reflexivity|rewrite IH; reflexivity]. Qed.

Lemma append_empty_r (a : string) : a ++ "" = a.
Proof. induction a as [|x a IH]; cbn; [reflexivity|rewrite IH; reflexivity]. Qed.

(** [includes] holds exactly of the texts in which the needle occurs. *)
Lemma includes_iff needle : forall s,
  Str.includes needle s = true <-> exists before after, s = before ++ needle ++ after.
Proof.
  induction s as [|c s IH]; rewrite includes_unfold.
  - rewrite orb_false_r, prefix_iff. split.
    + intros [rest H]. exists "", rest. exact H.
    + intros (before & after & H). destruct before; [exists after; exact H|discriminate].
  - rewrite orb_true_iff, prefix_iff, IH. split.
    + intros [[rest H]|(before & after & H)].
      * exists "", rest. exact H.
      * exists (String c before), after. cbn. rewrite H. reflexivity.
    + intros (before & after & H). destruct before as [|d before].
      * left. exists after. exact H.
      * right. exists before, after. cbn in H. inversion H. reflexivity.
Qed.

(** ** Slot reconciliation *)

Lemma expectedHTML_not_in_empty tagName key :
  Str.includes (expectedHTML tagName key) "" = false.
Proof. unfold expectedHTML. destruct (String.eqb key "default"); reflexivity. Qed.

Lemma filter_all {A} (p : A -> bool) (l : list A) :
  (forall a, In a l -> p a = true) -> filter p l = l.
Proof.
  induction l as [|a l IH]; cbn; intros H; [reflexivity|].
  rewrite (H a (or_introl eq_refl)), IH; [reflexivity|].
  intros b Hb. apply H. right. exact Hb.
Qed.

Lemma unrenderedSlots_filter renderer metadata html children :
  unrenderedSlots renderer metadata html children =
  filter (fun key =>
            negb (Str.includes (expectedHTML (slot_tagName renderer metadata) key) html))
         (keys children).
Proof.
  unfold unrenderedSlots, string_truthy.
  destruct (String.eqb_spec html "") as [->|Hne]; cbn [negb].
  - symmetry. apply filter_all. intros key _.
    rewrite expectedHTML_not_in_empty. reflexivity.
  - destruct (keys children); reflexivity.
Qed.

Lemma templates_join children unrendered :
  templates children unrendered = Str.join (map (slot_template children) unrendered).
Proof. unfold templates. destruct unrendered; reflexivity. Qed.

(** C4. While the island is built, the marker looked for is the
    astro-static-slot one when the renderer supports static slot markers
    and no hydration directive is active, the astro-slot one otherwise; the
    opening tag expected for a slot carries no attribute for the default
    slot and the name of the slot otherwise. A key of the rendered children
    is unrendered exactly when that tag does not occur in the markup; with
    an empty markup every slot is unrendered. The content hosted by the
    island is the markup followed by one template element for each
    unrendered slot, in the order of the keys, with the slot name as the
    value of its attribute unless the slot is the default one. *)
Theorem C4_slot_reconciliation renderer metadata html children :
  let tagName := slot_tagName renderer metadata in
  let unrendered := unrenderedSlots renderer metadata html children in
  tagName =
    (if match renderer_supportsAstroStaticSlot renderer with Some b => b | None => false end
        && negb (opt_truthy (hydrate metadata))
     then "astro-static-slot" else "astro-slot")
  /\ (forall key,
        expectedHTML tagName key =
        if String.eqb key "default" then "<" ++ tagName ++ ">"
        else "<" ++ tagName ++ " name=" ++ DQUOTE ++ key ++ DQUOTE ++ ">")
  /\ unrendered =
     filter (fun key => negb (Str.includes (expectedHTML tagName key) html)) (keys children)
  /\ (forall key,
        In key unrendered <->
        In key (keys children)
        /\ ~ (exists before after, html = before ++ expectedHTML tagName key ++ after))
  /\ unrenderedSlots renderer metadata "" children = keys children
  /\ (forall key,
        slot_template children key =
        "<template data-astro-template"
        ++ (if String.eqb key "default" then "" else "=" ++ DQUOTE ++ key ++ DQUOTE)
        ++ ">" ++ template_opt (get key children) ++ "</template>")
  /\ island_content renderer metadata html children =
     html ++ Str.join (map (slot_template children) unrendered)
  /\ (forall env result props attrs island,
        build_island env result renderer metadata props attrs children html = Returns island ->
        island_children island = island_content renderer metadata html children).
Proof.
  intros tagName unrendered.
  refine (conj _ (conj _ (conj _ (conj _ (conj _ (conj _ (conj _ _))))))).
  - unfold tagName, slot_tagName.
    destruct (renderer_supportsAstroStaticSlot renderer) as [[|]|];
      destruct (opt_truthy (hydrate metadata)); reflexivity.
  - reflexivity.
  - apply unrenderedSlots_filter.
  - intros key. unfold unrendered.
    rewrite unrenderedSlots_filter, filter_In, negb_true_iff. fold tagName.
    split; intros [Hin Hocc]; (split; [exact Hin|]).
    + intros Habs. apply includes_iff in Habs. congruence.
    + destruct (Str.includes (expectedHTML tagName key) html) eqn:Hinc; [|reflexivity].
      exfalso. apply Hocc, includes_iff, Hinc.
  - reflexivity.
  - intros key. unfold slot_template. destruct (String.eqb key "default"); reflexivity.
  - unfold island_content. rewrite templates_join. reflexivity.
  - intros env result props attrs island. unfold build_island.
    destruct (compute_astroId env metadata props html); [|discriminate].
    destruct (generateHydrateScript env _ metadata); [|discriminate].
    intros H. inversion H. reflexivity.
Qed.

(** The markup carries the marker of the slot a, not the one of b. *)
Example slot_reconciliation_a_b :
  let html := "<div><astro-slot name=" ++ DQUOTE ++ "a" ++ DQUOTE ++ ">A</astro-slot></div>" in
  let children := [("a", "A"); ("b", "B")] in
  let metadata := build_metadata "Card" (Some (only_hydration "" "/src/Card.jsx")) in
  unrenderedSlots (Some react_renderer) metadata html children = ["b"]
  /\ island_content (Some react_renderer) metadata html children =
     html ++ "<template data-astro-template=" ++ DQUOTE ++ "b" ++ DQUOTE ++ ">B</template>".
Proof. split; reflexivity. Qed.

(** ** The tag name of a custom element *)

Lemma space_is_unsafe c : Str.is_space c = true -> is_unsafe c = true.
Proof. unfold is_unsafe. intros ->. rewrite !orb_true_r. reflexivity. Qed.

Lemma safe_not_space c : is_safe c = true -> Str.is_space c = false.
Proof.
  unfold is_safe. intros H. destruct (Str.is_space c) eqn:Hs; [|reflexivity].
  rewrite (space_is_unsafe _ Hs) in H. discriminate.
Qed.

Lemma hd_split_runs_from sep s : forall cur,
  hd "" (Str.split_runs_from sep cur false s) =
  cur ++ Str.take_while (fun c => negb (sep c)) s.
Proof.
  induction s as [|c s IH]; intros cur; cbn.
  - rewrite append_empty_r. reflexivity.
  - destruct (sep c); cbn.
    + rewrite append_empty_r. reflexivity.
    + rewrite IH, append_assoc. reflexivity.
Qed.

Lemma take_while_trim_end s :
  Str.take_while is_safe (Str.trim_end s) = Str.take_while is_safe s.
Proof.
  induction s as [|c s IH]; cbn; [reflexivity|].
  destruct (is_safe c) eqn:Hc.
  - rewrite (safe_not_space _ Hc).
    destruct (Str.trim_end s) eqn:Ht; cbn; rewrite Hc, <- IH; reflexivity.
  - destruct (Str.trim_end s) eqn:Ht; cbn.
    + destruct (Str.is_space c); cbn; [reflexivity|rewrite Hc; reflexivity].
    + rewrite Hc. reflexivity.
Qed.

Lemma take_while_all_safe s :
  Str.existsb is_unsafe (Str.take_while is_safe s) = false.
Proof.
  induction s as [|c s IH]; cbn; [reflexivity|].
  destruct (is_safe c) eqn:Hc; cbn; [|reflexivity].
  unfold is_safe in Hc. apply negb_true_iff in Hc. rewrite Hc, IH. reflexivity.
Qed.

Lemma take_while_no_unsafe s :
  Str.existsb is_unsafe s = false -> Str.take_while is_safe s = s.
Proof.
  induction s as [|c s IH]; cbn; [reflexivity|].
  intros H. apply orb_false_iff in H as [Hc Hs].
  replace (is_safe c) with true by (unfold is_safe; rewrite Hc; reflexivity).
  rewrite IH by exact Hs. reflexivity.
Qed.

Lemma trim_start_no_unsafe s :
  Str.existsb is_unsafe s = false -> Str.trim_start s = s.
Proof.
  destruct s as [|c s]; cbn; [reflexivity|].
  intros H. apply orb_false_iff in H as [Hc _].
  destruct (Str.is_space c) eqn:Hs; [|reflexivity].
  rewrite (space_is_unsafe _ Hs) in Hc. discriminate.
Qed.

Lemma trim_end_no_unsafe s :
  Str.existsb is_unsafe s = false -> Str.trim_end s = s.
Proof.
  induction s as [|c s IH]; cbn; [reflexivity|].
  intros H. apply orb_false_iff in H as [Hc Hs]. rewrite (IH Hs).
  destruct (Str.is_space c) eqn:Hsp.
  - rewrite (space_is_unsafe _ Hsp) in Hc. discriminate.
  - destruct s; reflexivity.
Qed.

Lemma trim_no_unsafe s : Str.existsb is_unsafe s = false -> Str.trim s = s.
Proof.
  intros H. unfold Str.trim. rewrite (trim_start_no_unsafe _ H). apply trim_end_no_unsafe, H.
Qed.

(** What [sanitizeElementName] returns: the leading white space dropped,
    the text up to the first unsafe character. *)
Lemma sanitizeElementName_first_token tag : sanitizeElementName tag = first_token tag.
Proof.
  unfold sanitizeElementName, first_token, strip_from_first_unsafe.
  destruct (Str.existsb is_unsafe tag) eqn:Hu; cbn [negb].
  - unfold Str.split_runs. rewrite hd_split_runs_from. cbn [append].
    fold is_safe. change (fun c => negb (is_unsafe c)) with is_safe.
    rewrite trim_no_unsafe by apply take_while_all_safe.
    unfold Str.trim. apply take_while_trim_end.
  - rewrite (trim_start_no_unsafe _ Hu), (take_while_no_unsafe _ Hu). reflexivity.
Qed.

Lemma sanitizeElementName_safe tag :
  Str.existsb is_unsafe (sanitizeElementName tag) = false.
Proof. rewrite sanitizeElementName_first_token. apply take_while_all_safe. Qed.

Lemma escape_char_safe c : is_unsafe c = false -> escape_char c = String c "".
Proof.
  unfold is_unsafe, escape_char. cbv zeta. intros H.
  repeat (apply orb_false_iff in H as [H ?]). rewrite H.
  repeat match goal with E : (_ =? _) = false |- _ => rewrite E; clear E end.
  reflexivity.
Qed.

Lemma escapeHTML_safe s : Str.existsb is_unsafe s = false -> escapeHTML s = s.
Proof.
  induction s as [|c s IH]; cbn; [reflexivity|].
  intros H. apply orb_false_iff in H as [Hc Hs].
  rewrite (escape_char_safe _ Hc), (IH Hs). reflexivity.
Qed.

Lemma render_custom_element_markup env result tag props children :
  render_custom_element env result tag props children =
  "<" ++ sanitizeElementName tag ++ internalSpreadAttributes env props
  ++ (if String.eqb (Str.join (values children)) ""
         && voidElementNames_test env (sanitizeElementName tag)
      then "/>"
      else ">" ++ Str.join (values children) ++ "</" ++ sanitizeElementName tag ++ ">").
Proof.
  unfold render_custom_element, custom_element_template, collect_html.
  cbn [renderTemplate app expression_chunks].
  set (closing := if _ : bool then _ else _).
  destruct (String.eqb_spec (sanitizeElementName tag) "") as [Hempty|Hne].
  - rewrite Hempty. cbn. rewrite !append_empty_r. reflexivity.
  - cbn. rewrite !append_empty_r.
    rewrite (escapeHTML_safe _ (sanitizeElementName_safe tag)).
    rewrite append_assoc. reflexivity.
Qed.



(** The component is the string my-tag, with one prop and no child. *)
Example custom_element_end_to_end :
  renderFrameworkComponent sample_env (sample_result []) "MyTag"
                           (Primitive (PString "my-tag"))
                           [("class", Prim (PString "x"))] [] [] =
  (Returns (writing [ChunkHTMLString
                       ("<my-tag class=" ++ DQUOTE ++ "x" ++ DQUOTE ++ "></my-tag>")]),
   []).
Proof. reflexivity. Qed.

Example void_element_end_to_end :
  renderFrameworkComponent sample_env (sample_result []) "Br"
                           (Primitive (PString "br"))
                           [("class", Prim (PString "x"))] [] [] =
  (Returns (writing [ChunkHTMLString ("<br class=" ++ DQUOTE ++ "x" ++ DQUOTE ++ "/>")]),
   []).
Proof. reflexivity. Qed.

(** ** The island identity *)

(** C6. The island identity is a function of the export name of the
    component, its URL, the rendered markup and the serialised props: two
    occurrences that agree on the four have the same identity (and fail
    alike when the props cannot be serialised). *)
Theorem C6_astroId_deterministic env metadata1 metadata2 props1 props2 html1 html2 :
  componentExport metadata1 = componentExport metadata2 ->
  componentUrl metadata1 = componentUrl metadata2 ->
  html1 = html2 ->
  serializeProps env props1 metadata1 = serializeProps env props2 metadata2 ->
  compute_astroId env metadata1 props1 html1 = compute_astroId env metadata2 props2 html2.
Proof.
  intros Hexport Hurl Hhtml Hprops. unfold compute_astroId.
  rewrite Hexport, Hurl, Hhtml, Hprops. reflexivity.
Qed.

(** Two occurrences of one component with the same props and markup, under
    different display names and different directives. *)
Lemma C6_astroId_deterministic_witness :
  compute_astroId sample_env
                  (build_metadata "Counter" (Some (load_hydration "/src/Counter.jsx")))
                  [("count", Prim (PNumber 1))] "<button>1</button>" =
  compute_astroId sample_env
                  (build_metadata "Again" (Some (idle_hydration "/src/Counter.jsx")))
                  [("count", Prim (PNumber 1))] "<button>1</button>".
Proof.
  exact (C6_astroId_deterministic sample_env
           (build_metadata "Counter" (Some (load_hydration "/src/Counter.jsx")))
           (build_metadata "Again" (Some (idle_hydration "/src/Counter.jsx")))
           [("count", Prim (PNumber 1))] [("count", Prim (PNumber 1))]
           "<button>1</button>" "<button>1</button>"
           eq_refl eq_refl eq_refl eq_refl).
Defined.

Lemma compute_astroId_hash env metadata props html exported serialized :
  componentExport metadata = Some exported ->
  serializeProps env props metadata = Returns serialized ->
  compute_astroId env metadata props html =
  Returns (shorthash env (astroId_text exported (componentUrl metadata) html serialized)).
Proof. intros He Hs. unfold compute_astroId. rewrite He, Hs. reflexivity. Qed.

(** ** The statements after the markup *)

Lemma renderFrameworkComponent_after_markup
      env result displayName Component _props slots log
      extracted children slotInstructions found log1 renderer html attrs log2 :
  component_truthy Component || client_only _props = true ->
  extractDirectives env _props (clientDirectives result) = Returns extracted ->
  renderSlots env result slots = Returns (children, slotInstructions) ->
  resolve_renderer env result Component _props (props extracted) children slots
                   (build_metadata displayName (hydration extracted))
                   (non_pass_through (renderers result)) log =
  (Returns (Resolved found), log1) ->
  render_markup env result Component (props extracted) children slots
                (build_metadata displayName (hydration extracted))
                (non_pass_through (renderers result))
                (guessRenderers (componentUrl (build_metadata displayName (hydration extracted))))
                found log1 =
  (Returns (renderer, html, attrs), log2) ->
  renderFrameworkComponent env result displayName Component _props slots log =
  (after_markup env result displayName Component extracted children slotInstructions
                renderer html attrs, log2).
Proof.
  intros Hcomp Hex Hslots Hres Hmarkup. unfold renderFrameworkComponent.
  apply orb_true_iff in Hcomp.
  assert (Hguard : negb (component_truthy Component) && negb (client_only _props) = false).
  { destruct Hcomp as [-> | ->]; [reflexivity|apply andb_false_r]. }
  rewrite Hguard, Hex, bind_lift_returns, Hslots, bind_lift_returns.
  fold (non_pass_through (renderers result)).
  erewrite bind_eq by exact Hres. cbv beta iota.
  erewrite bind_eq by exact Hmarkup. cbv beta iota.
  unfold after_markup.
  destruct (validate_clientEntrypoint displayName
              (build_metadata displayName (hydration extracted)) renderer) as [[]|e];
    [rewrite bind_lift_returns|reflexivity].
  destruct (hydration extracted) as [h|]; [|reflexivity].
  destruct (build_island env result renderer _ (props extracted) attrs children _);
    reflexivity.
Qed.

(** ** The client entrypoint *)

Lemma validate_clientEntrypoint_raises displayName metadata renderer r :
  missing_client_entrypoint metadata renderer r ->
  validate_clientEntrypoint displayName metadata renderer =
  Throws (NoClientEntrypoint_error displayName metadata r).
Proof.
  intros (-> & Hhydrate & Hentry & Hlit). unfold validate_clientEntrypoint.
  rewrite Hhydrate, Hentry. apply String.eqb_neq in Hlit. rewrite Hlit. reflexivity.
Qed.

Lemma validate_clientEntrypoint_raised displayName metadata renderer e :
  validate_clientEntrypoint displayName metadata renderer = Throws e ->
  exists r, missing_client_entrypoint metadata renderer r
            /\ e = NoClientEntrypoint_error displayName metadata r.
Proof.
  unfold validate_clientEntrypoint, missing_client_entrypoint.
  destruct renderer as [r|]; [|discriminate].
  destruct (opt_truthy (clientEntrypoint r)) eqn:Hentry; cbn [negb andb]; [discriminate|].
  destruct (String.eqb_spec (name r) "@astrojs/lit") as [Hlit|Hlit]; cbn [negb andb];
    [discriminate|].
  destruct (opt_truthy (hydrate metadata)) eqn:Hhydrate; [|discriminate].
  intros H. inversion H. exists r. repeat split; assumption.
Qed.

(** C7, as amended. Once the renderer is resolved and the markup statement
    has completed (neither the static render of the renderer nor the
    rendering of the fallback slot has thrown), the missing client
    entrypoint error is raised exactly when a renderer was resolved,
    a hydration directive is present, the renderer declares no client
    entrypoint and is not the lit one: under these four conditions the
    check raises the error, which names the component, the directive and
    the renderer, and the render fails with it; the check raises nothing
    under any other combination. *)
Theorem C7_client_entrypoint displayName metadata renderer :
  (forall r,
      missing_client_entrypoint metadata renderer r ->
      validate_clientEntrypoint displayName metadata renderer =
      Throws (NoClientEntrypoint_error displayName metadata r))
  /\ ((forall r, ~ missing_client_entrypoint metadata renderer r) ->
      validate_clientEntrypoint displayName metadata renderer = Returns tt)
  /\ (forall env result Component _props slots log extracted children slotInstructions
             found log1 html attrs log2 r,
      metadata = build_metadata displayName (hydration extracted) ->
      component_truthy Component || client_only _props = true ->
      extractDirectives env _props (clientDirectives result) = Returns extracted ->
      renderSlots env result slots = Returns (children, slotInstructions) ->
      resolve_renderer env result Component _props (props extracted) children slots
                       metadata (non_pass_through (renderers result)) log =
      (Returns (Resolved found), log1) ->
      render_markup env result Component (props extracted) children slots metadata
                    (non_pass_through (renderers result))
                    (guessRenderers (componentUrl metadata)) found log1 =
      (Returns (renderer, html, attrs), log2) ->
      missing_client_entrypoint metadata renderer r ->
      renderFrameworkComponent env result displayName Component _props slots log =
      (Throws (NoClientEntrypoint_error displayName metadata r), log2)).
Proof.
  refine (conj _ (conj _ _)).
  - intros r. apply validate_clientEntrypoint_raises.
  - intros Hnone.
    destruct (validate_clientEntrypoint displayName metadata renderer) as [[]|e] eqn:Hv;
      [reflexivity|].
    apply validate_clientEntrypoint_raised in Hv as (r & Hr & _).
    destruct (Hnone r Hr).
  - intros env result Component _props slots log extracted children slotInstructions
           found log1 html attrs log2 r -> Hcomp Hex Hslots Hres Hmarkup Hmissing.
    rewrite (renderFrameworkComponent_after_markup _ _ _ _ _ _ _ _ _ _ _ _ _ _ _ _
               Hcomp Hex Hslots Hres Hmarkup).
    unfold after_markup.
    rewrite (validate_clientEntrypoint_raises _ _ _ _ Hmissing). reflexivity.
Qed.

(** A component hydrated on load through a renderer without a client
    entrypoint. *)
Lemma C7_client_entrypoint_witness :
  validate_clientEntrypoint "Post"
    (build_metadata "Post" (Some (load_hydration "/src/Post.mdx")))
    (Some server_only_renderer) =
  Throws (ErrorObject (AstroError (NoClientEntrypoint "Post" "load" "@astrojs/mdx") None)).
Proof.
  apply (proj1 (C7_client_entrypoint "Post"
                  (build_metadata "Post" (Some (load_hydration "/src/Post.mdx")))
                  (Some server_only_renderer)) server_only_renderer).
  repeat split. cbn. discriminate.
Defined.

(** C7 as stated fails: a renderer is resolved, the directive is load, the
    renderer declares no client entrypoint and is not the lit one, and its
    static render throws; the render fails with what the static render
    threw, which happens before the check of the entrypoint is reached. *)
Lemma C7_counterexample :
  resolve_normal [entryless_crashing_renderer] untagged_component [] [] [] =
  (Returns (Some entryless_crashing_renderer), [check_call entryless_crashing_renderer])
  /\ opt_truthy (hydrate (build_metadata "Post" (Some (load_hydration "/src/Post.mdoc")))) = true
  /\ opt_truthy (clientEntrypoint entryless_crashing_renderer) = false
  /\ String.eqb (name entryless_crashing_renderer) "@astrojs/lit" = false
  /\ renderFrameworkComponent sample_env (sample_result [entryless_crashing_renderer]) "Post"
                              untagged_component (load_props "/src/Post.mdoc") [] [] =
     (Throws (ErrorObject (Error "document is not defined")),
      [check_call entryless_crashing_renderer;
       renderToStaticMarkup_call entryless_crashing_renderer]).
Proof. repeat split. Qed.

Example lit_is_exempt :
  validate_clientEntrypoint "MyElement"
    (build_metadata "MyElement" (Some (load_hydration "/src/my-element.js")))
    (Some lit_renderer) = Returns tt.
Proof. reflexivity. Qed.

Example no_directive_no_error :
  validate_clientEntrypoint "Post" (build_metadata "Post" None) (Some server_only_renderer)
  = Returns tt.
Proof. reflexivity. Qed.

Example missing_entrypoint_end_to_end :
  renderFrameworkComponent sample_env (sample_result [server_only_renderer]) "Post"
    untagged_component
    [("client:load", Prim (PBool true));
     ("client:component-path", Prim (PString "/src/Post.mdx"));
     ("client:component-export", Prim (PString "default"))] [] [] =
  (Throws (ErrorObject (AstroError (NoClientEntrypoint "Post" "load" "@astrojs/mdx") None)),
   [check_call server_only_renderer; renderToStaticMarkup_call server_only_renderer]).
Proof. reflexivity. Qed.

(** ** Fragments *)

(** C8. For a component value that is (or settles to) the Fragment
    marker, [renderComponent] invokes no renderer hook and returns, once
    the default slot is rendered, the instance that writes the rendered
    content of the default slot as its only chunk and then completes;
    rendered to a string outside a page, the result is that content. *)
Theorem C8_fragment env result displayName Component c props slots log :
  await_component Component = Returns c ->
  isFragmentComponent c = true ->
  renderComponent env result displayName Component props slots log =
  (match renderSlotToString env result (get "default" slots) with
   | Returns content => Returns (writing [ChunkHTMLString content])
   | Throws e => Throws e
   end, log)
  /\ (forall content,
        renderSlotToString env result (get "default" slots) = Returns content ->
        exists instance,
          renderComponent env result displayName Component props slots log =
          (Returns instance, log)
          /\ writes instance = [ChunkHTMLString content]
          /\ rejects instance = None
          /\ forall route,
               renderComponentToString env result displayName Component props slots
                                       false route log =
               (Returns content, log)).
Proof.
  intros Hawait Hfragment.
  assert (Hrun : renderComponent env result displayName Component props slots log =
                 (match renderSlotToString env result (get "default" slots) with
                  | Returns content => Returns (writing [ChunkHTMLString content])
                  | Throws e => Throws e
                  end, log)).
  { unfold renderComponent. rewrite Hawait, bind_lift_returns, Hfragment.
    unfold renderFragmentComponent, bind, lift, ret.
    destruct (renderSlotToString env result (get "default" slots)); reflexivity. }
  split; [exact Hrun|].
  intros content Hslot. rewrite Hslot in Hrun.
  exists (writing [ChunkHTMLString content]). repeat split; [exact Hrun|].
  intros route. unfold renderComponentToString, try_catch, bind. rewrite Hrun. reflexivity.
Qed.

(** A promise of the Fragment marker, a default slot and another slot. *)
Lemma C8_fragment_witness :
  renderComponent sample_env (sample_result [react_renderer]) "Fragment"
                  (Promise (Returns FragmentSymbol)) []
                  [("default", SlotFunction 0); ("aside", SlotFunction 2)] [] =
  (Returns (writing [ChunkHTMLString "<p>hi</p>"]), []).
Proof.
  exact (proj1 (C8_fragment sample_env (sample_result [react_renderer]) "Fragment"
                  (Promise (Returns FragmentSymbol)) FragmentSymbol []
                  [("default", SlotFunction 0); ("aside", SlotFunction 2)] []
                  eq_refl eq_refl)).
Defined.

Example fragment_end_to_end :
  renderComponentToString sample_env (sample_result []) "Fragment" (Settled FragmentSymbol)
                          [] [("default", SlotFunction 0)] false None [] =
  (Returns "<p>hi</p>", []).
Proof. reflexivity. Qed.

(** ** The string renderer *)

Lemma write_chunk_text env result isPage head d chunk :
  write_chunk env result isPage head d chunk =
  {| str :=
       (if isPage && negb (renderedFirstPageChunk d)
           && negb (doctype_test (String_of_chunk chunk))
        then str d ++ (doctype_for result ++ head)
        else str d) ++ chunk_text env result chunk;
     renderedFirstPageChunk := isPage || renderedFirstPageChunk d |}.
Proof.
  unfold write_chunk, chunk_text. destruct d as [s rendered].
  cbn [str renderedFirstPageChunk].
  destruct isPage, rendered; cbn [andb negb orb];
    destruct (doctype_test (String_of_chunk chunk)); cbn [negb str renderedFirstPageChunk];
    destruct chunk; cbn [str renderedFirstPageChunk]; rewrite ?append_empty_r; reflexivity.
Qed.

Lemma join_cons (s : string) (l : list string) : Str.join (s :: l) = s ++ Str.join l.
Proof. unfold Str.join. destruct l; cbn; [rewrite append_empty_r|]; reflexivity. Qed.

(** Once the first chunk of a page is written, or outside a page, a write
    only appends. *)
Lemma write_all_appends env result isPage head chunks : forall d,
  isPage && negb (renderedFirstPageChunk d) = false ->
  str (write_all env result isPage head d chunks) =
  str d ++ Str.join (map (chunk_text env result) chunks)
  /\ renderedFirstPageChunk (write_all env result isPage head d chunks) =
     isPage || renderedFirstPageChunk d.
Proof.
  induction chunks as [|chunk chunks IH]; intros d Hd.
  - cbn. rewrite append_empty_r. split; [reflexivity|].
    destruct isPage, (renderedFirstPageChunk d); cbn in *; congruence.
  - unfold write_all in *. cbn [fold_left map]. rewrite write_chunk_text, Hd.
    cbn [andb]. rewrite join_cons.
    destruct (IH {| str := str d ++ chunk_text env result chunk;
                    renderedFirstPageChunk := isPage || renderedFirstPageChunk d |})
      as [Hstr Hflag].
    { cbn. destruct isPage, (renderedFirstPageChunk d); cbn in *; congruence. }
    rewrite Hstr, Hflag. cbn [str renderedFirstPageChunk]. rewrite append_assoc.
    split; [reflexivity|].
    destruct isPage, (renderedFirstPageChunk d); reflexivity.
Qed.

(** C9, as amended. In [renderComponentToString] with [isPage] set, the
    first written chunk, and only that one, may trigger the insertion: if
    its string form does not contain a doctype (in any letter case, at any
    position), the doctype, followed by a line feed unless compressHTML is
    set, and the head content computed beforehand are put in front of it;
    if it contains one, nothing is inserted. Every chunk, the first
    included, then adds its own text, a response object adding nothing. *)
Theorem C9_doctype_insertion env result head chunk chunks :
  str (write_all env result true head initial_destination (chunk :: chunks)) =
  (if doctype_test (String_of_chunk chunk) then "" else doctype_for result ++ head)
  ++ Str.join (map (chunk_text env result) (chunk :: chunks))
  /\ (doctype_test (String_of_chunk chunk) = true <->
      exists before after,
        Str.map_chars Str.fold_case (String_of_chunk chunk) =
        before ++ "<!doctype html" ++ after)
  /\ doctype_for result = "<!DOCTYPE html>" ++ (if compressHTML result then "" else LF)
  /\ (forall displayName Component props slots route log instance log',
        renderComponent env result displayName Component props slots log =
        (Returns instance, log') ->
        rejects instance = None ->
        renderComponentToString env result displayName Component props slots true route log =
        (Returns (str (write_all env result true (head_content env result Component)
                                 initial_destination (writes instance))), log')).
Proof.
  refine (conj _ (conj _ (conj _ _))).
  - unfold write_all. cbn [fold_left]. rewrite write_chunk_text.
    cbn [initial_destination str renderedFirstPageChunk andb negb orb].
    fold (write_all env result true head
            {| str := (if negb (doctype_test (String_of_chunk chunk))
                       then "" ++ (doctype_for result ++ head) else "")
                      ++ chunk_text env result chunk;
               renderedFirstPageChunk := true |} chunks).
    destruct (write_all_appends env result true head chunks
                {| str := (if negb (doctype_test (String_of_chunk chunk))
                           then "" ++ (doctype_for result ++ head) else "")
                          ++ chunk_text env result chunk;
                   renderedFirstPageChunk := true |} eq_refl) as [Hstr _].
    rewrite Hstr. cbn [str map]. rewrite join_cons, append_assoc.
    destruct (doctype_test (String_of_chunk chunk)); reflexivity.
  - unfold doctype_test. apply includes_iff.
  - unfold doctype_for. destruct (compressHTML result); reflexivity.
  - intros displayName Component props slots route log instance log' Hrun Hdone.
    unfold renderComponentToString, try_catch. erewrite bind_eq by exact Hrun.
    rewrite Hdone. reflexivity.
Qed.

(** C9 as stated fails: the first chunk of the page does not start with a
    doctype, it contains one after a comment, and nothing is put in front
    of it. *)
Lemma C9_counterexample :
  prefix "<!doctype html"
         (Str.map_chars Str.fold_case (String_of_chunk commented_page_chunk)) = false
  /\ str (write_all sample_env (sample_result []) true "<link rel=stylesheet href=/page.css>"
                    initial_destination [commented_page_chunk]) =
     "<!-- generated --><!DOCTYPE html><html></html>".
Proof. split; reflexivity. Qed.

Example doctype_is_prepended :
  str (write_all sample_env (sample_result []) true "<link rel=stylesheet href=/page.css>"
                 initial_destination [ChunkString "<html>"; ChunkString "</html>"]) =
  "<!DOCTYPE html>" ++ LF ++ "<link rel=stylesheet href=/page.css><html></html>".
Proof. reflexivity. Qed.

Example doctype_is_kept :
  str (write_all sample_env (sample_result []) true "<link rel=stylesheet href=/page.css>"
                 initial_destination [ChunkString "<!doctype HTML><html>"; ChunkString "</html>"]) =
  "<!doctype HTML><html></html>".
Proof. reflexivity. Qed.

(** ** The only directive: the markup *)

Lemma resolve_renderer_only env result Component _props props children slots metadata valid log :
  hydrate_is_only metadata = true ->
  resolve_renderer env result Component _props props children slots metadata valid log =
  (Returns (Resolved (resolve_only (renderers result) valid metadata)), log).
Proof. intros H. unfold resolve_renderer. rewrite H. reflexivity. Qed.

Lemma render_markup_only env result Component props children slots metadata valid probable r log :
  hydrate_is_only metadata = true ->
  render_markup env result Component props children slots metadata valid probable (Some r) log =
  (match renderSlotToString env result (get "fallback" slots) with
   | Returns html => Returns (Some r, html, None)
   | Throws e => Throws e
   end, log).
Proof.
  intros H. unfold render_markup. rewrite H. unfold bind, lift, ret.
  destruct (renderSlotToString env result (get "fallback" slots)); reflexivity.
Qed.

Lemma custom_element_fallback_keeps env result Component props children html :
  is_string_component Component = None \/ html <> "" ->
  custom_element_fallback env result Component props children html = html.
Proof.
  unfold custom_element_fallback, string_truthy. intros [-> | Hne]; [reflexivity|].
  destruct (is_string_component Component); [|reflexivity].
  apply String.eqb_neq in Hne. rewrite Hne. reflexivity.
Qed.

Lemma custom_element_statement_only env result Component metadata props children html :
  hydrate_is_only metadata = true ->
  custom_element_statement env result Component metadata props children html = html.
Proof. intros H. unfold custom_element_statement. rewrite H. reflexivity. Qed.

Lemma custom_element_statement_normal env result Component metadata props children html :
  hydrate_is_only metadata = false ->
  custom_element_statement env result Component metadata props children html =
  custom_element_fallback env result Component props children html.
Proof. intros H. unfold custom_element_statement. rewrite H. reflexivity. Qed.

(** C10. When the hydration directive is only and a renderer is resolved,
    no hook of any renderer is invoked for the component, its
    renderToStaticMarkup in particular: the html is what the slot renderer
    returns for the fallback slot and nothing else, for a string component
    as well, and the content hosted by the island is that html followed by
    the templates of the unrendered slots. Without a fallback slot, the
    slot renderer returning the empty text for an absent slot, the html is
    empty and the island hosts the templates of all the slots. *)
Theorem C10_only_fallback env result displayName Component _props slots log
        extracted h children slotInstructions r :
  component_truthy Component || client_only _props = true ->
  extractDirectives env _props (clientDirectives result) = Returns extracted ->
  hydration extracted = Some h ->
  hydration_directive h = "only" ->
  renderSlots env result slots = Returns (children, slotInstructions) ->
  resolve_only (renderers result) (non_pass_through (renderers result))
               (build_metadata displayName (Some h)) = Some r ->
  let metadata := build_metadata displayName (Some h) in
  renderFrameworkComponent env result displayName Component _props slots log =
  (match renderSlotToString env result (get "fallback" slots) with
   | Throws e => Throws e
   | Returns fallback =>
       match validate_clientEntrypoint displayName metadata (Some r) with
       | Throws e => Throws e
       | Returns _ =>
           match build_island env result (Some r) metadata (props extracted) None
                              children fallback with
           | Throws e => Throws e
           | Returns island => Returns (island_instance env slotInstructions h island)
           end
       end
   end, log)
  /\ (forall fallback island,
        renderSlotToString env result (get "fallback" slots) = Returns fallback ->
        validate_clientEntrypoint displayName metadata (Some r) = Returns tt ->
        build_island env result (Some r) metadata (props extracted) None children fallback =
        Returns island ->
        renderFrameworkComponent env result displayName Component _props slots log =
        (Returns (island_instance env slotInstructions h island), log)
        /\ island_children island =
           fallback ++ templates children
                         (unrenderedSlots (Some r) metadata fallback children))
  /\ (forall island,
        get "fallback" slots = None ->
        renderSlotToString env result None = Returns "" ->
        validate_clientEntrypoint displayName metadata (Some r) = Returns tt ->
        build_island env result (Some r) metadata (props extracted) None children "" =
        Returns island ->
        renderFrameworkComponent env result displayName Component _props slots log =
        (Returns (island_instance env slotInstructions h island), log)
        /\ island_children island = Str.join (map (slot_template children) (keys children))).
Proof.
  intros Hcomp Hex Hhydration Honly Hslots Hresolved metadata.
  assert (Hmode : hydrate_is_only (build_metadata displayName (hydration extracted)) = true).
  { rewrite Hhydration. unfold hydrate_is_only. cbn. rewrite Honly. reflexivity. }
  assert (Hrun : renderFrameworkComponent env result displayName Component _props slots log =
                 (match renderSlotToString env result (get "fallback" slots) with
                  | Throws e => Throws e
                  | Returns fallback =>
                      match validate_clientEntrypoint displayName metadata (Some r) with
                      | Throws e => Throws e
                      | Returns _ =>
                          match build_island env result (Some r) metadata (props extracted)
                                             None children fallback with
                          | Throws e => Throws e
                          | Returns island =>
                              Returns (island_instance env slotInstructions h island)
                          end
                      end
                  end, log)).
  { destruct (renderSlotToString env result (get "fallback" slots)) as [fallback|e] eqn:Hslot.
    - rewrite (renderFrameworkComponent_after_markup env result displayName Component _props
                 slots log extracted children slotInstructions (Some r) log (Some r)
                 fallback None log Hcomp Hex Hslots).
      + unfold after_markup.
        rewrite (custom_element_statement_only _ _ _ _ _ _ _ Hmode).
        rewrite Hhydration. reflexivity.
      + rewrite (resolve_renderer_only _ _ _ _ _ _ _ _ _ _ Hmode).
        rewrite Hhydration, Hresolved. reflexivity.
      + rewrite (render_markup_only _ _ _ _ _ _ _ _ _ _ _ Hmode), Hslot. reflexivity.
    - unfold renderFrameworkComponent.
      apply orb_true_iff in Hcomp.
      assert (Hguard : negb (component_truthy Component) && negb (client_only _props) = false).
      { destruct Hcomp as [-> | ->]; [reflexivity|apply andb_false_r]. }
      rewrite Hguard, Hex, bind_lift_returns, Hslots, bind_lift_returns.
      fold (non_pass_through (renderers result)).
      erewrite bind_eq by (apply resolve_renderer_only, Hmode).
      rewrite Hhydration, Hresolved. cbv beta iota.
      erewrite bind_throws; [reflexivity|].
      rewrite render_markup_only by (rewrite <- Hhydration; exact Hmode).
      rewrite Hslot. reflexivity. }
  assert (Hcontent : forall fallback island,
             build_island env result (Some r) metadata (props extracted) None children
                          fallback = Returns island ->
             island_children island =
             fallback ++ templates children
                           (unrenderedSlots (Some r) metadata fallback children)).
  { intros fallback island Hisland. unfold build_island in Hisland.
    destruct (compute_astroId env metadata (props extracted) fallback); [|discriminate].
    destruct (generateHydrateScript env _ metadata); [|discriminate].
    inversion Hisland. reflexivity. }
  refine (conj Hrun (conj _ _)).
  - intros fallback island Hslot Hvalid Hisland. rewrite Hrun, Hslot, Hvalid, Hisland.
    split; [reflexivity|apply Hcontent, Hisland].
  - intros island Habsent Hslot Hvalid Hisland. rewrite Hrun, Habsent, Hslot, Hvalid, Hisland.
    split; [reflexivity|]. rewrite (Hcontent _ _ Hisland).
    rewrite templates_join. reflexivity.
Qed.

(** A component that is not loaded on the server, with a fallback slot:
    the island hosts the fallback and the template of the slot, and no
    hook has run. *)
Lemma C10_only_fallback_witness :
  renderFrameworkComponent sample_env (sample_result [react_renderer]) "Counter"
                           (Primitive PNull) (only_props "react" "/src/Counter.jsx")
                           [("fallback", SlotFunction 1)] [] =
  (Returns (island_instance sample_env None (only_hydration "react" "/src/Counter.jsx")
              (sample_island "/src/Counter.jsx" "<em>loading</em>"
                 ("<em>loading</em>"
                  ++ slot_template [("fallback", "<em>loading</em>")] "fallback"))),
   []).
Proof.
  exact (proj1 (C10_only_fallback sample_env (sample_result [react_renderer]) "Counter"
                  (Primitive PNull) (only_props "react" "/src/Counter.jsx")
                  [("fallback", SlotFunction 1)] [] _
                  (only_hydration "react" "/src/Counter.jsx")
                  [("fallback", "<em>loading</em>")] None react_renderer
                  eq_refl eq_refl eq_refl eq_refl eq_refl eq_refl)).
Defined.

(** A string component under the only directive, without a fallback
    slot: the island hosts nothing, it is not given the custom element
    markup and it does not await children. *)
Example only_string_component :
  renderFrameworkComponent sample_env (sample_result [lit_renderer]) "MyElement"
                           (Primitive (PString "my-el")) (only_props "lit" "/src/my-el.js")
                           [] [] =
  (Returns (island_instance sample_env None (only_hydration "lit" "/src/my-el.js")
              {| island_children := "";
                 island_props :=
                   [("uid", Prim (PString (shorthash sample_env
                                             (astroId_text "default" (Some "/src/my-el.js")
                                                           "" ""))))] |}),
   []).
Proof. reflexivity. Qed.

(** ** Further instances *)

(** The island built by the sample collaborators for a markup that
    carries the marker of the default slot only. *)
Lemma C4_slot_reconciliation_witness :
  island_children
    (sample_island "/src/Card.jsx" "<div><astro-slot>x</astro-slot></div>"
       ("<div><astro-slot>x</astro-slot></div>"
        ++ slot_template [("default", "x"); ("b", "B")] "b")) =
  island_content (Some react_renderer)
                 (build_metadata "Card" (Some (load_hydration "/src/Card.jsx")))
                 "<div><astro-slot>x</astro-slot></div>" [("default", "x"); ("b", "B")].
Proof.
  destruct (C4_slot_reconciliation (Some react_renderer)
              (build_metadata "Card" (Some (load_hydration "/src/Card.jsx")))
              "<div><astro-slot>x</astro-slot></div>" [("default", "x"); ("b", "B")])
    as (_ & _ & _ & _ & _ & _ & _ & Hisland).
  apply (Hisland sample_env (sample_result [react_renderer]) [] None). reflexivity.
Defined.

(** A page made of a fragment: its only chunk has no doctype. *)
Lemma C9_doctype_insertion_witness :
  renderComponentToString sample_env (sample_result []) "Page" (Settled FragmentSymbol)
                          [] [("default", SlotFunction 0)] true None [] =
  (Returns ("<!DOCTYPE html>" ++ LF ++ "<p>hi</p>"), []).
Proof.
  destruct (C9_doctype_insertion sample_env (sample_result []) "" (ChunkString "") [])
    as (_ & _ & _ & Hrender).
  exact (Hrender "Page" (Settled FragmentSymbol) [] [("default", SlotFunction 0)] None []
                 (writing [ChunkHTMLString "<p>hi</p>"]) [] eq_refl eq_refl).
Defined.

(** ** End to end *)

(** Without hydration the slot markers are removed from the markup. *)
Example static_render_end_to_end :
  renderFrameworkComponent sample_env (sample_result [vue_renderer; slot_marking_renderer])
                           "Card" untagged_component [] [("default", SlotFunction 0)] [] =
  (Returns (writing [ChunkHTMLString "<div>x</div>"]),
   [check_call vue_renderer; check_call slot_marking_renderer;
    renderToStaticMarkup_call slot_marking_renderer]).
Proof. reflexivity. Qed.

(** With hydration the island hosts the markup and a template for the
    slot whose marker is missing. *)
Example island_end_to_end :
  renderFrameworkComponent sample_env (sample_result [slot_marking_renderer])
                           "Card" untagged_component (load_props "/src/Card.jsx")
                           [("default", SlotFunction 0); ("b", SlotFunction 2)] [] =
  (Returns (island_instance sample_env None (load_hydration "/src/Card.jsx")
              (sample_island "/src/Card.jsx" "<div><astro-slot>x</astro-slot></div>"
                 ("<div><astro-slot>x</astro-slot></div>"
                  ++ slot_template [("default", "<p>hi</p>"); ("b", "<span>slot</span>")] "b"))),
   [check_call slot_marking_renderer; renderToStaticMarkup_call slot_marking_renderer]).
Proof. reflexivity. Qed.

(** The component is null and there is no client-only directive. *)
Example missing_component_end_to_end :
  renderFrameworkComponent sample_env (sample_result [react_renderer]) "Counter"
                           (Primitive PNull) [] [] [] =
  (Throws (ErrorObject (Error
     ("Unable to render Counter because it is null!" ++ LF
      ++ "Did you forget to import the component or is it possible there is a typo?"))),
   []).
Proof. reflexivity. Qed.

(** No renderer claims the component and one check threw an error. *)
Example check_error_end_to_end :
  renderFrameworkComponent sample_env (sample_result [vue_renderer; failing_renderer])
                           "Counter" untagged_component [] [] [] =
  (Throws (ErrorObject (Error "window is not defined")),
   [check_call vue_renderer; check_call failing_renderer]).
Proof. reflexivity. Qed.

(** No renderer claims the component, a single registered renderer is a
    probable one: the markup is asked from it all the same. *)
Example single_probable_renderer_end_to_end :
  renderFrameworkComponent sample_env (sample_result [vue_renderer]) "Counter"
                           untagged_component [] [] [] =
  (Returns (writing [ChunkHTMLString "<div>vue</div>"]),
   [check_call vue_renderer; renderToStaticMarkup_call vue_renderer]).
Proof. reflexivity. Qed.

(** * Further properties of the code *)

(** ** Objects as records of properties *)

Lemma get_set_same {A} (key : string) (a : A) (o : list (string * A)) :
  get key (set key a o) = Some a.
Proof.
  unfold get. induction o as [|[k b] o IH]; cbn.
  - rewrite String.eqb_refl. reflexivity.
  - destruct (String.eqb k key) eqn:Hk; cbn; rewrite Hk; [reflexivity|exact IH].
Qed.

Lemma get_set_other {A} (key other : string) (a : A) (o : list (string * A)) :
  other <> key -> get other (set key a o) = get other o.
Proof.
  intros Hne. unfold get. induction o as [|[k b] o IH]; cbn.
  - apply String.eqb_neq in Hne. rewrite String.eqb_sym, Hne. reflexivity.
  - destruct (String.eqb k key) eqn:Hk; cbn.
    + apply String.eqb_eq in Hk. subst k.
      apply String.eqb_neq in Hne. rewrite String.eqb_sym, Hne. reflexivity.
    + destruct (String.eqb k other); [reflexivity|exact IH].
Qed.

(** ** The sanitised tag name *)

Lemma first_token_idempotent tag : first_token (first_token tag) = first_token tag.
Proof.
  unfold first_token at 1. unfold strip_from_first_unsafe.
  assert (H : Str.existsb is_unsafe (first_token tag) = false)
    by apply take_while_all_safe.
  rewrite (trim_start_no_unsafe _ H). apply take_while_no_unsafe, H.
Qed.

Lemma take_while_prefix p s : exists rest, s = Str.take_while p s ++ rest.
Proof.
  induction s as [|c s [rest IH]]; cbn.
  - exists "". reflexivity.
  - destruct (p c); cbn.
    + exists rest. rewrite <- IH. reflexivity.
    + exists (String c s). reflexivity.
Qed.

Lemma drop_while_suffix p s : exists skipped, s = skipped ++ Str.drop_while p s.
Proof.
  induction s as [|c s [skipped IH]]; cbn.
  - exists "". reflexivity.
  - destruct (p c).
    + exists (String c skipped). cbn. rewrite <- IH. reflexivity.
    + exists "". reflexivity.
Qed.

(** X1. Whatever the tag, the sanitised name holds no white space and none
    of the ampersand, the angle brackets and the quotes; it is a piece of
    the tag as written; a name without such characters is returned as it
    is, so that sanitising twice changes nothing more. *)
Theorem X1_sanitizeElementName_safe tag :
  Str.existsb is_unsafe (sanitizeElementName tag) = false
  /\ (exists before after, tag = before ++ sanitizeElementName tag ++ after)
  /\ (Str.existsb is_unsafe tag = false -> sanitizeElementName tag = tag)
  /\ sanitizeElementName (sanitizeElementName tag) = sanitizeElementName tag.
Proof.
  refine (conj (sanitizeElementName_safe tag) (conj _ (conj _ _))).
  - rewrite sanitizeElementName_first_token. unfold first_token, strip_from_first_unsafe.
    destruct (drop_while_suffix Str.is_space tag) as [before Hb].
    destruct (take_while_prefix is_safe (Str.trim_start tag)) as [after Ha].
    exists before, after. unfold Str.trim_start in *. rewrite <- Ha. exact Hb.
  - intros H. unfold sanitizeElementName. rewrite H. reflexivity.
  - rewrite !sanitizeElementName_first_token. apply first_token_idempotent.
Qed.

Lemma X1_sanitizeElementName_safe_witness :
  sanitizeElementName "my-tag" = "my-tag".
Proof.
  apply (proj1 (proj2 (proj2 (X1_sanitizeElementName_safe "my-tag")))). reflexivity.
Defined.

(** ** Removal of the slot markers *)

Lemma includes_false_cons needle c s :
  Str.includes needle (String c s) = false ->
  prefix needle (String c s) = false /\ Str.includes needle s = false.
Proof. rewrite includes_unfold. apply orb_false_iff. Qed.

Lemma includes_false_prefix needle s :
  Str.includes needle s = false -> prefix needle s = false.
Proof.
  rewrite includes_unfold. intros H. apply orb_false_iff in H. apply H.
Qed.

Lemma match_slot_tag_absent tag s :
  Str.includes tag s = false -> match_slot_tag tag s = None.
Proof.
  intros H. unfold match_slot_tag. destruct s as [|c r1]; [reflexivity|].
  destruct (Ascii.eqb c "<"); [|reflexivity].
  apply includes_false_cons in H as [_ H].
  destruct r1 as [|d r].
  - rewrite (includes_false_prefix _ _ H). reflexivity.
  - destruct (Ascii.eqb d "/").
    + apply includes_false_cons in H as [_ H].
      rewrite (includes_false_prefix _ _ H). reflexivity.
    + rewrite (includes_false_prefix _ _ H). reflexivity.
Qed.

Lemma remove_matches_absent tag s :
  Str.includes tag s = false -> remove_matches (match_slot_tag tag) 0 s = s.
Proof.
  induction s as [|c s IH]; intros H; [reflexivity|].
  cbn [remove_matches]. rewrite (match_slot_tag_absent _ _ H).
  apply includes_false_cons in H as [_ H]. rewrite (IH H). reflexivity.
Qed.

Lemma remove_matches_length m s : forall skip,
  String.length (remove_matches m skip s) <= String.length s.
Proof.
  induction s as [|c s IH]; intros skip; cbn [remove_matches String.length]; [lia|].
  destruct skip as [|k].
  - destruct (m (String c s)) as [[|k]|]; cbn [String.length];
      try (specialize (IH 0); lia). specialize (IH k). lia.
  - specialize (IH k). lia.
Qed.

(** X2. Markup in which the name of the marker tag does not occur is left
    as it is; with a renderer that supports static slot markers this holds
    of every markup without the static tag name, the plain markers
    included. Whatever the markup, the result is never longer than it. *)
Theorem X2_removeStaticAstroSlot_unchanged (html : string) (supportsAstroStaticSlot : bool) :
  (Str.includes (if supportsAstroStaticSlot then "astro-static-slot" else "astro-slot")
                html = false ->
   removeStaticAstroSlot html supportsAstroStaticSlot = html)
  /\ String.length (removeStaticAstroSlot html supportsAstroStaticSlot)
     <= String.length html.
Proof.
  split.
  - intros H. unfold removeStaticAstroSlot, ASTRO_STATIC_SLOT_EXP, ASTRO_SLOT_EXP.
    destruct supportsAstroStaticSlot; apply remove_matches_absent, H.
  - apply remove_matches_length.
Qed.

Lemma X2_removeStaticAstroSlot_unchanged_witness :
  removeStaticAstroSlot "<div><astro-slot>x</astro-slot></div>" true =
  "<div><astro-slot>x</astro-slot></div>".
Proof.
  apply (proj1 (X2_removeStaticAstroSlot_unchanged
                  "<div><astro-slot>x</astro-slot></div>" true)).
  reflexivity.
Defined.

Lemma remove_matches_skip m a : forall rest,
  remove_matches m (String.length a) (a ++ rest) = remove_matches m 0 rest.
Proof.
  induction a as [|c a IH]; intros rest; cbn [String.length append].
  - reflexivity.
  - cbn [remove_matches]. apply IH.
Qed.

Lemma remove_matches_text m text : forall rest,
  (forall c s, m (String c s) <> None -> c = "<"%char) ->
  Str.existsb (Ascii.eqb "<") text = false ->
  remove_matches m 0 (text ++ rest) = text ++ remove_matches m 0 rest.
Proof.
  intros rest Hm. induction text as [|c text IH]; intros H; [reflexivity|].
  cbn [Str.existsb] in H. apply orb_false_iff in H as [Hc H].
  cbn [append remove_matches].
  destruct (m (String c (text ++ rest))) as [n|] eqn:Hmatch.
  - assert (Heq : c = "<"%char) by (apply (Hm c (text ++ rest)); congruence).
    subst c. discriminate.
  - rewrite (IH H). reflexivity.
Qed.

Lemma match_slot_tag_bracket tag c s : match_slot_tag tag (String c s) <> None -> c = "<"%char.
Proof.
  unfold match_slot_tag. destruct (Ascii.eqb_spec c "<"%char); [intros _; assumption|congruence].
Qed.

Lemma through_first_attributes attributes rest :
  Str.existsb (Ascii.eqb ">") attributes = false ->
  Str.through_first ">" (attributes ++ String ">" rest) =
  Some (S (String.length attributes)).
Proof.
  induction attributes as [|c a IH]; intros H; [reflexivity|].
  cbn [Str.existsb] in H. apply orb_false_iff in H as [Hc H].
  cbn [append Str.through_first]. rewrite Ascii.eqb_sym, Hc, (IH H). reflexivity.
Qed.

Lemma append_length (a b : string) :
  String.length (a ++ b) = String.length a + String.length b.
Proof. induction a as [|c a IH]; cbn; [reflexivity|rewrite IH; reflexivity]. Qed.

Lemma prefix_nil s : prefix "" s = true.
Proof. destruct s; reflexivity. Qed.

Lemma match_slot_tag_marker (closing static : bool) (attributes rest : string) :
  attributes_ok attributes = true ->
  match_slot_tag (if static then "astro-static-slot" else "astro-slot")
                 (slot_marker closing static attributes ++ rest) =
  Some (String.length (slot_marker closing static attributes)).
Proof.
  unfold attributes_ok. intros H. apply andb_true_iff in H as [Hgt Hword].
  apply negb_true_iff in Hgt.
  assert (Hthrough := through_first_attributes attributes rest Hgt).
  assert (Hboundary :
            match attributes ++ String ">" rest with
            | String e _ => negb (Str.is_word e)
            | EmptyString => true
            end = true).
  { destruct attributes; [reflexivity|exact Hword]. }
  unfold slot_marker.
  destruct closing, static; cbn - [Str.through_first Str.is_word];
    rewrite append_assoc; cbn [append];
    rewrite prefix_nil, Hboundary, Hthrough; cbn [option_map];
    rewrite append_length; cbn [String.length]; f_equal; lia.
Qed.

(** X3. A slot marker of the kind that is being removed (opening or
    closing, with attributes that hold no closing bracket) is dropped
    wherever it follows text without an opening bracket, and the removal
    goes on with what follows the marker. *)
Theorem X3_removeStaticAstroSlot_marker text closing attributes rest
        (supportsAstroStaticSlot : bool) :
  Str.existsb (Ascii.eqb "<") text = false ->
  attributes_ok attributes = true ->
  removeStaticAstroSlot
    (text ++ slot_marker closing supportsAstroStaticSlot attributes ++ rest)
    supportsAstroStaticSlot =
  text ++ removeStaticAstroSlot rest supportsAstroStaticSlot.
Proof.
  intros Htext Hattributes. unfold removeStaticAstroSlot.
  set (m := if supportsAstroStaticSlot then ASTRO_STATIC_SLOT_EXP else ASTRO_SLOT_EXP).
  assert (Hm : m = match_slot_tag
                     (if supportsAstroStaticSlot then "astro-static-slot" else "astro-slot"))
    by (unfold m; destruct supportsAstroStaticSlot; reflexivity).
  rewrite remove_matches_text; [|rewrite Hm; apply match_slot_tag_bracket|exact Htext].
  f_equal.
  pose proof (match_slot_tag_marker closing supportsAstroStaticSlot attributes rest
                                    Hattributes) as Hmatch.
  rewrite <- Hm in Hmatch.
  pose proof (remove_matches_skip m
                (slot_marker closing supportsAstroStaticSlot attributes) rest) as Hskip.
  destruct (slot_marker closing supportsAstroStaticSlot attributes) as [|c marker] eqn:Hmarker.
  - unfold slot_marker in Hmarker. discriminate.
  - cbn [append] in *. cbn [String.length] in *. cbn [remove_matches] in Hskip.
    cbn [remove_matches]. rewrite Hmatch. exact Hskip.
Qed.

Lemma X3_removeStaticAstroSlot_marker_witness :
  removeStaticAstroSlot
    ("hello " ++ slot_marker false false " name=a" ++ "world") false =
  "hello " ++ removeStaticAstroSlot "world" false.
Proof.
  exact (X3_removeStaticAstroSlot_marker "hello " false " name=a" "world" false
                                         eq_refl eq_refl).
Defined.

(** ** The extension of the component URL and the probable renderers *)

Lemma last_segment_from_no_dot c s : forall cur,
  Str.existsb (Ascii.eqb c) s = false ->
  Str.last_segment_from c cur s = cur ++ s.
Proof.
  induction s as [|d s IH]; intros cur H; cbn.
  - rewrite append_empty_r. reflexivity.
  - cbn [Str.existsb] in H. apply orb_false_iff in H as [Hd H].
    rewrite Ascii.eqb_sym, Hd, (IH _ H), append_assoc. reflexivity.
Qed.

Lemma last_segment_from_after c base ext : forall cur,
  Str.existsb (Ascii.eqb c) ext = false ->
  Str.last_segment_from c cur (base ++ String c ext) = ext.
Proof.
  induction base as [|d base IH]; intros cur H; cbn [append Str.last_segment_from].
  - rewrite Ascii.eqb_refl. apply (last_segment_from_no_dot c ext "" H).
  - destruct (Ascii.eqb d c); apply IH, H.
Qed.

Lemma last_segment_from_free c s : forall cur,
  Str.existsb (Ascii.eqb c) cur = false ->
  Str.existsb (Ascii.eqb c) (Str.last_segment_from c cur s) = false.
Proof.
  induction s as [|d s IH]; intros cur H; cbn [Str.last_segment_from]; [exact H|].
  destruct (Ascii.eqb d c) eqn:Hd; apply IH; [reflexivity|].
  clear IH. induction cur as [|e cur IHc]; cbn [append Str.existsb] in *.
  - rewrite Ascii.eqb_sym, Hd. reflexivity.
  - apply orb_false_iff in H as [He H]. rewrite He, (IHc H). reflexivity.
Qed.

(** X4. The extension taken from a component URL is the text after its
    last dot and never holds a dot; a URL without a dot is its own
    extension. Whatever the path before the extension, a svelte file is
    guessed to be for the svelte renderer alone, a vue file for the vue
    renderer alone, and a jsx or tsx file for the four JSX renderers. *)
Theorem X4_extname_guess base ext :
  Str.existsb (Ascii.eqb ".") ext = false ->
  extname (Some (base ++ "." ++ ext)) = Some ext
  /\ extname (Some ext) = Some ext
  /\ (forall url, Str.existsb (Ascii.eqb ".") (Str.split_pop "." url) = false)
  /\ guessRenderers (Some (base ++ ".svelte")) = ["@astrojs/svelte"]
  /\ guessRenderers (Some (base ++ ".vue")) = ["@astrojs/vue"]
  /\ guessRenderers (Some (base ++ ".jsx")) =
     ["@astrojs/react"; "@astrojs/preact"; "@astrojs/solid-js"; "@astrojs/vue (jsx)"]
  /\ guessRenderers (Some (base ++ ".tsx")) =
     ["@astrojs/react"; "@astrojs/preact"; "@astrojs/solid-js"; "@astrojs/vue (jsx)"].
Proof.
  intros Hext.
  assert (Hpop : forall e, Str.existsb (Ascii.eqb ".") e = false ->
                           Str.split_pop "." (base ++ String "." e) = e)
    by (intros e He; apply last_segment_from_after, He).
  refine (conj _ (conj _ (conj _ (conj _ (conj _ (conj _ _)))))).
  - unfold extname. cbn [option_map append]. rewrite (Hpop ext Hext). reflexivity.
  - unfold extname, Str.split_pop. cbn [option_map].
    rewrite (last_segment_from_no_dot _ _ "" Hext). reflexivity.
  - intros url. apply last_segment_from_free. reflexivity.
  - unfold guessRenderers, extname. cbn [option_map append].
    rewrite (Hpop "svelte" eq_refl). reflexivity.
  - unfold guessRenderers, extname. cbn [option_map append].
    rewrite (Hpop "vue" eq_refl). reflexivity.
  - unfold guessRenderers, extname. cbn [option_map append].
    rewrite (Hpop "jsx" eq_refl). reflexivity.
  - unfold guessRenderers, extname. cbn [option_map append].
    rewrite (Hpop "tsx" eq_refl). reflexivity.
Qed.

Lemma X4_extname_guess_witness :
  extname (Some ("/src/components/Counter.test" ++ "." ++ "jsx")) = Some "jsx".
Proof.
  exact (proj1 (X4_extname_guess "/src/components/Counter.test" "jsx" eq_refl)).
Defined.

(** ** The string renderer outside a page, and its errors *)

(** X5. Outside a page nothing is ever put in front of the chunks: the
    string is the concatenation, in order, of the texts of the written
    chunks, a response object adding nothing. *)
Theorem X5_string_outside_page env result head chunks :
  str (write_all env result false head initial_destination chunks) =
  Str.join (map (chunk_text env result) chunks)
  /\ chunk_text env result ChunkResponse = ""
  /\ (forall displayName Component props slots route log instance log',
        renderComponent env result displayName Component props slots log =
        (Returns instance, log') ->
        rejects instance = None ->
        renderComponentToString env result displayName Component props slots false route log =
        (Returns (Str.join (map (chunk_text env result) (writes instance))), log')).
Proof.
  assert (Hall : forall h cs,
             str (write_all env result false h initial_destination cs) =
             Str.join (map (chunk_text env result) cs)).
  { intros h cs.
    destruct (write_all_appends env result false h cs initial_destination eq_refl)
      as [Hstr _].
    rewrite Hstr. reflexivity. }
  refine (conj (Hall head chunks) (conj eq_refl _)).
  intros displayName Component props slots route log instance log' Hrun Hdone.
  unfold renderComponentToString, try_catch. erewrite bind_eq by exact Hrun.
  rewrite Hdone. unfold ret. rewrite Hall. reflexivity.
Qed.

Lemma X5_string_outside_page_witness :
  renderComponentToString sample_env (sample_result []) "Fragment" (Settled FragmentSymbol)
                          [] [("default", SlotFunction 0)] false None [] =
  (Returns "<p>hi</p>", []).
Proof.
  destruct (X5_string_outside_page sample_env (sample_result []) "" []) as (_ & _ & Hrender).
  exact (Hrender "Fragment" (Settled FragmentSymbol) [] [("default", SlotFunction 0)] None []
                 (writing [ChunkHTMLString "<p>hi</p>"]) [] eq_refl eq_refl).
Defined.

(** X6. Whatever is thrown while the component is resolved or rendered
    (by [renderComponent], or by the instance while it renders) makes
    [renderComponentToString] throw, with no string returned. What it
    throws is the caught value, with two exceptions: a structured error
    that has no location yet gets the file of the route, and for a caught
    null or undefined the handler itself fails with a type error, which is
    thrown in its place. Every other value, a structured error that has a
    location included, is passed on unchanged, so that a location once set
    is never overwritten by an enclosing call. *)
Theorem X6_error_location env result displayName Component props slots isPage route log :
  (forall e log',
      renderComponent env result displayName Component props slots log = (Throws e, log') ->
      renderComponentToString env result displayName Component props slots isPage route log =
      (Throws (with_location route e), log'))
  /\ (forall instance e log',
      renderComponent env result displayName Component props slots log =
      (Returns instance, log') ->
      rejects instance = Some e ->
      renderComponentToString env result displayName Component props slots isPage route log =
      (Throws (with_location route e), log'))
  /\ (forall data,
      with_location route (ErrorObject (AstroError data None)) =
      ErrorObject (AstroError data (Some {| file := option_map route_component route |})))
  /\ (forall e, nullish e = true ->
                exists message, with_location route e = ErrorObject (Error message))
  /\ (forall e outer, with_location outer (with_location route e) = with_location route e)
  /\ (forall e,
      nullish e = false ->
      (forall data, e <> ErrorObject (AstroError data None)) -> with_location route e = e).
Proof.
  refine (conj _ (conj _ (conj _ (conj _ (conj _ _))))).
  - intros e log' Hrun. unfold renderComponentToString, try_catch.
    erewrite bind_throws by exact Hrun. reflexivity.
  - intros instance e log' Hrun Hrejects. unfold renderComponentToString, try_catch.
    erewrite bind_eq by exact Hrun. rewrite Hrejects. reflexivity.
  - reflexivity.
  - intros e He. destruct e as [[| | | |]|[message|data [loc|]]|id]; try discriminate;
      eexists; reflexivity.
  - intros e outer. destruct e as [[| | | |]|[message|data [loc|]]|id]; reflexivity.
  - intros e Hnullish Hother.
    destruct e as [[| | | |]|[message|data [loc|]]|id]; try reflexivity; try discriminate.
    destruct (Hother data eq_refl).
Qed.

(** A component that is null: the error is a plain one and is passed on
    as it is. *)
Lemma X6_error_location_witness :
  renderComponentToString sample_env (sample_result [react_renderer]) "Counter"
                          (Settled (Primitive PNull)) [] [] true
                          (Some {| route_component := "src/pages/index.astro" |}) [] =
  (Throws (ErrorObject (Error
     ("Unable to render Counter because it is null!" ++ LF
      ++ "Did you forget to import the component or is it possible there is a typo?"))),
   []).
Proof.
  exact (proj1 (X6_error_location sample_env (sample_result [react_renderer]) "Counter"
                  (Settled (Primitive PNull)) [] [] true
                  (Some {| route_component := "src/pages/index.astro" |}) [])
               _ [] eq_refl).
Defined.

Example missing_entrypoint_located :
  renderComponentToString sample_env (sample_result [server_only_renderer]) "Post"
    (Settled untagged_component) (load_props "/src/Post.mdx") [] true
    (Some {| route_component := "src/pages/post.astro" |}) [] =
  (Throws (ErrorObject (AstroError (NoClientEntrypoint "Post" "load" "@astrojs/mdx")
                                   (Some {| file := Some "src/pages/post.astro" |}))),
   [check_call server_only_renderer; renderToStaticMarkup_call server_only_renderer]).
Proof. reflexivity. Qed.

(** ** The dispatcher *)

(** X7. A rejected promise makes [renderComponent] fail with the reason
    of the rejection and nothing else happens. For a component that is the
    Fragment marker, an HTML component or a template component factory, no
    hook of any renderer is invoked, whatever is registered; the Fragment
    marker goes before the HTML marker, which goes before the factory
    marker. *)
Theorem X7_dispatch env result displayName Component props slots log :
  (forall e, Component = Promise (Throws e) ->
             renderComponent env result displayName Component props slots log =
             (Throws e, log))
  /\ (forall c,
        await_component Component = Returns c ->
        isFragmentComponent c || isHTMLComponent c || is_AstroComponentFactory c = true ->
        snd (renderComponent env result displayName Component props slots log) = log)
  /\ (forall c,
        await_component Component = Returns c ->
        isHTMLComponent c = true ->
        renderComponent env result displayName Component props slots log =
        renderHTMLComponent env result c props slots log)
  /\ (forall c,
        await_component Component = Returns c ->
        isHTMLComponent c = false -> is_AstroComponentFactory c = true ->
        renderComponent env result displayName Component props slots log =
        renderAstroComponent env result displayName c props slots log).
Proof.
  refine (conj _ (conj _ (conj _ _))).
  - intros e ->. reflexivity.
  - intros c Hawait Hkind. unfold renderComponent.
    rewrite Hawait, bind_lift_returns.
    destruct (isFragmentComponent c).
    { unfold renderFragmentComponent, bind, lift, ret.
      destruct (renderSlotToString env result (get "default" slots)); reflexivity. }
    destruct (isHTMLComponent c).
    { unfold renderHTMLComponent, bind, lift, ret.
      destruct (renderSlots env result slots) as [[children instructions]|]; [|reflexivity].
      destruct (callHTMLComponent env c children); reflexivity. }
    destruct (is_AstroComponentFactory c); [reflexivity|discriminate].
  - intros c Hawait Hhtml. unfold renderComponent.
    rewrite Hawait, bind_lift_returns, Hhtml.
    destruct c as [p| |o]; cbn in *; try discriminate. reflexivity.
  - intros c Hawait Hhtml Hfactory. unfold renderComponent.
    rewrite Hawait, bind_lift_returns, Hhtml, Hfactory.
    destruct c as [p| |o]; cbn in *; try discriminate. reflexivity.
Qed.

Lemma X7_dispatch_witness :
  renderComponent sample_env (sample_result [react_renderer]) "Broken"
                  (Promise (Throws (ErrorObject (Error "failed to load module")))) [] [] [] =
  (Throws (ErrorObject (Error "failed to load module")), []).
Proof.
  exact (proj1 (X7_dispatch sample_env (sample_result [react_renderer]) "Broken"
                  (Promise (Throws (ErrorObject (Error "failed to load module")))) [] [] [])
               _ eq_refl).
Defined.

(** ** The buffer of a template component *)

Lemma fold_left_snoc {A} (l : list A) : forall dest,
  fold_left (fun d x => (d ++ [x])%list) l dest = (dest ++ l)%list.
Proof.
  induction l as [|x l IH]; intros dest; cbn.
  - rewrite app_nil_r. reflexivity.
  - rewrite IH, <- app_assoc. reflexivity.
Qed.

Lemma buffer_before chunks : forall st,
  rebound st = false ->
  fold_left bufferDestination_write chunks st =
  {| bufferChunks := (bufferChunks st ++ chunks)%list;
     rebound := false;
     received := received st |}.
Proof.
  induction chunks as [|c chunks IH]; intros [buffer flag dest] H; cbn in *; subst flag.
  - rewrite app_nil_r. reflexivity.
  - unfold bufferDestination_write at 2. cbn. rewrite IH by reflexivity. cbn.
    rewrite <- app_assoc. reflexivity.
Qed.

Lemma buffer_after chunks : forall st,
  rebound st = true ->
  fold_left bufferDestination_write chunks st =
  {| bufferChunks := bufferChunks st;
     rebound := true;
     received := (received st ++ chunks)%list |}.
Proof.
  induction chunks as [|c chunks IH]; intros [buffer flag dest] H; cbn in *; subst flag.
  - rewrite app_nil_r. reflexivity.
  - unfold bufferDestination_write at 2. cbn. rewrite IH by reflexivity. cbn.
    rewrite <- app_assoc. reflexivity.
Qed.

(** X8. However the chunks of a template component fall before and after
    the moment its returned [render] is invoked, the destination receives
    all of them, after what it held, in the order in which the instance
    wrote them; nothing reaches the destination before that moment, and
    afterwards the buffer is empty and stays empty. *)
Theorem X8_buffer_order dest early late :
  received (render_buffered dest early late) = (dest ++ early ++ late)%list
  /\ bufferChunks (render_buffered dest early late) = []
  /\ received (fold_left bufferDestination_write early
                         {| bufferChunks := []; rebound := false; received := dest |}) = dest.
Proof.
  unfold render_buffered.
  rewrite (buffer_before early) by reflexivity.
  rewrite buffer_after by reflexivity.
  unfold flush_buffer. cbn. rewrite fold_left_snoc. repeat split.
  rewrite <- app_assoc. reflexivity.
Qed.

(** ** renderFrameworkComponent as a whole *)

Lemma resolve_normal_untagged renderers Component props children log :
  truthy (isTagged Component) = false ->
  resolve_normal renderers Component props children log =
  (normal_path_outcome Component props children renderers,
   (log ++ map check_call (consulted Component props children renderers))%list).
Proof.
  intros Htag. unfold resolve_normal, tagged_renderer. rewrite Htag.
  rewrite bind_ret. apply claim_by_check_run.
Qed.


Lemma renderFrameworkComponent_frame env result displayName Component _props slots log
      extracted children slotInstructions :
  component_truthy Component || client_only _props = true ->
  extractDirectives env _props (clientDirectives result) = Returns extracted ->
  renderSlots env result slots = Returns (children, slotInstructions) ->
  renderFrameworkComponent env result displayName Component _props slots log =
  match resolve_renderer env result Component _props (props extracted) children slots
                         (build_metadata displayName (hydration extracted))
                         (non_pass_through (renderers result)) log with
  | (Throws e, log1) => (Throws e, log1)
  | (Returns (Finished instance), log1) => (Returns instance, log1)
  | (Returns (Resolved found), log1) =>
      match render_markup env result Component (props extracted) children slots
                          (build_metadata displayName (hydration extracted))
                          (non_pass_through (renderers result))
                          (guessRenderers
                             (componentUrl (build_metadata displayName (hydration extracted))))
                          found log1 with
      | (Throws e, log2) => (Throws e, log2)
      | (Returns (renderer, html, attrs), log2) =>
          (after_markup env result displayName Component extracted children
                        slotInstructions renderer html attrs, log2)
      end
  end.
Proof.
  intros Hcomp Hex Hslots.
  destruct (resolve_renderer env result Component _props (props extracted) children slots
              (build_metadata displayName (hydration extracted))
              (non_pass_through (renderers result)) log) as [[[found|instance]|e] log1] eqn:Hres.
  - destruct (render_markup env result Component (props extracted) children slots
                (build_metadata displayName (hydration extracted))
                (non_pass_through (renderers result))
                (guessRenderers
                   (componentUrl (build_metadata displayName (hydration extracted))))
                found log1) as [[[[renderer html] attrs]|e] log2] eqn:Hmarkup.
    + apply (renderFrameworkComponent_after_markup _ _ _ _ _ _ _ _ _ _ _ _ _ _ _ _
               Hcomp Hex Hslots Hres Hmarkup).
    + unfold renderFrameworkComponent. apply orb_true_iff in Hcomp.
      assert (Hguard : negb (component_truthy Component) && negb (client_only _props) = false)
        by (destruct Hcomp as [-> | ->]; [reflexivity|apply andb_false_r]).
      rewrite Hguard, Hex, bind_lift_returns, Hslots, bind_lift_returns.
      fold (non_pass_through (renderers result)).
      erewrite bind_eq by exact Hres. cbv beta iota.
      erewrite bind_throws by exact Hmarkup. reflexivity.
  - unfold renderFrameworkComponent. apply orb_true_iff in Hcomp.
    assert (Hguard : negb (component_truthy Component) && negb (client_only _props) = false)
      by (destruct Hcomp as [-> | ->]; [reflexivity|apply andb_false_r]).
    rewrite Hguard, Hex, bind_lift_returns, Hslots, bind_lift_returns.
    fold (non_pass_through (renderers result)).
    erewrite bind_eq by exact Hres. reflexivity.
  - unfold renderFrameworkComponent. apply orb_true_iff in Hcomp.
    assert (Hguard : negb (component_truthy Component) && negb (client_only _props) = false)
      by (destruct Hcomp as [-> | ->]; [reflexivity|apply andb_false_r]).
    rewrite Hguard, Hex, bind_lift_returns, Hslots, bind_lift_returns.
    fold (non_pass_through (renderers result)).
    erewrite bind_throws by exact Hres. reflexivity.
Qed.

Lemma resolve_renderer_normal env result Component _props props children slots metadata
      valid log :
  hydrate_is_only metadata = false ->
  resolve_renderer env result Component _props props children slots metadata valid log =
  match resolve_normal (renderers result) Component props children log with
  | (Throws e, log1) => (Throws e, log1)
  | (Returns (Some r), log1) => (Returns (Resolved (Some r)), log1)
  | (Returns None, log1) =>
      if HTMLElement_is_function env && componentIsHTMLElement env Component then
        match renderHTMLElement env result Component _props slots with
        | Returns output => (Returns (Finished (writing [ChunkString output])), log1)
        | Throws e => (Throws e, log1)
        end
      else (Returns (Resolved None), log1)
  end.
Proof.
  intros Hmode. unfold resolve_renderer. rewrite Hmode. cbn [negb]. unfold bind at 1.
  destruct (resolve_normal (renderers result) Component props children log)
    as [[[r|]|e] log1]; try reflexivity.
  destruct (HTMLElement_is_function env && componentIsHTMLElement env Component);
    [|reflexivity].
  unfold bind, lift, ret.
  destruct (renderHTMLElement env result Component _props slots); reflexivity.
Qed.

Lemma hydrate_is_only_none displayName :
  hydrate_is_only (build_metadata displayName None) = false.
Proof. reflexivity. Qed.

Lemma render_markup_claimed env result Component props children slots metadata valid
      probable r log :
  hydrate_is_only metadata = false ->
  render_markup env result Component props children slots metadata valid probable
                (Some r) log =
  (match renderToStaticMarkup (ssr r) Component props children metadata with
   | Returns (html, attrs) => Returns (Some r, html, attrs)
   | Throws e => Throws e
   end, (log ++ [renderToStaticMarkup_call r])%list).
Proof.
  intros Hmode. unfold render_markup. rewrite Hmode.
  unfold bind, call_renderToStaticMarkup, invoke, ret, renderToStaticMarkup_call.
  destruct (renderToStaticMarkup (ssr r) Component props children metadata) as [[html attrs]|e];
    reflexivity.
Qed.

(** X9. A component without hydration directive and without tag, outside
    a page, that some renderer other than the pass-through one claims and
    renders to a markup that is not empty: the checks run in registry order
    up to the claiming renderer, its static render is invoked once, and the
    instance writes the slot instructions followed by one chunk, the markup
    with the slot markers removed according to the flag of the renderer. *)
Theorem X9_static_render env result displayName Component _props slots log
        extracted children slotInstructions r html attrs :
  component_truthy Component || client_only _props = true ->
  extractDirectives env _props (clientDirectives result) = Returns extracted ->
  hydration extracted = None ->
  isPage extracted = false ->
  renderSlots env result slots = Returns (children, slotInstructions) ->
  truthy (isTagged Component) = false ->
  find (claims Component (props extracted) children) (renderers result) = Some r ->
  name r <> "astro:jsx" ->
  renderToStaticMarkup (ssr r) Component (props extracted) children
                       (build_metadata displayName None) = Returns (html, attrs) ->
  html <> "" ->
  renderFrameworkComponent env result displayName Component _props slots log =
  (Returns (writing
              (instruction_chunks slotInstructions ++
               [ChunkHTMLString
                  (removeStaticAstroSlot html
                     match supportsAstroStaticSlot (ssr r) with
                     | Some flag => flag
                     | None => false
                     end)])%list),
   (log ++ map check_call (consulted Component (props extracted) children (renderers result))
        ++ [renderToStaticMarkup_call r])%list).
Proof.
  intros Hcomp Hex Hhydration Hpage Hslots Htag Hclaim Hjsx Hmarkup Hhtml.
  rewrite (renderFrameworkComponent_frame _ _ _ _ _ _ _ _ _ _ Hcomp Hex Hslots).
  rewrite Hhydration.
  rewrite (resolve_renderer_normal _ _ _ _ _ _ _ _ _ _ (hydrate_is_only_none displayName)).
  rewrite (resolve_normal_untagged _ _ _ _ _ Htag).
  unfold normal_path_outcome. rewrite Hclaim.
  rewrite (render_markup_claimed _ _ _ _ _ _ _ _ _ _ _ (hydrate_is_only_none displayName)).
  rewrite Hmarkup. unfold after_markup. rewrite Hhydration. cbn [validate_clientEntrypoint].
  cbn [build_metadata hydrate opt_truthy andb].
  rewrite andb_false_r.
  rewrite (custom_element_statement_normal _ _ _ _ _ _ _ (hydrate_is_only_none displayName)).
  rewrite custom_element_fallback_keeps by (right; exact Hhtml).
  unfold static_instance. rewrite Hpage. cbn [orb renderer_name_is].
  apply String.eqb_neq in Hjsx. rewrite Hjsx.
  apply String.eqb_neq in Hhtml. unfold string_truthy. rewrite Hhtml. cbn [negb].
  rewrite <- app_assoc. reflexivity.
Qed.

Lemma X9_static_render_witness :
  renderFrameworkComponent sample_env (sample_result [vue_renderer; slot_marking_renderer])
                           "Card" untagged_component [] [("default", SlotFunction 0)] [] =
  (Returns (writing [ChunkHTMLString "<div>x</div>"]),
   [check_call vue_renderer; check_call slot_marking_renderer;
    renderToStaticMarkup_call slot_marking_renderer]).
Proof.
  refine (X9_static_render sample_env (sample_result [vue_renderer; slot_marking_renderer])
            "Card" untagged_component [] [("default", SlotFunction 0)] []
            {| hydration := None; isPage := false; props := [] |}
            [("default", "<p>hi</p>")] None slot_marking_renderer
            "<div><astro-slot>x</astro-slot></div>" None
            eq_refl eq_refl eq_refl eq_refl eq_refl eq_refl eq_refl _ eq_refl _);
    discriminate.
Defined.

(** X10. A component that is a string which no renderer claims, no check
    having thrown a value that is raised again, and which is no element
    constructor, never fails for lack of a renderer: without hydration
    directive and outside a page, every check has run, no static render is
    invoked, and the instance writes the slot instructions followed by the
    markup of the custom element, from which the slot markers are removed
    like from any other markup. *)
Theorem X10_custom_element_render env result displayName tag _props slots log
        extracted children slotInstructions :
  tag <> "" ->
  extractDirectives env _props (clientDirectives result) = Returns extracted ->
  hydration extracted = None ->
  isPage extracted = false ->
  renderSlots env result slots = Returns (children, slotInstructions) ->
  normal_path_outcome (Primitive (PString tag)) (props extracted) children
                      (renderers result) = Returns None ->
  HTMLElement_is_function env && componentIsHTMLElement env (Primitive (PString tag)) = false ->
  renderFrameworkComponent env result displayName (Primitive (PString tag)) _props slots log =
  (Returns (writing
              (instruction_chunks slotInstructions ++
               [ChunkHTMLString
                  (removeStaticAstroSlot
                     (render_custom_element env result tag (props extracted) children)
                     false)])%list),
   (log ++ map check_call (renderers result))%list).
Proof.
  intros Htag Hex Hhydration Hpage Hslots Hnone Helement.
  assert (Hcomp : component_truthy (Primitive (PString tag)) || client_only _props = true).
  { cbn. apply String.eqb_neq in Htag. rewrite Htag. reflexivity. }
  assert (Huntagged : truthy (isTagged (Primitive (PString tag))) = false).
  { unfold isTagged. destruct (prim_truthy (PString tag)) eqn:Hp; [reflexivity|exact Hp]. }
  rewrite (renderFrameworkComponent_frame _ _ _ _ _ _ _ _ _ _ Hcomp Hex Hslots).
  rewrite Hhydration.
  rewrite (resolve_renderer_normal _ _ _ _ _ _ _ _ _ _ (hydrate_is_only_none displayName)).
  rewrite (resolve_normal_untagged _ _ _ _ _ Huntagged), Hnone, Helement.
  assert (Hall : consulted (Primitive (PString tag)) (props extracted) children
                           (renderers result) = renderers result).
  { apply consulted_all. unfold normal_path_outcome in Hnone.
    destruct (find _ (renderers result)); [discriminate|reflexivity]. }
  rewrite Hall. unfold render_markup.
  rewrite (hydrate_is_only_none displayName). cbn [is_string_component]. unfold ret.
  unfold after_markup. rewrite Hhydration. cbn [validate_clientEntrypoint].
  rewrite (custom_element_statement_normal _ _ _ _ _ _ _ (hydrate_is_only_none displayName)).
  unfold custom_element_fallback. cbn [is_string_component string_truthy String.eqb negb].
  unfold static_instance. rewrite Hpage. cbn [orb renderer_name_is].
  rewrite render_custom_element_markup. cbn [string_truthy append String.eqb negb].
  cbn [renderer_supportsAstroStaticSlot]. reflexivity.
Qed.

Lemma X10_custom_element_render_witness :
  renderFrameworkComponent sample_env (sample_result [vue_renderer]) "MyTag"
                           (Primitive (PString "my-tag"))
                           [("class", Prim (PString "x"))] [] [] =
  (Returns (writing [ChunkHTMLString
                       (removeStaticAstroSlot
                          (render_custom_element sample_env (sample_result [vue_renderer])
                             "my-tag" [("class", Prim (PString "x"))] [])
                          false)]),
   [check_call vue_renderer]).
Proof.
  refine (X10_custom_element_render sample_env (sample_result [vue_renderer]) "MyTag"
            "my-tag" [("class", Prim (PString "x"))] [] []
            {| hydration := None; isPage := false; props := [("class", Prim (PString "x"))] |}
            [] None _ eq_refl eq_refl eq_refl eq_refl eq_refl eq_refl).
  discriminate.
Defined.

(** X11. Under the only directive, when none of the three attempts finds
    a renderer, the render fails with the client-only hint error, which
    names the component and lists the probable renderers for the extension
    of the component URL, each without its scope, separated by bars; no
    hook of any renderer has been invoked. *)
Theorem X11_only_unresolved env result displayName Component _props slots log
        extracted h children slotInstructions :
  component_truthy Component || client_only _props = true ->
  extractDirectives env _props (clientDirectives result) = Returns extracted ->
  hydration extracted = Some h ->
  hydration_directive h = "only" ->
  renderSlots env result slots = Returns (children, slotInstructions) ->
  resolve_only (renderers result) (non_pass_through (renderers result))
               (build_metadata displayName (Some h)) = None ->
  renderFrameworkComponent env result displayName Component _props slots log =
  (Throws (ErrorObject (AstroError
     (NoClientOnlyHint displayName
        (String.concat "|"
           (map (replace_first "@astrojs/" "")
                (guessRenderers (Some (hydration_componentUrl h))))))
     None)), log).
Proof.
  intros Hcomp Hex Hhydration Honly Hslots Hnone.
  assert (Hmode : hydrate_is_only (build_metadata displayName (Some h)) = true).
  { unfold hydrate_is_only. cbn. rewrite Honly. reflexivity. }
  rewrite (renderFrameworkComponent_frame _ _ _ _ _ _ _ _ _ _ Hcomp Hex Hslots).
  rewrite Hhydration, (resolve_renderer_only _ _ _ _ _ _ _ _ _ _ Hmode), Hnone.
  unfold render_markup. rewrite Hmode. reflexivity.
Qed.

Lemma X11_only_unresolved_witness :
  renderFrameworkComponent sample_env (sample_result [react_renderer; vue_renderer])
                           "Chart" (Primitive PNull)
                           (only_props "d3" "/src/Chart.svelte") [] [] =
  (Throws (ErrorObject (AstroError (NoClientOnlyHint "Chart" "svelte") None)), []).
Proof.
  exact (X11_only_unresolved sample_env (sample_result [react_renderer; vue_renderer])
           "Chart" (Primitive PNull) (only_props "d3" "/src/Chart.svelte") [] []
           _ (only_hydration "d3" "/src/Chart.svelte") [] None
           eq_refl eq_refl eq_refl eq_refl eq_refl eq_refl).
Defined.

(** X12. A component that no renderer claims and that is an element
    constructor of the platform is serialised by the element fallback: the
    instance writes the output of that serialisation as its only chunk, no
    static render is invoked, and neither the client entrypoint check nor
    the island is reached, a hydration directive other than only
    notwithstanding. *)
Theorem X12_element_fallback env result displayName Component _props slots log
        extracted children slotInstructions log1 output :
  component_truthy Component || client_only _props = true ->
  extractDirectives env _props (clientDirectives result) = Returns extracted ->
  hydrate_is_only (build_metadata displayName (hydration extracted)) = false ->
  renderSlots env result slots = Returns (children, slotInstructions) ->
  resolve_normal (renderers result) Component (props extracted) children log =
  (Returns None, log1) ->
  HTMLElement_is_function env = true ->
  componentIsHTMLElement env Component = true ->
  renderHTMLElement env result Component _props slots = Returns output ->
  renderFrameworkComponent env result displayName Component _props slots log =
  (Returns (writing [ChunkString output]), log1).
Proof.
  intros Hcomp Hex Hmode Hslots Hnone Hglobal Helement Houtput.
  rewrite (renderFrameworkComponent_frame _ _ _ _ _ _ _ _ _ _ Hcomp Hex Hslots).
  rewrite (resolve_renderer_normal _ _ _ _ _ _ _ _ _ _ Hmode).
  rewrite Hnone, Hglobal, Helement, Houtput. reflexivity.
Qed.

(** An element constructor used with a load directive, which the one
    registered renderer does not claim. *)
Lemma X12_element_fallback_witness :
  renderFrameworkComponent dom_env (sample_result [vue_renderer]) "MyElement"
                           untagged_component (load_props "/src/my-element.js") [] [] =
  (Returns (writing [ChunkString "<my-element></my-element>"]), [check_call vue_renderer]).
Proof.
  exact (X12_element_fallback dom_env (sample_result [vue_renderer]) "MyElement"
           untagged_component (load_props "/src/my-element.js") [] []
           _ [] None [check_call vue_renderer] "<my-element></my-element>"
           eq_refl eq_refl eq_refl eq_refl eq_refl eq_refl eq_refl eq_refl).
Defined.

(** ** The island *)

Lemma append_eq_empty (a b : string) : a ++ b = "" -> a = "" /\ b = "".
Proof. destruct a; cbn; [intros ->; split; reflexivity|discriminate]. Qed.

Lemma string_truthy_iff s : string_truthy s = true <-> s <> "".
Proof.
  unfold string_truthy. destruct (String.eqb_spec s ""); cbn; split; congruence.
Qed.

Lemma island_content_empty renderer metadata html children :
  island_content renderer metadata html children = "" <-> html = "" /\ children = [].
Proof.
  unfold island_content. split.
  - intros H. apply append_eq_empty in H as [-> Htemplates]. split; [reflexivity|].
    rewrite templates_join in Htemplates. cbn [unrenderedSlots string_truthy String.eqb negb]
      in Htemplates.
    destruct children as [|[key content] children]; [reflexivity|].
    cbn [keys map] in Htemplates. rewrite join_cons in Htemplates.
    apply append_eq_empty in Htemplates as [Htemplate _].
    unfold slot_template in Htemplate. discriminate.
  - intros [-> ->]. reflexivity.
Qed.

(** X13. The island awaits its children exactly when it hosts something:
    the hosted content is empty only for an empty markup without any child
    slot; when it is not empty the property await-children of the island is
    the empty string, whatever the hydration script generator had put
    there, and every other property is as the generator returned it; when
    it is empty the properties are untouched. *)
Theorem X13_await_children env result renderer metadata props attrs children html island :
  build_island env result renderer metadata props attrs children html = Returns island ->
  exists astroId base,
    compute_astroId env metadata props html = Returns astroId
    /\ generateHydrateScript env
         {| opt_renderer := renderer; opt_result := result; opt_astroId := astroId;
            opt_props := props; opt_attrs := attrs |} metadata = Returns base
    /\ (island_children island = "" <-> html = "" /\ children = [])
    /\ (island_children island <> "" ->
        get "await-children" (island_props island) = Some (Prim (PString "")))
    /\ (island_children island = "" -> island_props island = island_props base)
    /\ (forall key, key <> "await-children" ->
                    get key (island_props island) = get key (island_props base)).
Proof.
  unfold build_island.
  destruct (compute_astroId env metadata props html) as [astroId|]; [|discriminate].
  destruct (generateHydrateScript env _ metadata) as [base|] eqn:Hbase; [|discriminate].
  intros H. inversion H as [Hisland]. clear H. exists astroId, base.
  cbn [island_children island_props].
  refine (conj eq_refl (conj Hbase (conj _ (conj _ (conj _ _))))).
  - apply island_content_empty.
  - intros Hne. apply string_truthy_iff in Hne. rewrite Hne. apply get_set_same.
  - intros Hempty. rewrite Hempty. reflexivity.
  - intros key Hkey.
    destruct (string_truthy (island_content renderer metadata html children));
      [apply get_set_other, Hkey|reflexivity].
Qed.

Lemma X13_await_children_witness :
  get "await-children"
      (island_props (sample_island "/src/Card.jsx" "<div></div>" "<div></div>")) =
  Some (Prim (PString "")).
Proof.
  destruct (X13_await_children sample_env (sample_result [react_renderer])
              (Some react_renderer)
              (build_metadata "Card" (Some (load_hydration "/src/Card.jsx")))
              [] None [] "<div></div>"
              (sample_island "/src/Card.jsx" "<div></div>" "<div></div>") eq_refl)
    as (astroId & base & _ & _ & _ & Hawait & _).
  apply Hawait. discriminate.
Defined.

Lemma append_not_empty (a b : string) : a <> "" -> a ++ b <> "".
Proof. intros Ha H. apply append_eq_empty in H as [H _]. contradiction. Qed.

(** X14. A component without tag, hydrated by a directive other than
    only, that a renderer with a client entrypoint claims and renders to a
    markup that is not empty: the island identity given to the hydration
    script generator is the hash of the export name, the URL, the markup
    and the serialised props; the instance writes, in this order, the slot
    instructions, the hydration directive instruction and the island
    element, whose content is the markup followed by the templates of the
    unrendered slots and which awaits its children. *)
Theorem X14_hydrated_render env result displayName Component _props slots log
        extracted h children slotInstructions r html attrs serialized base :
  component_truthy Component || client_only _props = true ->
  extractDirectives env _props (clientDirectives result) = Returns extracted ->
  hydration extracted = Some h ->
  hydration_directive h <> "only" ->
  renderSlots env result slots = Returns (children, slotInstructions) ->
  truthy (isTagged Component) = false ->
  find (claims Component (props extracted) children) (renderers result) = Some r ->
  opt_truthy (clientEntrypoint r) = true ->
  let metadata := build_metadata displayName (Some h) in
  renderToStaticMarkup (ssr r) Component (props extracted) children metadata =
  Returns (html, attrs) ->
  html <> "" ->
  serializeProps env (props extracted) metadata = Returns serialized ->
  generateHydrateScript env
    {| opt_renderer := Some r; opt_result := result;
       opt_astroId :=
         shorthash env
           (astroId_text (hydration_componentExport h) (Some (hydration_componentUrl h))
                         html serialized);
       opt_props := props extracted; opt_attrs := attrs |} metadata = Returns base ->
  renderFrameworkComponent env result displayName Component _props slots log =
  (Returns (writing
              (instruction_chunks slotInstructions ++
               [ChunkInstruction (DirectiveInstruction h);
                ChunkHTMLString
                  (renderElement env "astro-island"
                     {| island_children :=
                          html ++ templates children
                                    (unrenderedSlots (Some r) metadata html children);
                        island_props :=
                          set "await-children" (Prim (PString "")) (island_props base) |}
                     false)])%list),
   (log ++ map check_call (consulted Component (props extracted) children (renderers result))
        ++ [renderToStaticMarkup_call r])%list).
Proof.
  intros Hcomp Hex Hhydration Hnotonly Hslots Htag Hclaim Hentry metadata Hmarkup Hhtml
         Hserialized Hbase.
  assert (Hmode : hydrate_is_only metadata = false).
  { unfold hydrate_is_only. cbn. apply String.eqb_neq, Hnotonly. }
  rewrite (renderFrameworkComponent_frame _ _ _ _ _ _ _ _ _ _ Hcomp Hex Hslots).
  rewrite Hhydration. fold metadata.
  rewrite (resolve_renderer_normal _ _ _ _ _ _ _ _ _ _ Hmode).
  rewrite (resolve_normal_untagged _ _ _ _ _ Htag).
  unfold normal_path_outcome. rewrite Hclaim.
  rewrite (render_markup_claimed _ _ _ _ _ _ _ _ _ _ _ Hmode), Hmarkup.
  unfold after_markup. rewrite Hhydration. fold metadata.
  unfold validate_clientEntrypoint. rewrite Hentry. cbn [negb andb].
  rewrite (custom_element_statement_normal _ _ _ _ _ _ _ Hmode).
  rewrite custom_element_fallback_keeps by (right; exact Hhtml).
  unfold build_island, compute_astroId.
  change (componentExport metadata) with (Some (hydration_componentExport h)).
  change (componentUrl metadata) with (Some (hydration_componentUrl h)).
  rewrite Hserialized, Hbase.
  assert (Hcontent : string_truthy (island_content (Some r) metadata html children) = true)
    by (apply string_truthy_iff, append_not_empty, Hhtml).
  rewrite Hcontent. unfold island_instance, island_content.
  rewrite <- app_assoc. reflexivity.
Qed.

Lemma X14_hydrated_render_witness :
  renderFrameworkComponent sample_env (sample_result [slot_marking_renderer])
                           "Card" untagged_component (load_props "/src/Card.jsx")
                           [("default", SlotFunction 0); ("b", SlotFunction 2)] [] =
  (Returns (island_instance sample_env None (load_hydration "/src/Card.jsx")
              (sample_island "/src/Card.jsx" "<div><astro-slot>x</astro-slot></div>"
                 ("<div><astro-slot>x</astro-slot></div>"
                  ++ slot_template [("default", "<p>hi</p>"); ("b", "<span>slot</span>")] "b"))),
   [check_call slot_marking_renderer; renderToStaticMarkup_call slot_marking_renderer]).
Proof.
  refine (X14_hydrated_render sample_env (sample_result [slot_marking_renderer])
            "Card" untagged_component (load_props "/src/Card.jsx")
            [("default", SlotFunction 0); ("b", SlotFunction 2)] []
            _ (load_hydration "/src/Card.jsx")
            [("default", "<p>hi</p>"); ("b", "<span>slot</span>")] None
            slot_marking_renderer "<div><astro-slot>x</astro-slot></div>" None "" _
            eq_refl eq_refl eq_refl _ eq_refl eq_refl eq_refl eq_refl eq_refl _
            eq_refl eq_refl);
    discriminate.
Defined.

(** ** The renderer that is used *)

Lemma filter_singleton {A} (p : A -> bool) (l : list A) (a : A) :
  filter p l = [a] -> In a l /\ p a = true /\ forall b, In b l -> p b = true -> b = a.
Proof.
  intros H.
  assert (Ha : In a (filter p l)) by (rewrite H; left; reflexivity).
  apply filter_In in Ha as [Hin Hp]. repeat split; [exact Hin|exact Hp|].
  intros b Hb Hpb.
  assert (Hbf : In b (filter p l)) by (apply filter_In; split; assumption).
  rewrite H in Hbf. destruct Hbf as [->|[]]. reflexivity.
Qed.

Lemma existsb_eqb_In n (l : list string) : existsb (String.eqb n) l = true <-> In n l.
Proof.
  rewrite existsb_exists. split.
  - intros (x & Hx & Heq). apply String.eqb_eq in Heq. subst x. exact Hx.
  - intros H. exists n. split; [exact H|apply String.eqb_refl].
Qed.

Lemma render_markup_unclaimed env result Component props children slots metadata
        valid probable log outcome log' :
  hydrate_is_only metadata = false ->
  is_string_component Component = None ->
  render_markup env result Component props children slots metadata valid probable None log =
  (outcome, log') ->
  (log' = log /\ exists e, outcome = Throws e)
  \/ (exists r,
        log' = (log ++ [renderToStaticMarkup_call r])%list
        /\ In r valid /\ In (name r) probable
        /\ (forall r', In r' valid -> In (name r') probable -> r' = r)
        /\ outcome =
           match renderToStaticMarkup (ssr r) Component props children metadata with
           | Returns (html, attrs) => Returns (Some r, html, attrs)
           | Throws e => Throws e
           end).
Proof.
  intros Hmode Hstring. unfold render_markup. rewrite Hmode, Hstring.
  destruct (filter (fun r => existsb (String.eqb (name r)) probable) valid)
    as [|r [|r' rest]] eqn:Hmatching.
  - intros H. inversion H. left. split; [reflexivity|]. eexists. reflexivity.
  - intros H. right. exists r.
    apply filter_singleton in Hmatching as (Hin & Hname & Honly).
    unfold bind, call_renderToStaticMarkup, invoke, ret in H.
    destruct (renderToStaticMarkup (ssr r) Component props children metadata)
      as [[html attrs]|e]; inversion H;
      (split; [reflexivity|]); (split; [exact Hin|]);
      (split; [apply existsb_eqb_In, Hname|]);
      (split; [|reflexivity]);
      intros r0 Hr0 Hn0; apply Honly; [exact Hr0|apply existsb_eqb_In, Hn0| |];
      try exact Hr0; try (apply existsb_eqb_In, Hn0).
  - intros H. inversion H. left. split; [reflexivity|]. eexists. reflexivity.
Qed.

(** X15. When no renderer was resolved for a component that is not a
    string, under a directive other than only, the markup statement never
    completes without a renderer: either it fails, or it has invoked the
    static render of exactly one renderer, which is registered among the
    renderers other than the pass-through one, bears a probable name, and
    is the only such renderer; no other hook is invoked. *)
Theorem X15_unclaimed_component env result Component props children slots metadata
        valid probable log outcome log' :
  hydrate_is_only metadata = false ->
  is_string_component Component = None ->
  render_markup env result Component props children slots metadata valid probable None log =
  (outcome, log') ->
  (log' = log /\ exists e, outcome = Throws e)
  \/ (exists r,
        log' = (log ++ [renderToStaticMarkup_call r])%list
        /\ In r valid /\ In (name r) probable
        /\ (forall r', In r' valid -> In (name r') probable -> r' = r)
        /\ outcome =
           match renderToStaticMarkup (ssr r) Component props children metadata with
           | Returns (html, attrs) => Returns (Some r, html, attrs)
           | Throws e => Throws e
           end).
Proof.
  apply render_markup_unclaimed.
Qed.

(** One renderer is registered, its name is a probable one, its check
    did not claim the component: its static render is invoked. *)
Lemma X15_unclaimed_component_witness :
  exists r,
    [renderToStaticMarkup_call vue_renderer] = ([] ++ [renderToStaticMarkup_call r])%list
    /\ In r [vue_renderer] /\ In (name r) (guessRenderers None).
Proof.
  destruct (X15_unclaimed_component sample_env (sample_result [vue_renderer])
              untagged_component [] [] [] (build_metadata "Counter" None)
              [vue_renderer] (guessRenderers None) []
              (Returns (Some vue_renderer, "<div>vue</div>", None))
              [renderToStaticMarkup_call vue_renderer]
              eq_refl eq_refl eq_refl)
    as [[_ [e He]]|(r & Hlog & Hin & Hname & _)].
  - discriminate He.
  - exists r. repeat split; assumption.
Defined.

Lemma claims_true Component props children r :
  claims Component props children r = true ->
  check (ssr r) Component props children = Returns true.
Proof.
  unfold claims. destruct (check (ssr r) Component props children) as [[|]|]; congruence.
Qed.

Lemma claim_by_check_selected renderers Component props children log r log1 :
  claim_by_check renderers Component props children log = (Returns (Some r), log1) ->
  In r renderers /\ check (ssr r) Component props children = Returns true.
Proof.
  rewrite claim_by_check_run. unfold normal_path_outcome.
  destruct (find (claims Component props children) renderers) as [r0|] eqn:Hfind.
  - intros H. inversion H. subst r0. apply find_some in Hfind as [Hin Hclaims].
    split; [exact Hin|apply claims_true, Hclaims].
  - destruct (recorded_error Component props children renderers) as [e|];
      [destruct (truthy e)|]; discriminate.
Qed.

Lemma resolve_normal_selected renderers Component props children log r log1 :
  resolve_normal renderers Component props children log = (Returns (Some r), log1) ->
  In r renderers
  /\ (truthy (isTagged Component) = false ->
      check (ssr r) Component props children = Returns true).
Proof.
  unfold resolve_normal, tagged_renderer.
  destruct (truthy (isTagged Component)) eqn:Htag.
  - unfold bind at 1. unfold bind at 1. unfold lift, ret.
    destruct (read_marker Component) as [v|e]; [|discriminate].
    destruct (find (name_is_value v) renderers) as [r0|] eqn:Hfind.
    + intros H. inversion H. subst r0. apply find_some in Hfind as [Hin _].
      split; [exact Hin|discriminate].
    + intros H. apply claim_by_check_selected in H as [Hin _].
      split; [exact Hin|discriminate].
  - rewrite bind_ret. intros H. apply claim_by_check_selected in H as [Hin Hcheck].
    split; [exact Hin|intros _; exact Hcheck].
Qed.

Lemma resolve_only_selected renderers metadata r :
  resolve_only renderers (non_pass_through renderers) metadata = Some r -> In r renderers.
Proof.
  rewrite resolve_only_explicit. unfold explicit_renderer.
  assert (Hfind : forall p, find p renderers = Some r -> In r renderers)
    by (intros p H; apply find_some in H; apply H).
  assert (Hrest :
            match non_pass_through renderers with
            | [r0] => Some r0
            | _ => find (name_matches (extname (componentUrl metadata))) renderers
            end = Some r -> In r renderers).
  { destruct (non_pass_through renderers) as [|r0 [|r1 rest]] eqn:Hvalid;
      try apply Hfind.
    intros H. inversion H. subst r0.
    assert (Hin : In r (non_pass_through renderers)) by (rewrite Hvalid; left; reflexivity).
    apply filter_In in Hin. apply Hin. }
  destruct (hydrateArgs metadata) as [n|]; [|exact Hrest].
  destruct (String.eqb n ""); [exact Hrest|].
  destruct (find (named (alias_of n)) renderers) as [r0|] eqn:Hnamed; [|exact Hrest].
  intros H. inversion H. subst r0. apply (Hfind _ Hnamed).
Qed.

(** X16. Whichever way a renderer is resolved (by its tag, by the
    capability checks, or by one of the attempts of the only directive),
    it is one of the registered renderers. Resolved for a component
    without a tag under a directive other than only, its check has
    returned true; resolved under the only directive, no hook has been
    invoked. *)
Theorem X16_renderer_registered env result Component _props props children slots metadata
        log r log1 :
  resolve_renderer env result Component _props props children slots metadata
                   (non_pass_through (renderers result)) log =
  (Returns (Resolved (Some r)), log1) ->
  In r (renderers result)
  /\ (hydrate_is_only metadata = false -> truthy (isTagged Component) = false ->
      check (ssr r) Component props children = Returns true)
  /\ (hydrate_is_only metadata = true -> log1 = log).
Proof.
  destruct (hydrate_is_only metadata) eqn:Hmode.
  - rewrite (resolve_renderer_only _ _ _ _ _ _ _ _ _ _ Hmode). intros H. inversion H.
    refine (conj _ (conj _ _)); [|discriminate|reflexivity].
    eapply resolve_only_selected. eassumption.
  - rewrite (resolve_renderer_normal _ _ _ _ _ _ _ _ _ _ Hmode).
    destruct (resolve_normal (renderers result) Component props children log)
      as [[[r0|]|e] log0] eqn:Hnormal.
    + intros H. inversion H. subst r0 log0.
      apply resolve_normal_selected in Hnormal as [Hin Hcheck].
      refine (conj Hin (conj _ _)); [intros _; exact Hcheck|discriminate].
    + destruct (HTMLElement_is_function env && componentIsHTMLElement env Component);
        [destruct (renderHTMLElement env result Component _props slots)|]; discriminate.
    + discriminate.
Qed.

Lemma X16_renderer_registered_witness :
  In vue_renderer (renderers (sample_result [jsx_renderer; vue_renderer])).
Proof.
  exact (proj1 (X16_renderer_registered sample_env (sample_result [jsx_renderer; vue_renderer])
                  untagged_component [] [] [] []
                  (build_metadata "Counter" (Some (only_hydration "" "/src/Counter.jsx")))
                  [] vue_renderer [] eq_refl)).
Defined.

(** ** Errors of the component *)

(** X17. When no renderer claims a component without a tag, under a
    directive other than only, and a check has thrown a value that is
    kept and truthy, the render fails with that very value once every
    check has run: no static render is invoked, the element fallback is not
    tried and no error about a missing renderer takes its place. *)
Theorem X17_check_error_surfaces env result displayName Component _props slots log
        extracted children slotInstructions e :
  component_truthy Component || client_only _props = true ->
  extractDirectives env _props (clientDirectives result) = Returns extracted ->
  hydrate_is_only (build_metadata displayName (hydration extracted)) = false ->
  renderSlots env result slots = Returns (children, slotInstructions) ->
  truthy (isTagged Component) = false ->
  find (claims Component (props extracted) children) (renderers result) = None ->
  recorded_error Component (props extracted) children (renderers result) = Some e ->
  truthy e = true ->
  renderFrameworkComponent env result displayName Component _props slots log =
  (Throws e, (log ++ map check_call (renderers result))%list).
Proof.
  intros Hcomp Hex Hmode Hslots Htag Hnone Hrecorded Htruthy.
  rewrite (renderFrameworkComponent_frame _ _ _ _ _ _ _ _ _ _ Hcomp Hex Hslots).
  rewrite (resolve_renderer_normal _ _ _ _ _ _ _ _ _ _ Hmode).
  rewrite (resolve_normal_untagged _ _ _ _ _ Htag).
  unfold normal_path_outcome. rewrite Hnone, Hrecorded, Htruthy.
  rewrite (consulted_all _ _ _ _ Hnone). reflexivity.
Qed.

Lemma X17_check_error_surfaces_witness :
  renderFrameworkComponent sample_env (sample_result [vue_renderer; failing_renderer])
                           "Counter" untagged_component [] [] [] =
  (Throws (ErrorObject (Error "window is not defined")),
   [check_call vue_renderer; check_call failing_renderer]).
Proof.
  exact (X17_check_error_surfaces sample_env (sample_result [vue_renderer; failing_renderer])
           "Counter" untagged_component [] [] []
           {| hydration := None; isPage := false; props := [] |} [] None
           (ErrorObject (Error "window is not defined"))
           eq_refl eq_refl eq_refl eq_refl eq_refl eq_refl eq_refl eq_refl).
Defined.

(** ** Pages that begin with an instruction *)

Lemma write_all_first env result head chunk chunks :
  str (write_all env result true head initial_destination (chunk :: chunks)) =
  (if doctype_test (String_of_chunk chunk) then "" else doctype_for result ++ head)
  ++ Str.join (map (chunk_text env result) (chunk :: chunks)).
Proof.
  unfold write_all. cbn [fold_left]. rewrite write_chunk_text.
  cbn [initial_destination str renderedFirstPageChunk andb negb orb].
  fold (write_all env result true head
          {| str := (if negb (doctype_test (String_of_chunk chunk))
                     then "" ++ (doctype_for result ++ head) else "")
                    ++ chunk_text env result chunk;
             renderedFirstPageChunk := true |} chunks).
  destruct (write_all_appends env result true head chunks
              {| str := (if negb (doctype_test (String_of_chunk chunk))
                         then "" ++ (doctype_for result ++ head) else "")
                        ++ chunk_text env result chunk;
                 renderedFirstPageChunk := true |} eq_refl) as [Hstr _].
  rewrite Hstr. cbn [str map]. rewrite join_cons, append_assoc.
  destruct (doctype_test (String_of_chunk chunk)); reflexivity.
Qed.

(** X18. The string form of a render instruction or of a response object
    holds no doctype, so a page whose first chunk is one of them always gets
    the doctype and the head content in front. This is the case of every
    hydrated component rendered as a page: its instance begins with an
    instruction, and the string begins with the doctype and the head
    content whatever the markup of the island holds. *)
Theorem X18_instruction_first env result head :
  (forall instruction chunks,
      str (write_all env result true head initial_destination
                     (ChunkInstruction instruction :: chunks)) =
      (doctype_for result ++ head)
      ++ Str.join (map (chunk_text env result) (ChunkInstruction instruction :: chunks)))
  /\ (forall chunks,
      str (write_all env result true head initial_destination (ChunkResponse :: chunks)) =
      (doctype_for result ++ head) ++ Str.join (map (chunk_text env result) chunks))
  /\ (forall slotInstructions h island,
      str (write_all env result true head initial_destination
                     (writes (island_instance env slotInstructions h island))) =
      (doctype_for result ++ head)
      ++ Str.join (map (chunk_text env result)
                       (writes (island_instance env slotInstructions h island)))).
Proof.
  refine (conj _ (conj _ _)).
  - intros instruction chunks. rewrite write_all_first. reflexivity.
  - intros chunks. rewrite write_all_first. cbn [map chunk_text].
    rewrite join_cons. reflexivity.
  - intros slotInstructions h island. unfold island_instance, writing. cbn [writes].
    destruct slotInstructions as [[|instruction instructions]|];
      cbn [instruction_chunks map app]; rewrite write_all_first; reflexivity.
Qed.

(** ** HTML components *)

(** X19. An HTML component rendered to a string outside a page gives the
    strings of the slot instructions, in order, followed by what the
    component returned for the rendered slots; without slot instructions
    the string is what the component returned. A component that throws
    makes the render fail with what the handler of the string renderer
    makes of the thrown value: the value itself, located if it is a
    structured error without a location, or a type error if the value is
    null or undefined. *)
Theorem X19_html_component env result displayName Component c props slots route log
        children slotInstructions :
  await_component Component = Returns c ->
  isHTMLComponent c = true ->
  renderSlots env result slots = Returns (children, slotInstructions) ->
  renderComponentToString env result displayName Component props slots false route log =
  (match callHTMLComponent env c children with
   | Returns html =>
       Returns (Str.join (map (fun instr => chunkToString env result (ChunkInstruction instr))
                              (match slotInstructions with
                               | Some instructions => instructions
                               | None => []
                               end))
                ++ html)
   | Throws e => Throws (with_location route e)
   end, log).
Proof.
  intros Hawait Hhtml Hslots.
  assert (Hrun : renderComponent env result displayName Component props slots log =
                 renderHTMLComponent env result c props slots log).
  { unfold renderComponent. rewrite Hawait, bind_lift_returns, Hhtml.
    destruct c as [p| |o]; cbn in *; try discriminate. reflexivity. }
  unfold renderComponentToString, try_catch, bind at 1. rewrite Hrun.
  unfold renderHTMLComponent. rewrite Hslots, bind_lift_returns.
  unfold bind, lift, ret.
  destruct (callHTMLComponent env c children) as [html|e]; [|reflexivity].
  cbn [writes rejects writing]. unfold write_all. cbn [fold_left].
  rewrite write_chunk_text. cbn [andb str initial_destination chunk_text chunkToString append].
  destruct slotInstructions; reflexivity.
Qed.

Lemma X19_html_component_witness :
  renderComponentToString html_env (sample_result [react_renderer]) "About"
                          (Settled html_component) [] [] false None [] =
  (Returns "<script>/* slot */</script><h1>About</h1>", []).
Proof.
  exact (X19_html_component html_env (sample_result [react_renderer]) "About"
           (Settled html_component) html_component [] [] None []
           [] (Some [SlotInstruction 7]) eq_refl eq_refl eq_refl).
Defined.

(** ** The probable renderers *)

Ltac next_char s :=
  destruct s as [|[[] [] [] [] [] [] [] []] s]; try (left; reflexivity).

Lemma guessRenderers_cases componentUrl :
  guessRenderers componentUrl = all_renderer_names
  \/ guessRenderers componentUrl = ["@astrojs/svelte"]
  \/ guessRenderers componentUrl = ["@astrojs/vue"]
  \/ guessRenderers componentUrl = jsx_renderer_names.
Proof.
  unfold guessRenderers. destruct (extname componentUrl) as [s|]; [|left; reflexivity].
  do 7 (try (next_char s)).
  all: right; cbn; auto.
Qed.

(** X20. Whatever the component URL, absent or without a known extension
    included, the list of probable renderers is not empty, each of its
    names is in the scope of the official integrations, none is the
    pass-through renderer, and each is a name of the full list or the JSX
    flavour of vue. Hence the renderer asked for its markup without having
    claimed the component always bears a scoped name. *)
Theorem X20_probable_names componentUrl :
  guessRenderers componentUrl <> []
  /\ (forall n, In n (guessRenderers componentUrl) ->
                prefix "@astrojs/" n = true
                /\ n <> "astro:jsx"
                /\ (In n all_renderer_names \/ n = "@astrojs/vue (jsx)"))
  /\ (forall env result Component props children slots metadata valid log r html attrs log',
        hydrate_is_only metadata = false ->
        is_string_component Component = None ->
        render_markup env result Component props children slots metadata valid
                      (guessRenderers componentUrl) None log =
        (Returns (Some r, html, attrs), log') ->
        prefix "@astrojs/" (name r) = true).
Proof.
  assert (Hnames : forall n, In n (guessRenderers componentUrl) ->
                             prefix "@astrojs/" n = true
                             /\ n <> "astro:jsx"
                             /\ (In n all_renderer_names \/ n = "@astrojs/vue (jsx)")).
  { intros n Hn.
    destruct (guessRenderers_cases componentUrl) as [H|[H|[H|H]]]; rewrite H in Hn;
      cbn in Hn;
      repeat (destruct Hn as [<-|Hn];
              [split; [reflexivity|split; [discriminate|cbn; tauto]]|]);
      destruct Hn. }
  refine (conj _ (conj Hnames _)).
  - destruct (guessRenderers_cases componentUrl) as [H|[H|[H|H]]]; rewrite H; discriminate.
  - intros env result Component props children slots metadata valid log r html attrs log'
           Hmode Hstring Hrun.
    destruct (render_markup_unclaimed env result Component props children slots metadata
                valid (guessRenderers componentUrl) log _ _ Hmode Hstring Hrun)
      as [[_ [e He]]|(r0 & _ & _ & Hname & _ & Hout)]; [discriminate|].
    destruct (renderToStaticMarkup (ssr r0) Component props children metadata)
      as [[html0 attrs0]|]; [|discriminate].
    inversion Hout. subst r0. apply Hnames, Hname.
Qed.

Lemma X20_probable_names_witness : prefix "@astrojs/" "@astrojs/svelte" = true.
Proof.
  apply (proj1 (proj2 (X20_probable_names (Some "/src/Tabs.svelte"))) "@astrojs/svelte").
  left. reflexivity.
Defined.

(** ** Tagged components as a whole *)

Lemma resolve_normal_tagged renderers o props children log v r :
  renderer_marker o = ReadIs v -> truthy v = true ->
  find (name_is_value v) renderers = Some r ->
  resolve_normal renderers (Obj o) props children log = (Returns (Some r), log).
Proof.
  intros Hread Htruthy Hfind.
  unfold resolve_normal, tagged_renderer, isTagged, read_marker.
  rewrite Hread, Htruthy. cbn. unfold bind, lift, ret. rewrite Hfind. reflexivity.
Qed.

(** X21. For a component tagged for a registered renderer, under a
    directive other than only, the only hook invoked is the static render
    of that renderer: a runtime error of the component is raised by that
    render and fails the whole render as it is, with no check having run
    and no error about renderers in its place; when the static render
    returns, the function goes on with its markup. *)
Theorem X21_tagged_render env result displayName o _props slots log
        extracted children slotInstructions v r :
  extractDirectives env _props (clientDirectives result) = Returns extracted ->
  hydrate_is_only (build_metadata displayName (hydration extracted)) = false ->
  renderSlots env result slots = Returns (children, slotInstructions) ->
  renderer_marker o = ReadIs v ->
  truthy v = true ->
  find (name_is_value v) (renderers result) = Some r ->
  renderFrameworkComponent env result displayName (Obj o) _props slots log =
  (match renderToStaticMarkup (ssr r) (Obj o) (props extracted) children
                              (build_metadata displayName (hydration extracted)) with
   | Throws e => Throws e
   | Returns (html, attrs) =>
       after_markup env result displayName (Obj o) extracted children slotInstructions
                    (Some r) html attrs
   end, (log ++ [renderToStaticMarkup_call r])%list).
Proof.
  intros Hex Hmode Hslots Hread Htruthy Hfind.
  assert (Hcomp : component_truthy (Obj o) || client_only _props = true) by reflexivity.
  rewrite (renderFrameworkComponent_frame _ _ _ _ _ _ _ _ _ _ Hcomp Hex Hslots).
  rewrite (resolve_renderer_normal _ _ _ _ _ _ _ _ _ _ Hmode).
  rewrite (resolve_normal_tagged _ _ _ _ _ _ _ Hread Htruthy Hfind).
  rewrite (render_markup_claimed _ _ _ _ _ _ _ _ _ _ _ Hmode).
  destruct (renderToStaticMarkup (ssr r) (Obj o) (props extracted) children
              (build_metadata displayName (hydration extracted))) as [[html attrs]|e];
    reflexivity.
Qed.

Lemma X21_tagged_render_witness :
  renderFrameworkComponent sample_env (sample_result [react_renderer; crashing_renderer])
                           "Chart" (tagged_component "@astrojs/solid-js") [] [] [] =
  (Throws (ErrorObject (Error "document is not defined")),
   [renderToStaticMarkup_call crashing_renderer]).
Proof.
  exact (X21_tagged_render sample_env (sample_result [react_renderer; crashing_renderer])
           "Chart"
           {| renderer_marker := ReadIs (Prim (PString "@astrojs/solid-js"));
              astro_html := false;
              isAstroComponentFactory := false;
              needsHeadRendering := false |}
           [] [] [] {| hydration := None; isPage := false; props := [] |} [] None
           (Prim (PString "@astrojs/solid-js")) crashing_renderer
           eq_refl eq_refl eq_refl eq_refl eq_refl eq_refl).
Defined.

(** A component promise rejected with null: the handler of the string
    renderer fails on it. *)
Example rejected_with_null :
  renderComponentToString sample_env (sample_result [react_renderer]) "Counter"
                          (Promise (Throws (Prim PNull))) [] [] false None [] =
  (Throws (ErrorObject (Error "Cannot read properties of null (reading 'type')")), []).
Proof. reflexivity. Qed.
